(** * SF Muni tracker: the feed gateway, the predictions normalizer and the
      client sync loop, embedded from [server.js] and [public/script.js].

    The JavaScript of the repository is embedded shallowly:
    - JSON data that the code inspects field by field (the 511.org stop
      monitoring feed) is a [JsValue]; data that arrives typed (the decoded
      protobuf feed, the static stop dataset) is a record;
    - a [try]/[catch] is an explicit [Completion]; code that reads the clock
      or mutates page state threads that state through the [Eff] monad;
    - JavaScript numbers are integer valued ([Num]) or [NaN]; where the source
      multiplies and adds doubles, the binary64 rounding is written out
      ([binary64]). *)

From Stdlib Require Import ZArith Lia Bool Ascii Permutation Sorted Floats.
From stdpp Require Import gmap strings pretty.

Local Open Scope Z_scope.
Set Warnings "-register-all".

(** ** JavaScript values *)

Module Js.

(** A Number that is an integer, or NaN.  Time values (milliseconds since the
    epoch), minute counts and the 32-bit words of a protobuf Long are all
    integers; a JSON number with a fraction is outside the model. *)
Inductive JsNum : Type :=
| Num (z : Z)
| NaN.

(** A parsed JSON text, or [undefined].  The list of an object holds each of
    its properties once. *)
Inductive JsValue : Type :=
| JUndefined
| JNull
| JBool (b : bool)
| JNumber (n : JsNum)
| JString (s : string)
| JArray (elems : list JsValue)
| JObject (props : list (string * JsValue)).

Inductive JsError : Type :=
| TypeError (message : string)
| Error (message : string).

Definition message (e : JsError) : string :=
  match e with TypeError m => m | Error m => m end.

(** The outcome of evaluating a statement list: a value, or a thrown error. *)
Inductive Completion (A : Type) : Type :=
| Normal (a : A)
| Throw (e : JsError).
Arguments Normal {A} a.
Arguments Throw {A} e.

(** [!v] is [negb (truthy v)]. *)
Definition truthy (v : JsValue) : bool :=
  match v with
  | JUndefined | JNull => false
  | JBool b => b
  | JNumber (Num z) => negb (z =? 0)
  | JNumber NaN => false
  | JString s => negb (String.eqb s "")
  | JArray _ | JObject _ => true
  end.

Fixpoint assoc (k : string) (props : list (string * JsValue)) : option JsValue :=
  match props with
  | [] => None
  | (k', v) :: rest => if String.eqb k k' then Some v else assoc k rest
  end.

(** [v.k] for a property name [k] that no prototype defines (every name read
    by the code below is of that kind): reading a property of [undefined] or
    [null] throws, a missing property is [undefined]. *)
Definition get (v : JsValue) (k : string) : Completion JsValue :=
  match v with
  | JUndefined | JNull =>
      Throw (TypeError ("Cannot read properties of undefined (reading '" +:+ k +:+ "')"))
  | JObject props => Normal (default JUndefined (assoc k props))
  | _ => Normal JUndefined
  end.

(** [v?.k] *)
Definition getOpt (v : JsValue) (k : string) : JsValue :=
  match v with
  | JObject props => default JUndefined (assoc k props)
  | _ => JUndefined
  end.

(** [a || b] *)
Definition or (a b : JsValue) : JsValue := if truthy a then a else b.

(** [v === 'literal'] *)
Definition strictEqString (v : JsValue) (lit : string) : bool :=
  match v with
  | JString s => String.eqb s lit
  | _ => false
  end.

(** [a - b], [a < 0] and [0 < a] on Numbers. *)
Definition sub (a b : JsNum) : JsNum :=
  match a, b with
  | Num x, Num y => Num (x - y)
  | _, _ => NaN
  end.

Definition ltZero (a : JsNum) : bool :=
  match a with Num x => x <? 0 | NaN => false end.

Definition gtZero (a : JsNum) : bool :=
  match a with Num x => 0 <? x | NaN => false end.

(** [Math.round(x / d)] for an integer [x] and a positive integer [d]:
    the nearest integer, a tie going up, that is [floor (x / d + 1/2)].
    The division is a double division, and for [d = 60000] and [|x| < 2^53]
    its rounding does not change the result: an exact quotient that is not a
    half-integer is at least [1/60000] away from each half-integer, and the
    double quotient is within [2^-16] of the exact one.  ([x] is the
    difference of a time value, at most 8.64e15 in magnitude, and a reading
    of the clock, so [|x| < 2^53].) *)
Definition Math_round_div (x : JsNum) (d : Z) : JsNum :=
  match x with
  | Num z => Num ((2 * z + d) / (2 * d))
  | NaN => NaN
  end.

(** [String(v)] as [new Date(v)] and template literals apply it (an integer
    below [1e21] in magnitude prints in decimal). *)
Definition Number_toString (n : JsNum) : string :=
  match n with
  | Num z => pretty z
  | NaN => "NaN"
  end.

Fixpoint toString (v : JsValue) : string :=
  match v with
  | JUndefined => "undefined"
  | JNull => "null"
  | JBool true => "true"
  | JBool false => "false"
  | JNumber n => Number_toString n
  | JString s => s
  | JArray elems =>
      (fix join (l : list JsValue) : string :=
         match l with
         | [] => ""
         | x :: rest =>
             let sx := match x with
                       | JUndefined | JNull => ""
                       | _ => toString x
                       end in
             match rest with
             | [] => sx
             | _ :: _ => sx +:+ "," +:+ join rest
             end
         end) elems
  | JObject _ => "[object Object]"
  end.

(** ** Dates *)

(** [TimeClip]: a time value beyond 8.64e15 ms is not a date. *)
Definition TimeClip (n : JsNum) : JsNum :=
  match n with
  | Num t => if Z.abs t <=? 8640000000000000 then Num t else NaN
  | NaN => NaN
  end.

Section Date.
(** [Date.parse]: the time value of a date string, [NaN] when the string is
    not a date.  Outside the ECMAScript date-time format the accepted
    strings depend on the engine, so the parser is a parameter. *)
Variable Date_parse : string -> JsNum.

(** The time value of [new Date(v)]. *)
Definition Date_new (v : JsValue) : JsNum :=
  match v with
  | JUndefined => NaN
  | JNull => Num 0
  | JBool b => Num (if b then 1 else 0)
  | JNumber n => TimeClip n
  | JString s => TimeClip (Date_parse s)
  | JArray _ | JObject _ => TimeClip (Date_parse (toString v))
  end.
End Date.

(** A [Date.parse] for evaluating the code on the concrete feeds of this
    file: it reads the UTC form [YYYY-MM-DDTHH:mm:ssZ] of the ECMAScript
    date-time format, which is the form 511.org sends, as the engines do.
    Every other string it takes as not a date; the engines read more forms
    (milliseconds, offsets), and it is used on none of those. *)
Definition digit (c : ascii) : option Z :=
  let n := Z.of_nat (nat_of_ascii c) in
  if (48 <=? n) && (n <=? 57) then Some (n - 48) else None.

Fixpoint digits (cs : list ascii) (acc : Z) : option Z :=
  match cs with
  | [] => Some acc
  | c :: rest =>
      match digit c with
      | Some d => digits rest (10 * acc + d)
      | None => None
      end
  end.

Definition isLeapYear (y : Z) : bool :=
  (y mod 4 =? 0) && (negb (y mod 100 =? 0) || (y mod 400 =? 0)).

Definition daysInMonth (y m : Z) : Z :=
  if m =? 2 then (if isLeapYear y then 29 else 28)
  else if (m =? 4) || (m =? 6) || (m =? 9) || (m =? 11) then 30
  else 31.

(** Days from 1970-01-01 to the civil date [y]-[m]-[d]. *)
Definition daysFromCivil (y m d : Z) : Z :=
  let y' := if m <=? 2 then y - 1 else y in
  let era := y' / 400 in
  let yearOfEra := y' - era * 400 in
  let monthFromMarch := if 2 <? m then m - 3 else m + 9 in
  let dayOfYear := (153 * monthFromMarch + 2) / 5 + d - 1 in
  let dayOfEra := yearOfEra * 365 + yearOfEra / 4 - yearOfEra / 100 + dayOfYear in
  era * 146097 + dayOfEra - 719468.

Definition Date_parse_utc (s : string) : JsNum :=
  let field (start len : nat) :=
    digits (String.list_ascii_of_string (String.substring start len s)) 0 in
  let sep (pos : nat) (c : string) := String.eqb (String.substring pos 1 s) c in
  if Nat.eqb (String.length s) 20
     && sep 4%nat "-" && sep 7%nat "-" && sep 10%nat "T"
     && sep 13%nat ":" && sep 16%nat ":" && sep 19%nat "Z"
  then
    match field 0%nat 4%nat, field 5%nat 2%nat, field 8%nat 2%nat,
          field 11%nat 2%nat, field 14%nat 2%nat, field 17%nat 2%nat with
    | Some y, Some m, Some d, Some h, Some mi, Some sec =>
        if (1 <=? m) && (m <=? 12) && (1 <=? d) && (d <=? daysInMonth y m)
           && (h <=? 23) && (mi <=? 59) && (sec <=? 59)
        then Num ((((daysFromCivil y m d * 24 + h) * 60 + mi) * 60 + sec) * 1000)
        else NaN
    | _, _, _, _, _, _ => NaN
    end
  else NaN.

(** ** Double arithmetic on integers

    [a * b] and [a + b] on Numbers are the exact result rounded to the
    nearest double, a tie going to the even significand.  A double carries 53
    significant bits, so an integer below [2^53] in magnitude is kept as it
    is and a larger one keeps its 53 leading bits.  (The operands below are
    32-bit words and two constants; nothing comes near the overflow bound
    [2^1024].) *)
Definition binary64 (x : Z) : Z :=
  let a := Z.abs x in
  if a <? 2 ^ 53 then x
  else
    let e := Z.log2 a - 52 in
    let q := a / 2 ^ e in
    let r := a mod 2 ^ e in
    let half := 2 ^ (e - 1) in
    let q' := if r <? half then q
              else if half <? r then q + 1
              else if Z.even q then q else q + 1 in
    Z.sgn x * (q' * 2 ^ e).

Definition mul (a b : Z) : Z := binary64 (a * b).
Definition add (a b : Z) : Z := binary64 (a + b).

(** The primitive doubles of the kernel, for checking [binary64] against the
    hardware arithmetic on concrete operands: an integer below [2^53] as a
    double, and the integer a double denotes. *)
Definition toFloat (z : Z) : float :=
  let f := PrimFloat.of_uint63 (Uint63.of_Z (Z.abs z)) in
  if z <? 0 then PrimFloat.opp f else f.

Definition ofFloat (f : float) : option Z :=
  match Prim2SF f with
  | S754_zero _ => Some 0
  | S754_finite s m e =>
      let magnitude :=
        if 0 <=? e then Some (Z.pos m * 2 ^ e)
        else if Z.pos m mod 2 ^ (- e) =? 0 then Some (Z.pos m / 2 ^ (- e))
        else None in
      option_map (fun a => if s then - a else a) magnitude
  | _ => None
  end.

(** ** Effects: a state threaded through code that may throw *)

Definition Eff (S A : Type) : Type := S -> Completion A * S.

Definition ret {S A} (a : A) : Eff S A := fun s => (Normal a, s).

Definition bind {S A B} (m : Eff S A) (k : A -> Eff S B) : Eff S B :=
  fun s => match m s with
           | (Normal a, s') => k a s'
           | (Throw e, s') => (Throw e, s')
           end.

Definition throw {S A} (e : JsError) : Eff S A := fun s => (Throw e, s).

(** [lift c]: a pure computation that may throw. *)
Definition lift {S A} (c : Completion A) : Eff S A := fun s => (c, s).

(** [try { m } catch (error) { handler error }]: state changes made before
    the throw stay. *)
Definition tryCatch {S A} (m : Eff S A) (handler : JsError -> Eff S A) : Eff S A :=
  fun s => match m s with
           | (Normal a, s') => (Normal a, s')
           | (Throw e, s') => handler e s'
           end.

Definition modify {S} (f : S -> S) : Eff S unit := fun s => (Normal tt, f s).
Definition gets {S A} (f : S -> A) : Eff S A := fun s => (Normal (f s), s).

(** [forEach]: run the callback on each element, left to right, stopping at
    the first throw. *)
Fixpoint forEach {S A} (f : A -> Eff S unit) (l : list A) : Eff S unit :=
  match l with
  | [] => ret tt
  | x :: rest => bind (f x) (fun _ => forEach f rest)
  end.

(** [Array.prototype.map] with an effectful callback. *)
Fixpoint mapM {S A B} (f : A -> Eff S B) (l : list A) : Eff S (list B) :=
  match l with
  | [] => ret []
  | x :: rest => bind (f x) (fun y => bind (mapM f rest) (fun ys => ret (y :: ys)))
  end.

(** ** [Array.prototype.sort] with a comparator *)

(** The sort is stable, and a comparator result that is [NaN] counts as [+0]:
    an element moves behind another only when the comparator is positive.
    For a comparator that is not consistent (with [a.minutes - b.minutes],
    when a [NaN] is among the minutes) the language leaves the order to the
    engine; the order computed here is then one that an engine may give, and
    what is proved of the order of a sorted list is proved where the keys
    are numbers, or does not depend on the order. *)
Section Sort.
Context {A : Type} (cmp : A -> A -> JsNum).

Fixpoint sortInsert (x : A) (l : list A) : list A :=
  match l with
  | [] => [x]
  | y :: rest => if gtZero (cmp x y) then y :: sortInsert x rest else x :: l
  end.

Definition Array_sort (l : list A) : list A := foldr sortInsert [] l.
End Sort.

End Js.

Module JsNotations.
Notation "'do' x <- m ; k" := (Js.bind m (fun x => k))
  (at level 10, x name, m at level 100, k at level 200,
   format "'[v' 'do'  x  <-  m ; '/' k ']'").
Notation "'run' m ; k" := (Js.bind m (fun _ => k))
  (at level 10, m at level 100, k at level 200,
   format "'[v' 'run'  m ; '/' k ']'").
End JsNotations.

(** ** The vehicle record of [GET /api/vehicles]

    What the gateway sends and the page receives.  A protobuf [uint64] is
    decoded as a Long, an object with two signed 32-bit words; [res.json]
    writes it as [{low, high, unsigned}] and the page reads it back as such.
    A property whose value is [undefined] is [None]. *)

Module Api.

Record Long : Type := mkLong { low : Z; high : Z; unsigned : bool }.

Record Vehicle : Type := mkVehicle {
  trainId : string;
  routeId : string;
  direction : option Z;
  stopId : string;
  currentStopSequence : Z;
  currentStatus : Z;
  latitude : option float;
  longitude : option float;
  speed : option float;
  timestamp : Long;
  rawTimestamp : Long;
  readableStatus : option string
}.

End Api.

(** ** [public/script.js] *)

Module Client.
Import Js JsNotations Api.

Definition trainLines : list string := ["J"; "K"; "L"; "M"; "N"; "T"].

Record StopDetails : Type := mkStopDetails {
  sd_name : string;
  sd_line : string;
  sd_lat : option string;
  sd_long : option string
}.

(** The static dataset [train-routes.json]: [{routes: [{line, stops: [{id,
    name, lat, long}]}]}].  A string property that is absent reads as falsy,
    like the empty string. *)
Record Stop : Type := mkStop {
  id : string;
  name : string;
  lat : option string;
  long : option string
}.

Record Route : Type := mkRoute { line : string; stops : list Stop }.

Record Dataset : Type := mkDataset { routes : list Route }.

(** What a prediction container shows: its child elements. *)
Inductive Node : Type :=
| StopNameHeader (textContent : JsValue)
| LoadingDiv (textContent : string)
| PredictionItem (destination : string) (status : string) (atStopClass : bool).

Record Marker : Type := mkMarker {
  m_letter : string;
  m_direction : string;
  m_lngLat : option float * option float;
  m_popup : string
}.

Inductive RegionId : Type := inbound_predictions | outbound_predictions.

(** The globals of the script and the parts of the document it writes.
    [ticks] counts the evaluations of [new Date()] so far. *)
Record Page : Type := mkPage {
  allStops : gmap string StopDetails;
  currentStops : string * string;
  selectedTrainLines : gmap string bool;
  mapLoaded : bool;
  markers : list Marker;
  region_inbound : list Node;
  region_outbound : list Node;
  update_time : option Z;
  console : list string;
  ticks : nat
}.

Definition set_allStops (f : gmap string StopDetails -> gmap string StopDetails) (p : Page) : Page :=
  mkPage (f (allStops p)) (currentStops p) (selectedTrainLines p) (mapLoaded p)
         (markers p) (region_inbound p) (region_outbound p) (update_time p)
         (console p) (ticks p).

Definition set_markers (f : list Marker -> list Marker) (p : Page) : Page :=
  mkPage (allStops p) (currentStops p) (selectedTrainLines p) (mapLoaded p)
         (f (markers p)) (region_inbound p) (region_outbound p) (update_time p)
         (console p) (ticks p).

Definition set_region (r : RegionId) (f : list Node -> list Node) (p : Page) : Page :=
  match r with
  | inbound_predictions =>
      mkPage (allStops p) (currentStops p) (selectedTrainLines p) (mapLoaded p)
             (markers p) (f (region_inbound p)) (region_outbound p) (update_time p)
             (console p) (ticks p)
  | outbound_predictions =>
      mkPage (allStops p) (currentStops p) (selectedTrainLines p) (mapLoaded p)
             (markers p) (region_inbound p) (f (region_outbound p)) (update_time p)
             (console p) (ticks p)
  end.

Definition region (r : RegionId) (p : Page) : list Node :=
  match r with
  | inbound_predictions => region_inbound p
  | outbound_predictions => region_outbound p
  end.

Definition set_update_time (t : Z) (p : Page) : Page :=
  mkPage (allStops p) (currentStops p) (selectedTrainLines p) (mapLoaded p)
         (markers p) (region_inbound p) (region_outbound p) (Some t)
         (console p) (ticks p).

(** [console.error(msg, error)] *)
Definition console_error (msg : string) : Eff Page unit :=
  modify (fun p =>
    mkPage (allStops p) (currentStops p) (selectedTrainLines p) (mapLoaded p)
           (markers p) (region_inbound p) (region_outbound p) (update_time p)
           (console p ++ [msg]) (ticks p)).

(** What the browser hands back for a [fetch] followed by [response.json()]:
    the request is rejected, or a response arrives with its [ok] flag and the
    outcome of parsing its body as a [B]. *)
Inductive FetchResult (B : Type) : Type :=
| FetchRejected (e : JsError)
| FetchResponse (ok : bool) (status : Z) (json : Completion B).
Arguments FetchRejected {B} e.
Arguments FetchResponse {B} ok status json.

(** *** Stops *)

Definition nonEmpty (s : string) : bool := negb (String.eqb s "").

(** [loadAllStops]: the callback of the inner [forEach]. *)
Definition addStop (route : Route) (stop : Stop)
    (m : gmap string StopDetails) : gmap string StopDetails :=
  if nonEmpty (id stop) && nonEmpty (name stop)
  then <[id stop := mkStopDetails (name stop) (line route) (lat stop) (long stop)]> m
  else m.

Definition addRoute (route : Route) (m : gmap string StopDetails) : gmap string StopDetails :=
  foldl (fun acc stop => addStop route stop acc) m (stops route).

Definition loadAllStops (fetched : FetchResult Dataset) : Eff Page unit :=
  tryCatch
    (match fetched with
     | FetchRejected e => throw e
     | FetchResponse _ _ (Throw e) => throw e
     | FetchResponse _ _ (Normal data) =>
         modify (set_allStops (fun m => foldl (fun acc route => addRoute route acc) m (routes data)))
     end)
    (fun error => console_error "Error loading stops:").

Record Validation : Type := mkValidation { isValid : bool; details : option StopDetails }.

Definition validateStop (p : Page) (stopId : string) : Validation :=
  let stop := allStops p !! stopId in
  {| isValid := bool_decide (is_Some stop); details := stop |}.

(** *** Predictions *)

Record Prediction : Type := mkPrediction {
  minutes : JsNum;
  destination : JsValue;
  atStop : bool
}.

Section Predictions.
Variable Date_parse : string -> JsNum.
(** [clock n] is the time value that the [n]-th evaluation of [new Date()]
    on the page reads. *)
Variable clock : nat -> Z.

Definition newDate : Eff Page Z :=
  fun p => (Normal (clock (ticks p)),
            mkPage (allStops p) (currentStops p) (selectedTrainLines p) (mapLoaded p)
                   (markers p) (region_inbound p) (region_outbound p) (update_time p)
                   (console p) (S (ticks p))).

Definition formatMinutes (minutes : JsNum) : string :=
  match minutes with
  | Num 0 => "Arriving"
  | Num 1 => "1 min"
  | _ => Number_toString minutes +:+ " mins"
  end.

(** [s.replace(pattern, replacement)] with a string pattern: the first
    occurrence only. *)
Fixpoint replace (pattern replacement s : string) : string :=
  if String.prefix pattern s
  then replacement +:+ String.substring (String.length pattern)
                         (String.length s - String.length pattern) s
  else match s with
       | EmptyString => EmptyString
       | String c rest => String c (replace pattern replacement rest)
       end.

Definition createPredictionElement (prediction : Prediction) : Completion Node :=
  let status := if atStop prediction then "At Stop"
                else formatMinutes (minutes prediction) in
  match destination prediction with
  | JString s =>
      Normal (PredictionItem (replace "Metro " "" (replace " Station" "" s))
                             status (atStop prediction))
  | JUndefined | JNull =>
      Throw (TypeError "Cannot read properties of undefined (reading 'replace')")
  | _ => Throw (TypeError "prediction.destination.replace is not a function")
  end.

(** The callback of [visits.map] in [extractPredictions]; [None] is the
    [null] it returns for a visit it drops. *)
Definition visitCallback (visit : JsValue) : Eff Page (option Prediction) :=
  tryCatch
    (do journey <- lift (get visit "MonitoredVehicleJourney");
     if negb (truthy (getOpt (getOpt journey "MonitoredCall") "ExpectedArrivalTime"))
     then ret None
     else
       do call <- lift (get journey "MonitoredCall");
       do expected <- lift (get call "ExpectedArrivalTime");
       let arrivalTime := Date_new Date_parse expected in
       do now <- newDate;
       let minutesAway := Math_round_div (sub arrivalTime (Num now)) 60000 in
       if ltZero minutesAway then ret None
       else
         do display <- lift (get call "DestinationDisplay");
         do fallback <- lift (get journey "DestinationName");
         do vehicleAtStop <- lift (get call "VehicleAtStop");
         ret (Some {| minutes := minutesAway;
                      destination := Js.or display fallback;
                      atStop := strictEqString vehicleAtStop "true" |}))
    (fun error => run console_error "Error processing visit:"; ret None).

Definition byMinutes (a b : Prediction) : JsNum := sub (minutes a) (minutes b).

Definition extractPredictions (stopData : JsValue) : Eff Page (list Prediction) :=
  tryCatch
    (if negb (truthy (getOpt (getOpt (getOpt stopData "ServiceDelivery")
                                     "StopMonitoringDelivery") "MonitoredStopVisit"))
     then ret []
     else
       do delivery <- lift (get stopData "ServiceDelivery");
       do monitoring <- lift (get delivery "StopMonitoringDelivery");
       do visits <- lift (get monitoring "MonitoredStopVisit");
       match visits with
       | JArray elems =>
           do mapped <- mapM visitCallback elems;
           ret (Array_sort byMinutes (omap (fun prediction => prediction) mapped))
       | _ => throw (TypeError "visits.map is not a function")
       end)
    (fun error => run console_error "Error processing predictions:"; ret []).

Definition appendChild (r : RegionId) (n : Node) : Eff Page unit :=
  modify (set_region r (fun children => children ++ [n])).

Definition updatePredictionsDisplay (data : JsValue) (elementId : RegionId) : Eff Page unit :=
  run modify (set_region elementId (fun _ => []));
  do stopName <- lift (get data "stopName");
  run appendChild elementId (StopNameHeader stopName);
  do predictions <- extractPredictions data;
  match predictions with
  | [] => appendChild elementId (LoadingDiv "No predictions available")
  | _ :: _ =>
      forEach (fun prediction =>
                 do item <- lift (createPredictionElement prediction);
                 appendChild elementId item)
              predictions
  end.

Definition updateTimeDisplay : Eff Page unit :=
  do now <- newDate;
  modify (set_update_time now).

Definition processApiResponse (data : JsValue) : Eff Page unit :=
  do inbound <- lift (get data "inbound");
  run (if truthy inbound
       then updatePredictionsDisplay inbound inbound_predictions
       else ret tt);
  do outbound <- lift (get data "outbound");
  run (if truthy outbound
       then updatePredictionsDisplay outbound outbound_predictions
       else ret tt);
  updateTimeDisplay.

Definition errorLoadingPredictions : list Node :=
  [LoadingDiv "Error loading predictions"].

Definition fetchPredictions (fetched : FetchResult JsValue) : Eff Page unit :=
  tryCatch
    (match fetched with
     | FetchRejected e => throw e
     | FetchResponse false _ _ => throw (Error "Network response was not ok")
     | FetchResponse true _ (Throw e) => throw e
     | FetchResponse true _ (Normal data) => processApiResponse data
     end)
    (fun error =>
       run console_error "Error fetching predictions:";
       run modify (set_region inbound_predictions (fun _ => errorLoadingPredictions));
       modify (set_region outbound_predictions (fun _ => errorLoadingPredictions))).
End Predictions.

(** *** Vehicle timestamps *)

(** What [formatTimestamp] may be handed: nothing, a Number, or the Long
    object of the vehicle feed. *)
Inductive TimestampArg : Type :=
| TsUndefined
| TsNumber (n : JsNum)
| TsLong (l : Long).

(** What [formatTimestamp] returns: a fixed text, or the [en-US] rendering of
    a time value by [toLocaleString] (the rendering itself is the browser's). *)
Inductive FormattedTime : Type :=
| Text (s : string)
| LocaleString (timeValue : Z).

(** [timestamp.low * 1000 + timestamp.high * 4294967296000] *)
Definition milliseconds (l : Long) : Z :=
  Js.add (Js.mul (low l) 1000) (Js.mul (high l) 4294967296000).

Definition formatTimestamp (timestamp : TimestampArg) : FormattedTime :=
  let render (t : JsNum) :=
    match TimeClip t with
    | NaN => Text "Invalid Date"
    | Num t => LocaleString t
    end in
  match timestamp with
  | TsUndefined => Text "N/A"
  | TsNumber n => if truthy (JNumber n) then render n else Text "N/A"
  | TsLong l => render (Num (milliseconds l))
  end.

(** *** Vehicle markers *)

Definition firstChar (s : string) : string :=
  match s with
  | EmptyString => "undefined"
  | String c _ => String c EmptyString
  end.

(** [Number(c)] for a coordinate of the parsed response, as Mapbox GL JS
    converts the pair given to [setLngLat]: a property that is not there is
    [undefined] and gives [NaN], here [None]; a number that is not finite was
    written as [null] by [res.json], and [null] gives [0]. *)
Definition coordinate (c : option float) : option float :=
  match c with
  | None => None
  | Some f => if PrimFloat.is_finite f then Some f else Some 0%float
  end.

(** [LngLat.convert([lng, lat])] of Mapbox GL JS, which [setLngLat] calls:
    it throws when a coordinate is [NaN] (the message goes on with the two
    numbers) and when the latitude is outside [-90, 90]. *)
Definition LngLat_convert (lng lat : option float) : Completion (float * float) :=
  match coordinate lng, coordinate lat with
  | Some x, Some y =>
      if PrimFloat.ltb 90 y || PrimFloat.ltb y (-90)
      then Throw (Error "Invalid LngLat latitude value: must be between -90 and 90")
      else Normal (x, y)
  | _, _ => Throw (Error "Invalid LngLat object")
  end.

(** The marker that [updateMapMarkers] builds for one vehicle. *)
Definition newMarker (vehicle : Vehicle) : Marker :=
  {| m_letter := firstChar (trainId vehicle);
     m_direction := match direction vehicle with Some 0 => "in" | _ => "out" end;
     m_lngLat := (coordinate (longitude vehicle), coordinate (latitude vehicle));
     m_popup := "<h3>Train " +:+ trainId vehicle +:+ "</h3><p>"
                +:+ default "undefined" (readableStatus vehicle) +:+ "</p>" |}.

(** The callback of [vehicles.filter]. *)
Definition isSelected (p : Page) (vehicle : Vehicle) : bool :=
  match find (fun line => String.prefix line (trainId vehicle)) trainLines with
  | Some trainLine => default false (selectedTrainLines p !! trainLine)
  | None => false
  end.

Definition updateMapMarkers (vehicles : list Vehicle) : Eff Page unit :=
  run modify (set_markers (fun _ => []));
  do selectedVehicles <- gets (fun p => filter (fun vehicle => Is_true (isSelected p vehicle)) vehicles);
  forEach (fun vehicle =>
             (* [setLngLat] throws before the marker is added and pushed *)
             run lift (LngLat_convert (longitude vehicle) (latitude vehicle));
             modify (set_markers (fun ms => ms ++ [newMarker vehicle])))
          selectedVehicles.

(** The body of the vehicles response: [None] when [data] is falsy or has no
    [vehicles] property. *)
Definition fetchVehiclePositions (fetched : FetchResult (option (list Vehicle))) : Eff Page unit :=
  tryCatch
    (match fetched with
     | FetchRejected e => throw e
     | FetchResponse false status _ =>
         throw (Error ("HTTP error! status: " +:+ pretty status))
     | FetchResponse true _ (Throw e) => throw e
     | FetchResponse true _ (Normal None) =>
         throw (Error "Invalid data structure received from server")
     | FetchResponse true _ (Normal (Some vehicles)) =>
         do loaded <- gets mapLoaded;
         if (0 <? Z.of_nat (length vehicles)) && loaded
         then updateMapMarkers vehicles
         else ret tt
     end)
    (fun error => console_error "Error fetching vehicle positions:").

End Client.

(** ** [server.js] *)

Module Server.
Import Js Api.

(** The decoded GTFS-realtime feed, typed by the protobuf schema: a message
    field that is absent is [None], an absent scalar carries its default. *)
Module Gtfs.
Record TripDescriptor : Type := mkTrip { routeId : string; directionId : Z }.
Record VehicleDescriptor : Type := mkDescriptor { id : string }.
Record Position : Type := mkPosition { latitude : float; longitude : float; speed : float }.
Record VehiclePosition : Type := mkVehiclePosition {
  trip : option TripDescriptor;
  vehicle : option VehicleDescriptor;
  position : option Position;
  currentStopSequence : Z;
  stopId : string;
  currentStatus : Z;
  timestamp : Long
}.
Record FeedEntity : Type := mkEntity { entityId : string; entityVehicle : option VehiclePosition }.
Record FeedMessage : Type := mkFeed { entity : list FeedEntity }.
End Gtfs.

(** A response of a route handler: [res.json(payload)] (status 200), or
    [res.status(500).json({ error })]. *)
Inductive Response (B : Type) : Type :=
| Json (payload : B)
| Status500 (error : string).
Arguments Json {B} payload.
Arguments Status500 {B} error.

Definition status {B} (r : Response B) : Z :=
  match r with Json _ => 200 | Status500 _ => 500 end.

Definition STOPS : gmap string string :=
  {[ "17109" := "Inbound to Downtown"; "16503" := "Outbound to Ocean Beach" ]}.

(** [STOPS] is a plain object, so [STOPS[stopId]] also finds what every
    object inherits from [Object.prototype]: its functions, under the names
    below, and the accessor [__proto__], which gives the prototype itself. *)
Definition inheritedFunctions : list string :=
  ["constructor"; "__defineGetter__"; "__defineSetter__"; "hasOwnProperty";
   "__lookupGetter__"; "__lookupSetter__"; "isPrototypeOf"; "propertyIsEnumerable";
   "toString"; "valueOf"; "toLocaleString"].

Inductive Property : Type :=
| OwnString (value : string)
| InheritedFunction (name : string)
| ThePrototype
| NoProperty.

(** [STOPS[stopId]]; the function under ["constructor"] is [Object]. *)
Definition STOPS_get (stopId : string) : Property :=
  match STOPS !! stopId with
  | Some name => OwnString name
  | None =>
      if bool_decide (stopId ∈ inheritedFunctions)
      then InheritedFunction (if String.eqb stopId "constructor" then "Object" else stopId)
      else if String.eqb stopId "__proto__" then ThePrototype
      else NoProperty
  end.

(** [value || fallback] for a query parameter or an environment variable. *)
Definition orElse (value : option string) (fallback : string) : string :=
  match value with
  | Some s => if String.eqb s "" then fallback else s
  | None => fallback
  end.

Section Predictions.
(** [process.env.TRANSIT_API_KEY] *)
Variable TRANSIT_API_KEY : option string.
(** The 511.org answers to the two stop monitoring requests of one call, the
    one made for the inbound and the one made for the outbound stop, each as
    a function of the stop code asked for: [response.data], or the error
    [axios.get] rejects with.  The two requests are separate ones, also when
    they ask for the same stop. *)
Variable upstream_inbound upstream_outbound : string -> Completion JsValue.

(** [getStopPredictions], with the answer to its request; it logs and
    rethrows. *)
Definition getStopPredictions (upstream : string -> Completion JsValue)
    (stopId : string) : Completion JsValue :=
  match upstream stopId with
  | Normal data => Normal data
  | Throw error => Throw error
  end.

(** A property of the response object; [res.json] leaves out a property
    whose value is [undefined]. *)
Definition prop (k : string) (v : JsValue) : list (string * JsValue) :=
  match v with
  | JUndefined => []
  | _ => [(k, v)]
  end.

(** [STOPS[stopId] || `Stop #${stopId}`] as [res.json] writes it: a function
    is left out like [undefined], the prototype object is written as [{}]. *)
Definition stopName (stopId : string) : JsValue :=
  match STOPS_get stopId with
  | OwnString name => JString name
  | InheritedFunction _ => JUndefined
  | ThePrototype => JObject []
  | NoProperty => JString ("Stop #" +:+ stopId)
  end.

Definition stopEntry (stopId : string) (data : JsValue) : Completion JsValue :=
  match get data "ServiceDelivery" with
  | Throw e => Throw e
  | Normal delivery =>
      Normal (JObject (prop "stopName" (stopName stopId) ++ prop "ServiceDelivery" delivery))
  end.

(** [app.get('/api/predictions', ...)] *)
Definition api_predictions (query_inbound query_outbound : option string) : Response JsValue :=
  let inboundStopId := orElse query_inbound "17109" in
  let outboundStopId := orElse query_outbound "16503" in
  let attempt : Completion JsValue :=
    if String.eqb (orElse TRANSIT_API_KEY "") ""
    then Throw (Error "Transit API key not configured. Please set up your 511.org API key.")
    else
      (* Promise.all: both requests are made; one rejection rejects the pair *)
      match getStopPredictions upstream_inbound inboundStopId,
            getStopPredictions upstream_outbound outboundStopId with
      | Normal inbound, Normal outbound =>
          match stopEntry inboundStopId inbound with
          | Throw e => Throw e
          | Normal inboundEntry =>
              match stopEntry outboundStopId outbound with
              | Throw e => Throw e
              | Normal outboundEntry =>
                  Normal (JObject [("inbound", inboundEntry); ("outbound", outboundEntry)])
              end
          end
      | Throw e, _ => Throw e
      | _, Throw e => Throw e
      end in
  match attempt with
  | Normal response => Json response
  | Throw error => Status500 "Failed to fetch predictions"
  end.
End Predictions.

(** *** Vehicles *)

Definition lineSet : list string := ["J"; "K"; "L"; "M"; "N"; "T"].

(** The callback of [feed.entity.filter]. *)
Definition isSfMtaTrain (e : Gtfs.FeedEntity) : bool :=
  match Gtfs.entityVehicle e with
  | Some vehicle =>
      match Gtfs.trip vehicle with
      | Some trip => bool_decide (Gtfs.routeId trip ∈ lineSet)
      | None => false
      end
  | None => false
  end.

(** The callback of [sfMtaTrains.map]; it runs on entities that passed the
    filter, on any other [vehicle.trip.routeId] throws. *)
Definition prettify (e : Gtfs.FeedEntity) : Completion Vehicle :=
  match Gtfs.entityVehicle e with
  | None => Throw (TypeError "Cannot read properties of undefined (reading 'trip')")
  | Some vehicle =>
      match Gtfs.trip vehicle with
      | None => Throw (TypeError "Cannot read properties of undefined (reading 'routeId')")
      | Some trip =>
          Normal
            {| trainId := Gtfs.routeId trip
                          +:+ match Gtfs.vehicle vehicle with
                              | Some descriptor => Gtfs.id descriptor
                              | None => "undefined"
                              end;
               routeId := Gtfs.routeId trip;
               direction := Some (Gtfs.directionId trip);
               stopId := Gtfs.stopId vehicle;
               currentStopSequence := Gtfs.currentStopSequence vehicle;
               currentStatus := Gtfs.currentStatus vehicle;
               latitude := Gtfs.latitude <$> Gtfs.position vehicle;
               longitude := Gtfs.longitude <$> Gtfs.position vehicle;
               speed := Gtfs.speed <$> Gtfs.position vehicle;
               timestamp := Gtfs.timestamp vehicle;
               rawTimestamp := Gtfs.timestamp vehicle;
               readableStatus := None |}
      end
  end.

(** [STOPS[stopId] || 'Unknown Stop'] as the template literal of
    [readableStatus] writes it: a function of the engine is written as its
    source text, the prototype object as ["[object Object]"]. *)
Definition getStopName (stopId : string) : string :=
  match STOPS_get stopId with
  | OwnString name => name
  | InheritedFunction name => "function " +:+ name +:+ "() { [native code] }"
  | ThePrototype => "[object Object]"
  | NoProperty => "Unknown Stop"
  end.

(** The [switch] on [vehicle.currentStatus]. *)
Definition statusText (currentStatus : Z) : string :=
  match currentStatus with
  | 0 => "Incoming"
  | 1 => "Stopped"
  | 2 => "In Transit"
  | _ => "Unknown"
  end.

(** The callback of [prettifiedOutput.forEach]. *)
Definition addReadableStatus (vehicle : Vehicle) : Vehicle :=
  {| trainId := trainId vehicle;
     routeId := routeId vehicle;
     direction := direction vehicle;
     stopId := stopId vehicle;
     currentStopSequence := currentStopSequence vehicle;
     currentStatus := currentStatus vehicle;
     latitude := latitude vehicle;
     longitude := longitude vehicle;
     speed := speed vehicle;
     timestamp := timestamp vehicle;
     rawTimestamp := rawTimestamp vehicle;
     readableStatus :=
       Some (statusText (currentStatus vehicle) +:+ " at " +:+ getStopName (stopId vehicle)) |}.

Fixpoint mapC {A B} (f : A -> Completion B) (l : list A) : Completion (list B) :=
  match l with
  | [] => Normal []
  | x :: rest =>
      match f x with
      | Throw e => Throw e
      | Normal y =>
          match mapC f rest with
          | Throw e => Throw e
          | Normal ys => Normal (y :: ys)
          end
      end
  end.

(** The loaded schema: what [FeedMessage.decode] makes of a buffer. *)
Definition Schema : Type := list Byte.byte -> Completion Gtfs.FeedMessage.

(** [app.get('/api/vehicles', ...)]: [FeedMessage] is the global that the
    schema loader sets, [upstream] the outcome of the request to 511.org. *)
Definition api_vehicles (FeedMessage : option Schema)
    (upstream : Completion (list Byte.byte)) : Response (list Vehicle) :=
  let attempt : Completion (list Vehicle) :=
    match FeedMessage with
    | None => Throw (Error "Protobuf schema not loaded")
    | Some decode =>
        match upstream with
        | Throw e => Throw e
        | Normal buffer =>
            match decode buffer with
            | Throw e => Throw e
            | Normal feed =>
                let sfMtaTrains := filter (fun e => Is_true (isSfMtaTrain e)) (Gtfs.entity feed) in
                match mapC prettify sfMtaTrains with
                | Throw e => Throw e
                | Normal prettifiedOutput => Normal (map addReadableStatus prettifiedOutput)
                end
            end
        end
    end in
  match attempt with
  | Normal vehicles => Json vehicles
  | Throw error => Status500 ("Failed to fetch vehicle positions: " +:+ message error)
  end.

End Server.

(** ** The properties, in the words of the specification *)

Module Spec.
Import Js Api Client.

(** The property [k] of a JSON object, when [v] is an object that has it. *)
Definition field (k : string) (v : JsValue) : option JsValue :=
  match v with
  | JObject props => assoc k props
  | _ => None
  end.

Definition member (k : string) (v : JsValue) : JsValue :=
  default JUndefined (field k v).

(** The monitored call of a visit, and the visits of a stop's feed. *)
Definition monitoredCall (visit : JsValue) : option JsValue :=
  journey ← field "MonitoredVehicleJourney" visit;
  field "MonitoredCall" journey.

Definition rawVisits (stopData : JsValue) : list JsValue :=
  match member "MonitoredStopVisit"
          (member "StopMonitoringDelivery" (member "ServiceDelivery" stopData)) with
  | JArray visits => visits
  | _ => []
  end.

(** The expected-arrival timestamp a visit carries; [None] when the visit
    lacks one. *)
Definition expectedArrival (visit : JsValue) : option JsValue :=
  call ← monitoredCall visit;
  t ← field "ExpectedArrivalTime" call;
  if truthy t then Some t else None.

(** The destination label: the call's destination display, falling back to
    the journey's destination name. *)
Definition destinationLabel (visit : JsValue) : JsValue :=
  let journey := member "MonitoredVehicleJourney" visit in
  Js.or (member "DestinationDisplay" (member "MonitoredCall" journey))
        (member "DestinationName" journey).

(** The upstream "vehicle at stop" flag of a visit. *)
Definition vehicleAtStop (visit : JsValue) : JsValue :=
  member "VehicleAtStop" (default JUndefined (monitoredCall visit)).

Definition atStopFlag (visit : JsValue) : bool :=
  match vehicleAtStop visit with
  | JString flag => bool_decide (flag = "true")
  | _ => false
  end.

(** A span of milliseconds rounded to the nearest whole minute. *)
Definition nearestMinute (ms : Z) : Z := (ms + 30000) / 60000.

Section Normalizer.
Variable Date_parse : string -> JsNum.
Variable clock : nat -> Z.

(** Every timestamp that is there denotes a date. *)
Definition timestampIsDate (visit : JsValue) : Prop :=
  forall t, expectedArrival visit = Some t -> Date_new Date_parse t <> NaN.

(** The prediction made of a visit that carries the timestamp [t], read at
    clock reading [n]. *)
Definition predictionAt (n : nat) (visit t : JsValue) : option Client.Prediction :=
  let minutesAway :=
    Math_round_div (sub (Date_new Date_parse t) (Num (clock n))) 60000 in
  if ltZero minutesAway then None
  else Some {| Client.minutes := minutesAway;
               Client.destination := destinationLabel visit;
               Client.atStop := atStopFlag visit |}.

(** What the callback returns over a visit list, the dropped visits
    removed; [n] counts the clock readings made before. *)
Fixpoint collected (n : nat) (visits : list JsValue) : list Client.Prediction :=
  match visits with
  | [] => []
  | visit :: rest =>
      match expectedArrival visit with
      | None => collected n rest
      | Some t =>
          match predictionAt n visit t with
          | Some prediction => prediction :: collected (S n) rest
          | None => collected (S n) rest
          end
      end
  end.

(** The visits that the normalizer keeps, in feed order: a visit without a
    timestamp is discarded; [minutesAway] is the arrival minus the clock
    reading, rounded to the nearest minute; a negative one is discarded.
    [n] is the number of clock readings made before. *)
Fixpoint keptVisits (n : nat) (visits : list JsValue) : list Prediction :=
  match visits with
  | [] => []
  | visit :: rest =>
      match expectedArrival visit with
      | None => keptVisits n rest
      | Some t =>
          match Date_new Date_parse t with
          | Num arrival =>
              let minutesAway := nearestMinute (arrival - clock n) in
              if minutesAway <? 0 then keptVisits (S n) rest
              else {| minutes := Num minutesAway;
                      destination := destinationLabel visit;
                      atStop := atStopFlag visit |}
                   :: keptVisits (S n) rest
          | NaN => keptVisits (S n) rest
          end
      end
  end.
End Normalizer.

(** Ascending by minutes, both being whole numbers. *)
Definition minutesLe (a b : Prediction) : Prop :=
  exists x y, minutes a = Num x /\ minutes b = Num y /\ x <= y.

Definition wholeMinutes (p : Client.Prediction) : Prop :=
  exists z, Client.minutes p = Num z.

Definition minutesKey (p : Client.Prediction) : Z :=
  match Client.minutes p with Num z => z | NaN => 0 end.

(** The integer that a Long denotes (its two words are signed, the value of
    an unsigned Long is not). *)
Definition wideValue (l : Long) : Z :=
  if unsigned l
  then (high l mod 2 ^ 32) * 2 ^ 32 + low l mod 2 ^ 32
  else high l * 2 ^ 32 + low l mod 2 ^ 32.

(** The route id of an entity's vehicle trip. *)
Definition routeOf (e : Server.Gtfs.FeedEntity) : option string :=
  vehicle ← Server.Gtfs.entityVehicle e;
  trip ← Server.Gtfs.trip vehicle;
  Some (Server.Gtfs.routeId trip).

(** The vehicle id of an entity, as it enters the train id. *)
Definition vehicleIdOf (e : Server.Gtfs.FeedEntity) : string :=
  match Server.Gtfs.entityVehicle e ≫= Server.Gtfs.vehicle with
  | Some descriptor => Server.Gtfs.id descriptor
  | None => "undefined"
  end.

Definition onFixedLine (e : Server.Gtfs.FeedEntity) : Prop :=
  match routeOf e with
  | Some r => r ∈ ["J"; "K"; "L"; "M"; "N"; "T"]
  | None => False
  end.

#[global] Instance onFixedLine_dec (e : Server.Gtfs.FeedEntity) : Decision (onFixedLine e).
Proof. unfold onFixedLine. destruct (routeOf e); apply _. Defined.

Definition statusLabel (code : Z) : string :=
  if code =? 0 then "Incoming"
  else if code =? 1 then "Stopped"
  else if code =? 2 then "In Transit"
  else "Unknown".

(** An output record stands for an entity: its id is the route id followed
    by the vehicle id, its readable status starts with the label of the
    status code, and its timestamp is the entity's. *)
Definition normalizes (e : Server.Gtfs.FeedEntity) (v : Vehicle) : Prop :=
  exists vp r,
    Server.Gtfs.entityVehicle e = Some vp /\ routeOf e = Some r
    /\ trainId v = r +:+ vehicleIdOf e
    /\ routeId v = r
    /\ readableStatus v
       = Some (statusLabel (Server.Gtfs.currentStatus vp) +:+ " at "
               +:+ Server.getStopName (Server.Gtfs.stopId vp))
    /\ timestamp v = Server.Gtfs.timestamp vp
    /\ rawTimestamp v = Server.Gtfs.timestamp vp.

(** A fetch that failed: the request was rejected, the response was not
    [ok], or its body did not parse. *)
Definition fetchFails {B : Type} (fetched : FetchResult B) : Prop :=
  match fetched with
  | FetchRejected _ => True
  | FetchResponse ok _ json => ok = false \/ exists e, json = Throw e
  end.

(** Every stop of the dataset, with the line it is listed under. *)
Definition datasetStops (data : Dataset) : list (Route * Stop) :=
  route ← routes data; (fun stop => (route, stop)) <$> stops route.

(** The cache entry made of a stop. *)
Definition entryOf (listed : Route * Stop) : StopDetails :=
  mkStopDetails (name listed.2) (line listed.1) (lat listed.2) (long listed.2).

(** A stop that [loadAllStops] stores: its id and its name are not empty. *)
Definition named (stop : Stop) : Prop := id stop <> "" /\ name stop <> "".

(** The cache after the listed stops have gone through [addStop], in order. *)
Definition loadListed (listed : list (Route * Stop))
    (m : gmap string StopDetails) : gmap string StopDetails :=
  foldl (fun acc '(route, stop) => addStop route stop acc) m listed.

End Spec.

(** ** Concrete feeds and pages *)

Module Samples.
Import Js Api Client.

(** A visit as 511.org sends it, with the given expected arrival and
    "vehicle at stop" flag. *)
Definition visitWith (expected flag : JsValue) : JsValue :=
  JObject [("MonitoredVehicleJourney",
            JObject [("LineRef", JString "K");
                     ("DestinationName", JString "Embarcadero Station");
                     ("MonitoredCall",
                      JObject [("ExpectedArrivalTime", expected);
                               ("VehicleAtStop", flag);
                               ("DestinationDisplay", JString "Metro Embarcadero Station")])])].

(** A visit whose call has no expected arrival. *)
Definition visitWithoutArrival : JsValue :=
  JObject [("MonitoredVehicleJourney",
            JObject [("LineRef", JString "K");
                     ("MonitoredCall", JObject [("VehicleAtStop", JString "")])])].

Definition stopDataOf (visits : list JsValue) : JsValue :=
  JObject [("stopName", JString "Stop #15779");
           ("ServiceDelivery",
            JObject [("StopMonitoringDelivery",
                      JObject [("MonitoredStopVisit", JArray visits)])])].

(** The page clock: 2024-01-15T18:23:45Z at the first reading, a millisecond
    later at each further one. *)
Definition clock (n : nat) : Z := 1705343025000 + Z.of_nat n.

Definition staleMarker : Marker :=
  {| m_letter := "K"; m_direction := "in";
     m_lngLat := (Some (-122.5)%float, Some 37.75%float);
     m_popup := "<h3>Train K2041</h3><p>Stopped at Unknown Stop</p>" |}.

(** A page that shows the result of an earlier poll. *)
Definition page : Page :=
  {| allStops := ∅;
     currentStops := ("15779", "15780");
     selectedTrainLines :=
       {[ "J" := true; "K" := true; "L" := true; "M" := true; "N" := true; "T" := true ]};
     mapLoaded := true;
     markers := [staleMarker];
     region_inbound := [StopNameHeader (JString "Stop #15779");
                        PredictionItem "Embarcadero" "4 mins" false];
     region_outbound := [StopNameHeader (JString "Stop #15780");
                         LoadingDiv "No predictions available"];
     update_time := Some 1705342965000;
     console := [];
     ticks := 0 |}.

(** Arrivals 7 and 2 minutes after the clock, and one visit without an
    arrival time. *)
Definition threeVisits : JsValue :=
  stopDataOf [visitWith (JString "2024-01-15T18:30:45Z") (JString "");
              visitWith (JString "2024-01-15T18:25:45Z") (JString "true");
              visitWithoutArrival].

(** 511.org answers for the outbound stop and fails for the inbound one. *)
Definition inboundFails (stopId : string) : Completion JsValue :=
  if String.eqb stopId "15779"
  then Throw (Error "Request failed with status code 500")
  else Normal (JObject [("ServiceDelivery", JObject [])]).

(** A decoded feed with one entity on line K and one on a bus route. *)
Definition entityOn (route vehicleId : string) : Server.Gtfs.FeedEntity :=
  {| Server.Gtfs.entityId := vehicleId;
     Server.Gtfs.entityVehicle :=
       Some {| Server.Gtfs.trip := Some {| Server.Gtfs.routeId := route;
                                           Server.Gtfs.directionId := 0 |};
               Server.Gtfs.vehicle := Some {| Server.Gtfs.id := vehicleId |};
               Server.Gtfs.position :=
                 Some {| Server.Gtfs.latitude := 37.75; Server.Gtfs.longitude := -122.5;
                         Server.Gtfs.speed := 0 |};
               Server.Gtfs.currentStopSequence := 4;
               Server.Gtfs.stopId := "16503";
               Server.Gtfs.currentStatus := 1;
               Server.Gtfs.timestamp := mkLong 1705343025 0 true |} |}.

Definition twoEntities : Server.Gtfs.FeedMessage :=
  {| Server.Gtfs.entity := [entityOn "K" "2041"; entityOn "X" "8802"] |}.

Definition decodeTwo : Server.Schema := fun _ => Normal twoEntities.

(** A dataset with the stop of the specification's scenario, and one whose
    only stop has an id but no name. *)
Definition westPortal : Dataset :=
  {| routes := [ {| line := "K";
                    stops := [ {| id := "15779"; name := "West Portal Station";
                                  lat := Some "37.741"; long := Some "-122.465" |} ] |} ] |}.

Definition nameless : Dataset :=
  {| routes := [ {| line := "K";
                    stops := [ {| id := "15779"; name := "";
                                  lat := Some "37.741"; long := Some "-122.465" |} ] |} ] |}.

(** The Long of a present-day timestamp, 2024-01-15T18:23:45Z in seconds. *)
Definition presentTimestamp : Long := mkLong 1705343025 0 true.

(** The Long of the timestamp [2^52 + 1] seconds. *)
Definition largeTimestamp : Long := mkLong 1 1048576 true.

End Samples.

(** ** The generator of [train-routes.json]

    The dataset that [loadAllStops] fetches is written by the utility
    script of the repository, from the GTFS stops and the lines and
    journey patterns of 511.org. *)

Module Generator.
Import Js Client.

(** A row of [stops.txt]; a column that is not there is [None]. *)
Module Csv.
Record Row : Type := mkRow {
  stop_id : string;
  stop_lat : option string;
  stop_lon : option string
}.
End Csv.

(** A line in the answer to the lines request. *)
Record Line : Type := mkLine { Id : string; Name : string }.

Record PointLocation : Type := mkLocation {
  loc_Latitude : option string;
  loc_Longitude : option string
}.

(** A point of a journey pattern.  A string property that is absent reads as
    falsy, like the empty string. *)
Record Point : Type := mkPoint {
  ScheduledStopPointRef : string;
  point_Name : string;
  Location : option PointLocation;
  stop_lat : option string;
  stop_lon : option string;
  Latitude : option string;
  Longitude : option string
}.

(** [pattern.PointsInSequence]; a list that is absent is taken as [[]]. *)
Record Points : Type := mkPoints {
  StopPointInJourneyPattern : list Point;
  TimingPointInJourneyPattern : list Point
}.

Record JourneyPattern : Type := mkPattern { PointsInSequence : option Points }.

Definition REQUIRED_LINES : list string := ["J"; "K"; "L"; "M"; "N"; "T"].

#[global] Instance Stop_eq_dec : EqDecision Stop.
Proof. solve_decision. Defined.

(** Whether an optional string is truthy. *)
Definition present (v : option string) : bool :=
  match v with
  | Some s => nonEmpty s
  | None => false
  end.

(** [fetchRoutes], with the answer to its request: the lines of
    [REQUIRED_LINES], all of which must be there. *)
Definition fetchRoutes (response : Completion (list Line)) : Completion (list Line) :=
  match response with
  | Throw e => Throw e
  | Normal routes =>
      let trainRoutes := filter (fun route => Id route ∈ REQUIRED_LINES) routes in
      let foundCodes := map Id trainRoutes in
      match filter (fun x => x ∉ foundCodes) REQUIRED_LINES with
      | [] => Normal trainRoutes
      | missing => Throw (Error ("Missing routes: " +:+ String.concat ", " missing))
      end
  end.

(** The [stopInfo] made of a point that has a reference and a name. *)
Definition stopInfo (point : Point) : Stop :=
  let '(lat, long) :=
    match Location point with
    | Some location => (loc_Latitude location, loc_Longitude location)
    | None =>
        if present (stop_lat point) && present (stop_lon point)
        then (stop_lat point, stop_lon point)
        else if present (Latitude point) && present (Longitude point)
        then (Latitude point, Longitude point)
        else (None, None)
    end in
  {| id := ScheduledStopPointRef point; name := point_Name point; lat := lat; long := long |}.

(** [stops.add(JSON.stringify(stopInfo))]: the set keeps the order in which
    its members were added, and two [stopInfo] are written alike exactly when
    they are equal. *)
Definition Set_add (stop : Stop) (stops : list Stop) : list Stop :=
  if decide (stop ∈ stops) then stops else stops ++ [stop].

(** The callback of the inner [forEach] of [fetchPatterns]. *)
Definition addPoint (stops : list Stop) (point : Point) : list Stop :=
  if nonEmpty (ScheduledStopPointRef point) && nonEmpty (point_Name point)
  then Set_add (stopInfo point) stops
  else stops.

Definition pointsOf (pattern : JourneyPattern) : list Point :=
  match PointsInSequence pattern with
  | Some points => StopPointInJourneyPattern points ++ TimingPointInJourneyPattern points
  | None => []
  end.

(** [fetchPatterns], with the answer to its request ([journeyPatterns], or
    an error for a request that is rejected or an answer of another shape):
    the patterns and the stops, or [null]. *)
Definition fetchPatterns (response : Completion (list JourneyPattern))
    : option (list JourneyPattern * list Stop) :=
  match response with
  | Throw _ => None
  | Normal journeyPatterns =>
      Some (journeyPatterns, foldl addPoint [] (journeyPatterns ≫= pointsOf))
  end.

(** The callback of [data.stops.map] in [runTest]. *)
Definition withGtfsLocation (gtfsStops : list Csv.Row) (stop : Stop) : Stop :=
  let gtfsStop := find (fun s => String.eqb (Csv.stop_id s) (id stop)) gtfsStops in
  {| id := id stop;
     name := name stop;
     lat := match gtfsStop with Some row => Csv.stop_lat row | None => lat stop end;
     long := match gtfsStop with Some row => Csv.stop_lon row | None => long stop end |}.

(** The entry of [summary] for a route whose patterns were fetched, as the
    page reads it back from the file. *)
Definition summaryEntry (gtfsStops : list Csv.Row) (route : Line) (stops : list Stop) : Route :=
  {| line := Id route; stops := map (withGtfsLocation gtfsStops) stops |}.

(** [runTest], with the answers to its requests: the rows of [stops.txt],
    the lines, and the journey patterns that the [k]-th request of the loop
    gets for the line it asks for.  The result is the [routes] of the object
    handed to [writeFileSync], [None] when an error ends the run before. *)
Definition runTest (gtfs : Completion (list Csv.Row)) (lines : Completion (list Line))
    (patterns : nat -> string -> Completion (list JourneyPattern)) : option Dataset :=
  match gtfs with
  | Throw _ => None
  | Normal gtfsStops =>
      match fetchRoutes lines with
      | Throw _ => None
      | Normal routes =>
          Some {| routes :=
                    omap (fun entry => entry)
                         (imap (fun k route =>
                                  (fun data => summaryEntry gtfsStops route data.2)
                                    <$> fetchPatterns (patterns k (Id route)))
                               routes) |}
      end
  end.

End Generator.

(** ** What the page shows *)

Module Display.
Import Js Api Client.

(** Two pages that differ at most in the console and in the count of clock
    readings. *)
Definition sameDocument (p p' : Page) : Prop :=
  allStops p' = allStops p /\ currentStops p' = currentStops p
  /\ selectedTrainLines p' = selectedTrainLines p /\ mapLoaded p' = mapLoaded p
  /\ markers p' = markers p /\ region_inbound p' = region_inbound p
  /\ region_outbound p' = region_outbound p /\ update_time p' = update_time p.

Definition isString (v : JsValue) : Prop := exists s, v = JString s.

(** A destination without its first " Station" and then without its first
    "Metro ". *)
Definition cleanDestination (s : string) : string :=
  replace "Metro " "" (replace " Station" "" s).

(** The list item of a prediction whose destination is a string. *)
Definition itemOf (prediction : Prediction) : Node :=
  PredictionItem
    (match destination prediction with JString s => cleanDestination s | _ => "" end)
    (if atStop prediction then "At Stop" else formatMinutes (minutes prediction))
    (atStop prediction).

(** A prediction container: the stop name, then the items, or the notice
    that there are none. *)
Definition shown (stopName : JsValue) (out : list Prediction) : list Node :=
  StopNameHeader stopName
  :: match out with
     | [] => [LoadingDiv "No predictions available"]
     | _ :: _ => map itemOf out
     end.

Definition otherRegion (r : RegionId) : RegionId :=
  match r with
  | inbound_predictions => outbound_predictions
  | outbound_predictions => inbound_predictions
  end.

(** Two pages that agree outside the container [r], the console and the
    count of clock readings. *)
Definition sameElsewhere (r : RegionId) (p p' : Page) : Prop :=
  allStops p' = allStops p /\ currentStops p' = currentStops p
  /\ selectedTrainLines p' = selectedTrainLines p /\ mapLoaded p' = mapLoaded p
  /\ markers p' = markers p /\ region (otherRegion r) p' = region (otherRegion r) p
  /\ update_time p' = update_time p.

(** The predictions that [extractPredictions] returns for a feed when [n]
    clock readings were made before. *)
Definition extracted (Date_parse : string -> JsNum) (clock : nat -> Z) (n : nat)
    (stopData : JsValue) : list Prediction :=
  Array_sort byMinutes (Spec.collected Date_parse clock n (Spec.rawVisits stopData)).

(** The callback of [predictions.forEach] in [updatePredictionsDisplay]. *)
Definition appendItem (r : RegionId) (prediction : Prediction) : Eff Page unit :=
  bind (lift (createPredictionElement prediction)) (fun item => appendChild r item).

(** Whether the line [r] is toggled on. *)
Definition lineSelected (p : Page) (r : string) : bool :=
  default false (selectedTrainLines p !! r).

(** Whether [setLngLat] takes the coordinates of a vehicle. *)
Definition hasPosition (vehicle : Vehicle) : bool :=
  match LngLat_convert (longitude vehicle) (latitude vehicle) with
  | Normal _ => true
  | Throw _ => false
  end.

(** The vehicles of a list that come before the first one whose coordinates
    [setLngLat] refuses. *)
Fixpoint placed (vehicles : list Vehicle) : list Vehicle :=
  match vehicles with
  | [] => []
  | vehicle :: rest => if hasPosition vehicle then vehicle :: placed rest else []
  end.

(** [undefined] or [null]. *)
Definition nullish (v : JsValue) : Prop := v = JUndefined \/ v = JNull.

#[global] Instance JsNum_eq_dec : EqDecision JsNum.
Proof. solve_decision. Defined.

(** The predictions of a list that are [k] minutes away, in the order of the
    list. *)
Definition minutesAway (k : JsNum) (predictions : list Prediction) : list Prediction :=
  filter (fun prediction => minutes prediction = k) predictions.

End Display.

(** ** Further concrete cases *)

Module Cases.
Import Js Api Client.

(** A visit with an arrival time and no destination at all. *)
Definition visitWithoutDestination : JsValue :=
  JObject [("MonitoredVehicleJourney",
            JObject [("LineRef", JString "K");
                     ("MonitoredCall",
                      JObject [("ExpectedArrivalTime", JString "2024-01-15T18:25:45Z");
                               ("VehicleAtStop", JString "")])])].

(** An answer of [/api/predictions] whose inbound feed holds that visit. *)
Definition answerWithoutDestination : JsValue :=
  JObject [("inbound", Samples.stopDataOf [visitWithoutDestination]);
           ("outbound", Samples.stopDataOf [])].

(** A vehicle as the gateway sends it. *)
Definition vehicleOn (route vehicleId : string) : Vehicle :=
  {| trainId := route +:+ vehicleId; routeId := route; direction := Some 0;
     stopId := "16503"; currentStopSequence := 4; currentStatus := 1;
     latitude := Some 37.75%float; longitude := Some (-122.5)%float; speed := Some 0%float;
     timestamp := mkLong 1705343025 0 true; rawTimestamp := mkLong 1705343025 0 true;
     readableStatus := Some "Stopped at Outbound to Ocean Beach" |}.

(** The same vehicle as the gateway sends it for an entity without a
    position. *)
Definition withoutPosition (vehicle : Vehicle) : Vehicle :=
  {| trainId := trainId vehicle; routeId := routeId vehicle; direction := direction vehicle;
     stopId := stopId vehicle; currentStopSequence := currentStopSequence vehicle;
     currentStatus := currentStatus vehicle;
     latitude := None; longitude := None; speed := None;
     timestamp := timestamp vehicle; rawTimestamp := rawTimestamp vehicle;
     readableStatus := readableStatus vehicle |}.

(** A request to 511.org that is answered, and one that is rejected,
    whatever stop is asked for. *)
Definition answers (stopId : string) : Completion JsValue :=
  Normal (JObject [("ServiceDelivery", JObject [])]).

Definition rejects (stopId : string) : Completion JsValue :=
  Throw (Error "Request failed with status code 500").

(** Answers to the requests of the generator: the row of stop 15779 in
    [stops.txt], the six lines, and for line K one journey pattern that lists
    the stop twice and, once, a point without a name. *)
Definition gtfsRows : list Generator.Csv.Row :=
  [Generator.Csv.mkRow "15779" (Some "37.741") (Some "-122.465")].

Definition sixLines : list Generator.Line :=
  [Generator.mkLine "J" "CHURCH"; Generator.mkLine "K" "INGLESIDE";
   Generator.mkLine "L" "TARAVAL"; Generator.mkLine "M" "OCEAN VIEW";
   Generator.mkLine "N" "JUDAH"; Generator.mkLine "T" "THIRD"].

Definition pointNamed (ref name : string) : Generator.Point :=
  Generator.mkPoint ref name None None None None None.

Definition patternsOf (k : nat) (lineId : string)
    : Completion (list Generator.JourneyPattern) :=
  if String.eqb lineId "K"
  then Normal [Generator.mkPattern
                 (Some (Generator.mkPoints
                          [pointNamed "15779" "West Portal Station"; pointNamed "15780" ""]
                          [pointNamed "15779" "West Portal Station"]))]
  else Normal [].

(** The dataset that the generator writes from these answers. *)
Definition generated : Dataset :=
  {| routes := [ {| line := "J"; stops := [] |};
                 {| line := "K";
                    stops := [ {| id := "15779"; name := "West Portal Station";
                                  lat := Some "37.741"; long := Some "-122.465" |} ] |};
                 {| line := "L"; stops := [] |};
                 {| line := "M"; stops := [] |};
                 {| line := "N"; stops := [] |};
                 {| line := "T"; stops := [] |} ] |}.

(** The page with only line K toggled on. *)
Definition pageOnlyK : Page :=
  {| allStops := ∅;
     currentStops := ("15779", "15780");
     selectedTrainLines :=
       {[ "J" := false; "K" := true; "L" := false; "M" := false; "N" := false; "T" := false ]};
     mapLoaded := true;
     markers := [Samples.staleMarker];
     region_inbound := [];
     region_outbound := [];
     update_time := None;
     console := [];
     ticks := 0 |}.

(** A dataset that lists stop 15779 under two lines. *)
Definition listedTwice : Dataset :=
  {| routes := [ {| line := "K";
                    stops := [ {| id := "15779"; name := "West Portal Station";
                                  lat := Some "37.741"; long := Some "-122.465" |} ] |};
                 {| line := "M";
                    stops := [ {| id := "15779"; name := "West Portal";
                                  lat := Some "37.741"; long := Some "-122.465" |} ] |} ] |}.

(** The Long of 2^31 seconds, 2038-01-19T03:14:08Z: its low word is negative. *)
Definition timestamp2038 : Long := mkLong (-2147483648) 0 true.

(** Arrivals 7 and 2 minutes after the clock, and between them a visit whose
    timestamp is not a date. *)
Definition unparseableBetween : JsValue :=
  Samples.stopDataOf [Samples.visitWith (JString "2024-01-15T18:30:45Z") (JString "");
                      Samples.visitWith (JString "garbage") (JString "");
                      Samples.visitWith (JString "2024-01-15T18:25:45Z") (JString "true")].

(** Two arrivals that are both two minutes away, the first one at the stop. *)
Definition twoAtOnce : JsValue :=
  Samples.stopDataOf [Samples.visitWith (JString "2024-01-15T18:25:45Z") (JString "true");
                      Samples.visitWith (JString "2024-01-15T18:25:40Z") (JString "")].

(** A decoded feed with entities on bus routes only. *)
Definition busesOnly : Server.Gtfs.FeedMessage :=
  {| Server.Gtfs.entity := [Samples.entityOn "X" "8802"; Samples.entityOn "14R" "6101"] |}.

End Cases.

(** ** The controls of the page: the stop dialog and the line buttons *)

Module Controls.
Import Js JsNotations Api Client.

(** The two values that [openStopModal] is called with. *)
Inductive Direction : Type := inbound | outbound.

Definition directionName (type : Direction) : string :=
  match type with inbound => "inbound" | outbound => "outbound" end.

(** [defaultStops] *)
Definition defaultStops : string * string := ("15779", "15780").

(** [currentStops[type]] and the assignment to it. *)
Definition stopOf {A : Type} (type : Direction) (stops : A * A) : A :=
  match type with inbound => stops.1 | outbound => stops.2 end.

Definition withStop {A : Type} (type : Direction) (v : A) (stops : A * A) : A * A :=
  match type with inbound => (v, stops.2) | outbound => (stops.1, v) end.

(** A button of [#train-line-buttons]: the tokens of its class attribute, its
    text, and the line that its click listener toggles. *)
Record Button : Type := mkButton {
  classList : list string;
  textContent : string;
  listener : string
}.

(** A call of an [async] function that the caller does not await: the
    function runs up to its [fetch] and answers later. *)
Inductive Call : Type :=
| FetchPredictions (url : string)
| FetchWeather
| FetchVehiclePositions
| FetchAndPlotStops.

(** The page together with the dialog, the labels of the two stops, the line
    buttons and the calls started so far.  [stop_text] and [location_text]
    hold the text of [#inbound-stop], [#outbound-stop] and of
    [#inbound-location], [#outbound-location]. *)
Record Ui : Type := mkUi {
  page : Page;
  currentStopType : option Direction;
  modal_display : string;
  stopInput_value : string;
  saveBtn_disabled : bool;
  validationMsg_className : string;
  validationMsg_textContent : string;
  stop_text : string * string;
  location_text : string * string;
  train_line_buttons : list Button;
  started : list Call
}.

Definition with_page (f : Page -> Page) (u : Ui) : Ui :=
  mkUi (f (page u)) (currentStopType u) (modal_display u) (stopInput_value u)
       (saveBtn_disabled u) (validationMsg_className u) (validationMsg_textContent u)
       (stop_text u) (location_text u) (train_line_buttons u) (started u).

Definition set_currentStopType (v : option Direction) (u : Ui) : Ui :=
  mkUi (page u) v (modal_display u) (stopInput_value u)
       (saveBtn_disabled u) (validationMsg_className u) (validationMsg_textContent u)
       (stop_text u) (location_text u) (train_line_buttons u) (started u).

Definition set_modal_display (v : string) (u : Ui) : Ui :=
  mkUi (page u) (currentStopType u) v (stopInput_value u)
       (saveBtn_disabled u) (validationMsg_className u) (validationMsg_textContent u)
       (stop_text u) (location_text u) (train_line_buttons u) (started u).

Definition set_stopInput_value (v : string) (u : Ui) : Ui :=
  mkUi (page u) (currentStopType u) (modal_display u) v
       (saveBtn_disabled u) (validationMsg_className u) (validationMsg_textContent u)
       (stop_text u) (location_text u) (train_line_buttons u) (started u).

Definition set_saveBtn_disabled (v : bool) (u : Ui) : Ui :=
  mkUi (page u) (currentStopType u) (modal_display u) (stopInput_value u)
       v (validationMsg_className u) (validationMsg_textContent u)
       (stop_text u) (location_text u) (train_line_buttons u) (started u).

Definition set_validationMsg_className (v : string) (u : Ui) : Ui :=
  mkUi (page u) (currentStopType u) (modal_display u) (stopInput_value u)
       (saveBtn_disabled u) v (validationMsg_textContent u)
       (stop_text u) (location_text u) (train_line_buttons u) (started u).

Definition set_validationMsg_textContent (v : string) (u : Ui) : Ui :=
  mkUi (page u) (currentStopType u) (modal_display u) (stopInput_value u)
       (saveBtn_disabled u) (validationMsg_className u) v
       (stop_text u) (location_text u) (train_line_buttons u) (started u).

Definition with_stop_text (f : string * string -> string * string) (u : Ui) : Ui :=
  mkUi (page u) (currentStopType u) (modal_display u) (stopInput_value u)
       (saveBtn_disabled u) (validationMsg_className u) (validationMsg_textContent u)
       (f (stop_text u)) (location_text u) (train_line_buttons u) (started u).

Definition with_location_text (f : string * string -> string * string) (u : Ui) : Ui :=
  mkUi (page u) (currentStopType u) (modal_display u) (stopInput_value u)
       (saveBtn_disabled u) (validationMsg_className u) (validationMsg_textContent u)
       (stop_text u) (f (location_text u)) (train_line_buttons u) (started u).

Definition with_buttons (f : list Button -> list Button) (u : Ui) : Ui :=
  mkUi (page u) (currentStopType u) (modal_display u) (stopInput_value u)
       (saveBtn_disabled u) (validationMsg_className u) (validationMsg_textContent u)
       (stop_text u) (location_text u) (f (train_line_buttons u)) (started u).

(** Calling an [async] function without awaiting it. *)
Definition start (call : Call) : Eff Ui unit :=
  modify (fun u =>
    mkUi (page u) (currentStopType u) (modal_display u) (stopInput_value u)
         (saveBtn_disabled u) (validationMsg_className u) (validationMsg_textContent u)
         (stop_text u) (location_text u) (train_line_buttons u) (started u ++ [call])).

Definition set_currentStops (f : string * string -> string * string) (p : Page) : Page :=
  mkPage (allStops p) (f (currentStops p)) (selectedTrainLines p) (mapLoaded p)
         (markers p) (region_inbound p) (region_outbound p) (update_time p)
         (console p) (ticks p).

Definition set_selectedTrainLines (f : gmap string bool -> gmap string bool) (p : Page) : Page :=
  mkPage (allStops p) (currentStops p) (f (selectedTrainLines p)) (mapLoaded p)
         (markers p) (region_inbound p) (region_outbound p) (update_time p)
         (console p) (ticks p).

(** A function of the script that works on the globals and the containers. *)
Definition onPage {A : Type} (m : Eff Page A) : Eff Ui A :=
  fun u => let '(c, p) := m (page u) in (c, with_page (fun _ => p) u).

(** The URL that [fetchPredictions] requests. *)
Definition predictionsUrl (stops : string * string) : string :=
  "/api/predictions?inbound=" +:+ stops.1 +:+ "&outbound=" +:+ stops.2.

(** [fetchPredictions()], not awaited. *)
Definition fetchPredictions_call : Eff Ui unit :=
  do stops <- gets (fun u => currentStops (page u));
  start (FetchPredictions (predictionsUrl stops)).

(** *** The stop dialog *)

Definition openStopModal (type : Direction) : Eff Ui unit :=
  run modify (set_currentStopType (Some type));
  run modify (set_modal_display "block");
  run modify (fun u => set_stopInput_value (stopOf type (currentStops (page u))) u);
  run modify (set_saveBtn_disabled true);
  run modify (set_validationMsg_className "validation-message");
  modify (set_validationMsg_textContent "").

Definition closeModal : Eff Ui unit :=
  run modify (set_modal_display "none");
  run modify (set_stopInput_value "");
  modify (set_currentStopType None).

(** [window.onclick]; the argument says whether the target of the event is
    the dialog. *)
Definition window_onclick (targetIsModal : bool) : Eff Ui unit :=
  if targetIsModal then closeModal else ret tt.

Section Dialog.
(** [String.prototype.trim], which takes white space and line terminators
    off both ends. *)
Variable trim : string -> string.

(** The click listener of [#validate-stop]. *)
Definition validateBtn_click : Eff Ui unit :=
  do stopId <- gets (fun u => trim (stopInput_value u));
  do validation <- gets (fun u => validateStop (page u) stopId);
  if isValid validation
  then
    run modify (set_validationMsg_className "validation-message success");
    do stop <- match details validation with
               | Some stop => ret stop
               | None => throw (TypeError "Cannot read properties of undefined (reading 'name')")
               end;
    run modify (set_validationMsg_textContent
                  ("Valid stop: " +:+ sd_name stop +:+ " (" +:+ sd_line stop +:+ " Line)"));
    modify (set_saveBtn_disabled false)
  else
    run modify (set_validationMsg_className "validation-message error");
    run modify (set_validationMsg_textContent
                  "Invalid stop ID. Please enter a valid stop ID.");
    modify (set_saveBtn_disabled true).

(** The click listener of [#save-stop].  When no dialog is open,
    [currentStopType] is [null]: the assignment then makes a property
    ["null"] of [currentStops], which nothing reads, and the document has no
    element ["null-stop"] to take the text. *)
Definition saveBtn_click : Eff Ui unit :=
  do stopId <- gets (fun u => trim (stopInput_value u));
  do validation <- gets (fun u => validateStop (page u) stopId);
  if isValid validation
  then
    do stopDetails <- gets (fun u => allStops (page u) !! stopId);
    do type <- gets currentStopType;
    match type with
    | None => throw (TypeError "Cannot set properties of null (setting 'textContent')")
    | Some type =>
        run modify (with_page (set_currentStops (withStop type stopId)));
        run modify (with_stop_text (withStop type ("Stop #" +:+ stopId)));
        do stop <- match stopDetails with
                   | Some stop => ret stop
                   | None =>
                       throw (TypeError "Cannot read properties of undefined (reading 'name')")
                   end;
        run modify (with_location_text (withStop type (sd_name stop)));
        run closeModal;
        fetchPredictions_call
    end
  else ret tt.

(** What happens on the page: a click on one of the two stop labels, text
    typed into the input, clicks on the buttons of the dialog, on its cross
    and on the window, and the answer to the request for the dataset.  A
    disabled button does not get its click. *)
Inductive Event : Type :=
| ClickStop (type : Direction)
| Typed (text : string)
| ClickValidate
| ClickSave
| ClickClose
| ClickWindow (targetIsModal : bool)
| DatasetAnswered (fetched : FetchResult Dataset).

Definition handle (event : Event) : Eff Ui unit :=
  match event with
  | ClickStop type => openStopModal type
  | Typed text => modify (set_stopInput_value text)
  | ClickValidate => validateBtn_click
  | ClickSave =>
      do disabled <- gets saveBtn_disabled;
      if disabled then ret tt else saveBtn_click
  | ClickClose => closeModal
  | ClickWindow targetIsModal => window_onclick targetIsModal
  | DatasetAnswered fetched => onPage (loadAllStops fetched)
  end.

(** The page after a sequence of events; an error that a listener throws is
    not caught by anything, and the page stays as the listener left it. *)
Definition after (events : list Event) (u : Ui) : Ui :=
  foldl (fun u event => snd (handle event u)) u events.
End Dialog.

(** [trim] on a string of ASCII characters: tab, line feed, vertical tab,
    form feed, carriage return and space are taken off both ends. *)
Definition isWhiteSpace (c : ascii) : bool :=
  let n := nat_of_ascii c in
  ((9 <=? n)%nat && (n <=? 13)%nat) || (n =? 32)%nat.

Fixpoint trimStart (s : list ascii) : list ascii :=
  match s with
  | c :: rest => if isWhiteSpace c then trimStart rest else s
  | [] => []
  end.

Definition trimAscii (s : string) : string :=
  String.string_of_list_ascii
    (rev (trimStart (rev (trimStart (String.list_ascii_of_string s))))).

(** *** The line buttons *)

(** [toLowerCase] on a string of ASCII characters. *)
Definition lowerAscii (c : ascii) : ascii :=
  let n := nat_of_ascii c in
  if (65 <=? n)%nat && (n <=? 90)%nat then ascii_of_nat (n + 32) else c.

Fixpoint toLowerCase (s : string) : string :=
  match s with
  | EmptyString => EmptyString
  | String c rest => String (lowerAscii c) (toLowerCase rest)
  end.

(** [classList.add] and [classList.remove] with one token. *)
Definition classList_add (token : string) (tokens : list string) : list string :=
  if bool_decide (token ∈ tokens) then tokens else tokens ++ [token].

Definition classList_remove (token : string) (tokens : list string) : list string :=
  filter (fun t => t <> token) tokens.

Definition with_classList (f : list string -> list string) (b : Button) : Button :=
  mkButton (f (classList b)) (textContent b) (listener b).

(** [document.querySelector] with a selector of classes only: the index of
    the first button that carries all of them.  The buttons of
    [#train-line-buttons] are the elements of class [train-line-button]. *)
Definition hasClasses (classes : list string) (b : Button) : bool :=
  forallb (fun c => bool_decide (c ∈ classList b)) classes.

Fixpoint querySelector (classes : list string) (buttons : list Button) : option nat :=
  match buttons with
  | [] => None
  | b :: rest => if hasClasses classes b then Some 0%nat
                 else S <$> querySelector classes rest
  end.

Definition generateTrainLineButtons : Eff Ui unit :=
  forEach (fun line =>
             run modify (with_buttons (fun buttons =>
                           buttons ++ [ {| classList := ["train-line-button"; "selected";
                                                         toLowerCase line];
                                           textContent := line;
                                           listener := line |} ]));
             modify (with_page (set_selectedTrainLines (fun selected => <[line := true]> selected))))
          trainLines.

(** [toggleTrainLine(line)], for a [line] of [trainLines], as the click
    listeners of the buttons call it. *)
Definition toggleTrainLine (line : string) : Eff Ui unit :=
  run modify (with_page (set_selectedTrainLines (fun selected =>
                <[line := negb (default false (selected !! line))]> selected)));
  do button <- gets (fun u => querySelector ["train-line-button"; toLowerCase line]
                                            (train_line_buttons u));
  do selected <- gets (fun u => default false (selectedTrainLines (page u) !! line));
  run match button with
      | None => throw (TypeError "Cannot read properties of null (reading 'classList')")
      | Some i =>
          if selected
          then
            run modify (with_buttons (alter (with_classList (classList_add "selected")) i));
            modify (with_buttons (alter (with_classList (classList_remove "deselected")) i))
          else
            run modify (with_buttons (alter (with_classList (classList_add "deselected")) i));
            modify (with_buttons (alter (with_classList (classList_remove "selected")) i))
      end;
  run start FetchVehiclePositions;
  start FetchAndPlotStops.

(** The page after clicks on the buttons of the given lines, one after the
    other. *)
Definition afterClicks (lines : list string) (u : Ui) : Ui :=
  foldl (fun u line => snd (toggleTrainLine line u)) u lines.

(** *** Start of the page *)

(** [initializePage], with the answer to the request for the dataset that
    [loadAllStops] awaits. *)
Definition initializePage (fetched : FetchResult Dataset) : Eff Ui unit :=
  run onPage (loadAllStops fetched);
  do inboundStop <- gets (fun u => allStops (page u) !! (currentStops (page u)).1);
  do outboundStop <- gets (fun u => allStops (page u) !! (currentStops (page u)).2);
  run match inboundStop with
      | Some stop => modify (with_location_text (withStop inbound (sd_name stop)))
      | None => ret tt
      end;
  run match outboundStop with
      | Some stop => modify (with_location_text (withStop outbound (sd_name stop)))
      | None => ret tt
      end;
  run generateTrainLineButtons;
  run fetchPredictions_call;
  run start FetchWeather;
  start FetchVehiclePositions.

(** *** What the theorems speak of *)

(** Each of the two current stops is the default of its direction or a stop
    of the cache. *)
Definition committed (u : Ui) : Prop :=
  forall type : Direction,
    stopOf type (currentStops (page u)) = stopOf type defaultStops
    \/ is_Some (allStops (page u) !! stopOf type (currentStops (page u))).

(** Whether the line is toggled on. *)
Definition lineOn (u : Ui) (line : string) : bool :=
  default false (selectedTrainLines (page u) !! line).

(** The class of the button of a line that was clicked [n] times. *)
Definition classesAfter (n : nat) (line : string) : list string :=
  match n with
  | O => ["train-line-button"; "selected"; toLowerCase line]
  | S _ => if Nat.even n
           then ["train-line-button"; toLowerCase line; "selected"]
           else ["train-line-button"; toLowerCase line; "deselected"]
  end.

(** How often a line occurs in a list of clicks. *)
Definition clicksOn (line : string) (lines : list string) : nat :=
  length (filter (fun l => l = line) lines).

(** The button of a line that was clicked [n] times. *)
Definition buttonAfter (n : nat) (line : string) : Button :=
  {| classList := classesAfter n line; textContent := line; listener := line |}.

(** The buttons and the selection when the button of each line [l] of
    [trainLines] was clicked [clicks l] times. *)
Definition mirrors (clicks : string -> nat) (u : Ui) : Prop :=
  train_line_buttons u = map (fun line => buttonAfter (clicks line) line) trainLines
  /\ forall line, line ∈ trainLines ->
       selectedTrainLines (page u) !! line = Some (Nat.even (clicks line)).

(** The two calls that a click on a line button starts. *)
Definition polls : list Call := [FetchVehiclePositions; FetchAndPlotStops].

(** A page before [initializePage] has run, for the examples: the dialog
    closed, no button made yet. *)
Definition start_ui (p : Page) : Ui :=
  {| page := p; currentStopType := None; modal_display := "none";
     stopInput_value := ""; saveBtn_disabled := false;
     validationMsg_className := "validation-message"; validationMsg_textContent := "";
     stop_text := ("Stop #15779", "Stop #15780");
     location_text := ("", "");
     train_line_buttons := []; started := [] |}.

End Controls.

(** ** Start of the gateway *)

Module Boot.

(** What the check of the environment ends in: the gateway goes on to
    listen, or the process has logged a line and exited. *)
Inductive Startup : Type :=
| Listening
| Exited (code : Z) (logged : string).

Definition requiredEnvVars : list string :=
  ["TRANSIT_API_KEY"; "WEATHER_API_KEY"; "MAPBOX_ACCESS_TOKEN"].

(** [!process.env[envVar]]: the variable is not set, or is the empty string. *)
Definition missing (env : gmap string string) (envVar : string) : bool :=
  String.eqb (default "" (env !! envVar)) "".

(** The loop over [requiredEnvVars] at the start of the server. *)
Definition checkEnv (env : gmap string string) : Startup :=
  match find (missing env) requiredEnvVars with
  | Some envVar => Exited 1 ("Error: " +:+ envVar +:+ " environment variable is required")
  | None => Listening
  end.

(** An environment with the three variables set. *)
Definition complete : gmap string string :=
  {[ "TRANSIT_API_KEY" := "511-key"; "WEATHER_API_KEY" := "owm-key";
     "MAPBOX_ACCESS_TOKEN" := "pk.token" ]}.

End Boot.

(** * Proofs *)

Import Js JsNotations Api Spec.

(** ** Reading JSON *)

Lemma get_member (v : JsValue) (k : string) :
  v <> JUndefined -> v <> JNull -> get v k = Normal (member k v).
Proof. destruct v; intros; try congruence; reflexivity. Qed.

Lemma getOpt_member (v : JsValue) (k : string) : getOpt v k = member k v.
Proof. destruct v; reflexivity. Qed.

Lemma strictEqString_decide (v : JsValue) (lit : string) :
  strictEqString v lit
  = match v with JString s => bool_decide (s = lit) | _ => false end.
Proof.
  destruct v; simpl; try reflexivity.
  destruct (String.eqb_spec s lit) as [->|Hne].
  - symmetry. apply bool_decide_eq_true. reflexivity.
  - symmetry. apply bool_decide_eq_false. exact Hne.
Qed.

(** ** One visit *)

Section VisitProofs.
Variable Date_parse : string -> JsNum.
Variable clock : nat -> Z.

Let visitCallback := Client.visitCallback Date_parse clock.

Lemma expectedArrival_shape (visit t : JsValue) :
  expectedArrival visit = Some t ->
  exists props jprops cprops,
    visit = JObject props /\
    assoc "MonitoredVehicleJourney" props = Some (JObject jprops) /\
    assoc "MonitoredCall" jprops = Some (JObject cprops) /\
    assoc "ExpectedArrivalTime" cprops = Some t /\
    truthy t = true.
Proof.
  unfold expectedArrival, monitoredCall. intros H.
  destruct visit as [ | | | | | |props]; simpl in H; try discriminate.
  destruct (assoc "MonitoredVehicleJourney" props) as [journey|] eqn:Hj;
    simpl in H; [|discriminate].
  destruct journey as [ | | | | | |jprops]; simpl in H; try discriminate.
  destruct (assoc "MonitoredCall" jprops) as [call|] eqn:Hc;
    simpl in H; [|discriminate].
  destruct call as [ | | | | | |cprops]; simpl in H; try discriminate.
  destruct (assoc "ExpectedArrivalTime" cprops) as [t'|] eqn:Ht;
    simpl in H; [|discriminate].
  destruct (truthy t') eqn:Htr; [|discriminate].
  injection H as ->. eauto 10.
Qed.

Lemma visitCallback_kept (visit t : JsValue) (p : Client.Page) :
  expectedArrival visit = Some t ->
  visitCallback visit p
  = (Normal (predictionAt Date_parse clock (Client.ticks p) visit t),
     snd (Client.newDate clock p)).
Proof.
  intros H. destruct (expectedArrival_shape _ _ H)
    as (props & jprops & cprops & -> & Hj & Hc & Ht & Htr).
  unfold visitCallback, Client.visitCallback, predictionAt, tryCatch, bind, lift, ret.
  unfold destinationLabel, atStopFlag, vehicleAtStop, monitoredCall, member.
  simpl. rewrite Hj. simpl. rewrite Hc. simpl. rewrite Ht. simpl. rewrite Htr. simpl.
  rewrite strictEqString_decide.
  destruct (ltZero _); reflexivity.
Qed.

(** The guard of the callback is the specification's "has a timestamp". *)
Lemma expectedArrival_guard (visit : JsValue) :
  expectedArrival visit
  = let t := member "ExpectedArrivalTime"
               (member "MonitoredCall" (member "MonitoredVehicleJourney" visit)) in
    if truthy t then Some t else None.
Proof.
  unfold expectedArrival, monitoredCall, member.
  destruct (field "MonitoredVehicleJourney" visit) as [journey|]; simpl; [|reflexivity].
  destruct (field "MonitoredCall" journey) as [call|]; simpl; [|reflexivity].
  destruct (field "ExpectedArrivalTime" call) as [t|]; reflexivity.
Qed.

Lemma visitCallback_dropped (visit : JsValue) (p : Client.Page) :
  expectedArrival visit = None ->
  exists p', visitCallback visit p = (Normal None, p')
             /\ Client.ticks p' = Client.ticks p.
Proof.
  intros H. rewrite expectedArrival_guard in H. simpl in H.
  destruct (truthy _) eqn:Hguard in H; [discriminate|]. clear H.
  unfold visitCallback, Client.visitCallback, tryCatch, bind, lift, ret.
  destruct visit; simpl;
    try (eexists; split; reflexivity).
  rewrite !getOpt_member.
  change (default JUndefined (assoc "MonitoredVehicleJourney" props))
    with (member "MonitoredVehicleJourney" (JObject props)).
  rewrite Hguard. simpl. eexists; split; reflexivity.
Qed.
End VisitProofs.

(** ** Sorting *)

Section SortProofs.
Context {A : Type} (cmp : A -> A -> JsNum).

Lemma sortInsert_Permutation (x : A) (l : list A) :
  Permutation (sortInsert cmp x l) (x :: l).
Proof.
  induction l as [|y l IH]; simpl; [reflexivity|].
  destruct (gtZero (cmp x y)); [|reflexivity].
  rewrite IH. apply perm_swap.
Qed.

Lemma Array_sort_Permutation (l : list A) : Permutation (Array_sort cmp l) l.
Proof.
  induction l as [|x l IH]; simpl; [reflexivity|].
  rewrite sortInsert_Permutation. apply perm_skip, IH.
Qed.

(** When the comparator is the difference of an integer key, the result is
    in ascending key order. *)
Variable key : A -> Z.
Variable le : A -> A -> Prop.
Hypothesis le_key : forall a b, le a b -> key a <= key b.

Lemma sortInsert_sorted (x : A) (l : list A) :
  (forall y, y ∈ l -> cmp x y = Num (key x - key y)) ->
  (forall y, y ∈ l -> key x <= key y -> le x y) ->
  (forall y, y ∈ l -> key y <= key x -> le y x) ->
  StronglySorted le l ->
  StronglySorted le (sortInsert cmp x l).
Proof.
  intros Hcmp Hxy Hyx Hsorted.
  induction Hsorted as [|y l Hl IH Hall]; simpl.
  - repeat constructor.
  - rewrite (Hcmp y) by (left). simpl.
    destruct (Z.ltb_spec 0 (key x - key y)) as [Hgt|Hle].
    + constructor.
      * apply IH; intros; [apply Hcmp|apply Hxy|apply Hyx]; try right; assumption.
      * rewrite (sortInsert_Permutation x l).
        constructor; [|exact Hall]. apply Hyx; [left|lia].
    + constructor; [constructor; assumption|].
      constructor.
      * apply Hxy; [left|lia].
      * rewrite Forall_forall in Hall |- *. intros z Hz.
        apply Hxy; [right; exact Hz|].
        specialize (le_key _ _ (Hall z Hz)). lia.
Qed.
End SortProofs.

Lemma minutesLe_key (a b : Client.Prediction) :
  wholeMinutes a -> wholeMinutes b ->
  (minutesLe a b <-> minutesKey a <= minutesKey b).
Proof.
  unfold minutesLe, minutesKey. intros [x Hx] [y Hy]. rewrite Hx, Hy. split.
  - intros (x' & y' & [= ->] & [= ->] & Hle). exact Hle.
  - intros Hle. exists x, y. auto.
Qed.

Lemma Array_sort_byMinutes_sorted (l : list Client.Prediction) :
  Forall wholeMinutes l ->
  StronglySorted minutesLe (Array_sort Client.byMinutes l).
Proof.
  induction 1 as [|p l Hp Hl IH]; simpl; [constructor|].
  assert (Hall : forall q, q ∈ Array_sort Client.byMinutes l -> wholeMinutes q).
  { intros q Hq. rewrite Array_sort_Permutation in Hq.
    rewrite Forall_forall in Hl. auto. }
  apply (sortInsert_sorted Client.byMinutes minutesKey minutesLe).
  - intros a b (x & y & Ha & Hb & Hle). unfold minutesKey. rewrite Ha, Hb. exact Hle.
  - intros q Hq. destruct Hp as [x Hx], (Hall q Hq) as [y Hy].
    unfold Client.byMinutes, minutesKey. rewrite Hx, Hy. reflexivity.
  - intros q Hq Hle. apply minutesLe_key; auto.
  - intros q Hq Hle. apply minutesLe_key; auto.
  - exact IH.
Qed.

(** ** The whole visit list *)

Section ExtractProofs.
Variable Date_parse : string -> JsNum.
Variable clock : nat -> Z.

Let extractPredictions := Client.extractPredictions Date_parse clock.

Lemma mapM_visitCallback (visits : list JsValue) (p : Client.Page) :
  exists mapped p',
    mapM (Client.visitCallback Date_parse clock) visits p = (Normal mapped, p')
    /\ omap (fun prediction => prediction) mapped
       = collected Date_parse clock (Client.ticks p) visits.
Proof.
  revert p. induction visits as [|visit rest IH]; intros p; simpl.
  - exists [], p. split; reflexivity.
  - unfold bind at 1.
    destruct (expectedArrival visit) as [t|] eqn:Harr.
    + rewrite (visitCallback_kept _ _ _ _ _ Harr).
      destruct (IH (snd (Client.newDate clock p))) as (mapped & p' & Hrun & Hmapped).
      unfold bind at 1. rewrite Hrun. simpl in Hmapped |- *.
      eexists _, _. split; [reflexivity|].
      rewrite <- Hmapped.
      destruct (predictionAt _ _ _ _ _); reflexivity.
    + destruct (visitCallback_dropped Date_parse clock _ p Harr) as (p1 & Hrun1 & Hticks).
      rewrite Hrun1.
      destruct (IH p1) as (mapped & p' & Hrun & Hmapped).
      unfold bind at 1. rewrite Hrun. simpl.
      eexists _, _. split; [reflexivity|].
      rewrite <- Hticks, <- Hmapped. reflexivity.
Qed.

Lemma rawVisits_not_array (stopData : JsValue) :
  (forall elems,
     member "MonitoredStopVisit"
       (member "StopMonitoringDelivery" (member "ServiceDelivery" stopData))
     <> JArray elems) ->
  rawVisits stopData = [].
Proof.
  unfold rawVisits. intros H.
  destruct (member "MonitoredStopVisit" _); try reflexivity.
  exfalso. eapply H. reflexivity.
Qed.

(** [extractPredictions] returns, and what it returns is the sorted list of
    the predictions collected from the visits of the feed. *)
Lemma extractPredictions_collected (stopData : JsValue) (p : Client.Page) :
  exists p',
    extractPredictions stopData p
    = (Normal (Array_sort Client.byMinutes
                 (collected Date_parse clock (Client.ticks p) (rawVisits stopData))),
       p').
Proof.
  unfold extractPredictions, Client.extractPredictions, tryCatch.
  rewrite !getOpt_member.
  destruct (truthy (member "MonitoredStopVisit" _)) eqn:Hguard; simpl.
  - assert (Hdata : stopData <> JUndefined /\ stopData <> JNull).
    { split; intros ->; discriminate Hguard. }
    assert (Hdelivery : member "ServiceDelivery" stopData <> JUndefined
                        /\ member "ServiceDelivery" stopData <> JNull).
    { split; intros Heq; rewrite Heq in Hguard; discriminate Hguard. }
    assert (Hmonitoring :
              member "StopMonitoringDelivery" (member "ServiceDelivery" stopData) <> JUndefined
              /\ member "StopMonitoringDelivery" (member "ServiceDelivery" stopData) <> JNull).
    { split; intros Heq; rewrite Heq in Hguard; discriminate Hguard. }
    unfold bind at 1, lift at 1. rewrite get_member by tauto.
    unfold bind at 1, lift at 1. rewrite get_member by tauto.
    unfold bind at 1, lift at 1. rewrite get_member by tauto.
    unfold rawVisits.
    destruct (member "MonitoredStopVisit" _) as [ | | | | |elems| ] eqn:Hvisits;
      try (eexists; reflexivity).
    destruct (mapM_visitCallback elems p) as (mapped & p' & Hrun & Hmapped).
    unfold bind. rewrite Hrun. simpl. rewrite Hmapped. eexists; reflexivity.
  - rewrite rawVisits_not_array; [eexists; reflexivity|].
    intros elems Heq. rewrite Heq in Hguard. discriminate Hguard.
Qed.
End ExtractProofs.

(** ** The normalizer against its specification *)

Lemma nearestMinute_nearest (ms : Z) :
  -30000 <= ms - 60000 * nearestMinute ms < 30000.
Proof.
  unfold nearestMinute.
  pose proof (Z.div_mod (ms + 30000) 60000 ltac:(lia)) as Hdm.
  pose proof (Z.mod_pos_bound (ms + 30000) 60000 ltac:(lia)) as Hb.
  lia.
Qed.

Lemma Math_round_div_nearestMinute (ms : Z) :
  Math_round_div (Num ms) 60000 = Num (nearestMinute ms).
Proof.
  unfold Math_round_div, nearestMinute. f_equal.
  replace (2 * ms + 60000) with (2 * (ms + 30000)) by lia.
  apply Z.div_mul_cancel_l; lia.
Qed.

Section NormalizerProofs.
Variable Date_parse : string -> JsNum.
Variable clock : nat -> Z.

Lemma collected_keptVisits (n : nat) (visits : list JsValue) :
  Forall (timestampIsDate Date_parse) visits ->
  collected Date_parse clock n visits = keptVisits Date_parse clock n visits.
Proof.
  intros Hdates. revert n.
  induction Hdates as [|visit rest Hvisit _ IH]; intros n; simpl; [reflexivity|].
  destruct (expectedArrival visit) as [t|] eqn:Harr; [|apply IH].
  unfold predictionAt.
  destruct (Date_new Date_parse t) as [arrival|] eqn:Hdate.
  - change (sub (Num arrival) (Num (clock n))) with (Num (arrival - clock n)).
    rewrite Math_round_div_nearestMinute. cbn [ltZero].
    destruct (nearestMinute (arrival - clock n) <? 0); rewrite IH; reflexivity.
  - exfalso. exact (Hvisit t Harr Hdate).
Qed.

Lemma keptVisits_nonnegative (n : nat) (visits : list JsValue) :
  Forall (fun prediction => exists m, Client.minutes prediction = Num m /\ 0 <= m)
         (keptVisits Date_parse clock n visits).
Proof.
  revert n. induction visits as [|visit rest IH]; intros n; simpl; [constructor|].
  destruct (expectedArrival visit) as [t|]; [|apply IH].
  destruct (Date_new Date_parse t) as [arrival|]; [|apply IH].
  destruct (Z.ltb_spec (nearestMinute (arrival - clock n)) 0); [apply IH|].
  constructor; [|apply IH]. simpl. eauto.
Qed.

(** Dropping the visits without a timestamp leaves nothing when no visit
    has one. *)
Lemma collected_none (n : nat) (visits : list JsValue) :
  Forall (fun visit => expectedArrival visit = None) visits ->
  collected Date_parse clock n visits = [].
Proof.
  induction 1 as [|visit rest Hvisit _ IH]; simpl; [reflexivity|].
  rewrite Hvisit. exact IH.
Qed.
End NormalizerProofs.

(** X24.  For a feed whose timestamps denote dates, whatever the order of its
    visits: [extractPredictions] returns exactly the visits that carry a
    timestamp and whose [minutesAway] (the arrival minus the clock reading,
    rounded to the nearest whole minute) is not negative; the result is
    ascending by minutes, and no prediction in it has negative minutes. *)
Theorem extractPredictions_sorted_nonnegative
    (Date_parse : string -> JsNum) (clock : nat -> Z)
    (stopData : JsValue) (p : Client.Page) :
  Forall (timestampIsDate Date_parse) (rawVisits stopData) ->
  exists out p',
    Client.extractPredictions Date_parse clock stopData p = (Normal out, p')
    /\ Permutation out
         (keptVisits Date_parse clock (Client.ticks p) (rawVisits stopData))
    /\ StronglySorted minutesLe out
    /\ Forall (fun prediction =>
                 exists m, Client.minutes prediction = Num m /\ 0 <= m) out.
Proof.
  intros Hdates.
  destruct (extractPredictions_collected Date_parse clock stopData p) as [p' Hrun].
  rewrite collected_keptVisits in Hrun by exact Hdates.
  eexists _, p'. split; [exact Hrun|].
  pose proof (keptVisits_nonnegative Date_parse clock (Client.ticks p)
                (rawVisits stopData)) as Hkept.
  split; [apply Array_sort_Permutation|]. split.
  - apply Array_sort_byMinutes_sorted.
    eapply Forall_impl; [exact Hkept|].
    intros prediction (m & Hm & _). exists m. exact Hm.
  - rewrite Array_sort_Permutation. exact Hkept.
Qed.

Lemma extractPredictions_sorted_nonnegative_witness :
  exists out p',
    Client.extractPredictions Date_parse_utc Samples.clock Samples.threeVisits Samples.page
    = (Normal out, p')
    /\ Permutation out
         (keptVisits Date_parse_utc Samples.clock 0 (rawVisits Samples.threeVisits))
    /\ StronglySorted minutesLe out
    /\ Forall (fun prediction =>
                 exists m, Client.minutes prediction = Num m /\ 0 <= m) out.
Proof.
  apply (extractPredictions_sorted_nonnegative
           Date_parse_utc Samples.clock Samples.threeVisits Samples.page).
  repeat constructor; intros t Ht; vm_compute in Ht;
    try discriminate; injection Ht as <-; vm_compute; discriminate.
Defined.

Lemma collected_unparseable
    (Date_parse : string -> JsNum) (clock : nat -> Z) (visit t : JsValue)
    (visits : list JsValue) (n : nat) :
  visit ∈ visits -> expectedArrival visit = Some t -> Date_new Date_parse t = NaN ->
  Exists (fun prediction => Client.minutes prediction = NaN)
         (collected Date_parse clock n visits).
Proof.
  intros Hin Harr Hdate. revert n.
  induction visits as [|first rest IH]; intros n; [inversion Hin|].
  cbn [collected].
  apply elem_of_cons in Hin as [<-|Hin].
  - rewrite Harr. unfold predictionAt. rewrite Hdate. cbn [sub Math_round_div ltZero].
    apply Exists_cons_hd. reflexivity.
  - specialize (IH Hin).
    destruct (expectedArrival first) as [t'|]; [|apply IH].
    destruct (predictionAt _ _ _ _ _); [apply Exists_cons_tl|]; apply IH.
Qed.

(** A list of two or more predictions that is ascending by minutes holds
    numbers only. *)
Lemma sorted_wholeMinutes (l : list Client.Prediction) :
  StronglySorted minutesLe l -> (2 <= length l)%nat -> Forall wholeMinutes l.
Proof.
  intros Hsorted Hlength.
  destruct Hsorted as [|a rest Hrest Hall]; [simpl in Hlength; lia|].
  destruct rest as [|b rest']; [simpl in Hlength; lia|].
  constructor.
  - apply Forall_cons in Hall as [(x & y & Ha & _) _]. exists x. exact Ha.
  - eapply Forall_impl; [exact Hall|]. intros c (x & y & _ & Hc & _). exists y. exact Hc.
Qed.

(** C1.  The claim does not hold for every visit list.  When a visit carries
    a timestamp that is not a date, its [minutesAway] is [NaN]; the visit is
    neither discarded nor put in order by the comparator, so the result holds
    a prediction with [NaN] minutes and, with any second prediction beside
    it, is not ascending by minutes. *)
Theorem extractPredictions_unsorted_by_unparseable
    (Date_parse : string -> JsNum) (clock : nat -> Z)
    (stopData : JsValue) (p : Client.Page) (visit t : JsValue) :
  visit ∈ rawVisits stopData ->
  expectedArrival visit = Some t ->
  Date_new Date_parse t = NaN ->
  exists out p',
    Client.extractPredictions Date_parse clock stopData p = (Normal out, p')
    /\ Exists (fun prediction => Client.minutes prediction = NaN) out
    /\ ((2 <= length out)%nat -> ~ StronglySorted minutesLe out).
Proof.
  intros Hin Harr Hdate.
  destruct (extractPredictions_collected Date_parse clock stopData p) as [p' Hrun].
  eexists _, p'. split; [exact Hrun|].
  assert (Hnan : Exists (fun prediction => Client.minutes prediction = NaN)
                   (Array_sort Client.byMinutes
                      (collected Date_parse clock (Client.ticks p) (rawVisits stopData)))).
  { rewrite Array_sort_Permutation. eapply collected_unparseable; eassumption. }
  split; [exact Hnan|].
  intros Hlength Hsorted.
  pose proof (sorted_wholeMinutes _ Hsorted Hlength) as Hwhole.
  apply Exists_exists in Hnan as (prediction & Hthere & Hminutes).
  rewrite Forall_forall in Hwhole. destruct (Hwhole prediction Hthere) as [z Hz].
  congruence.
Qed.

Lemma extractPredictions_unsorted_by_unparseable_witness :
  exists out p',
    Client.extractPredictions Date_parse_utc Samples.clock Cases.unparseableBetween
      Samples.page = (Normal out, p')
    /\ Exists (fun prediction => Client.minutes prediction = NaN) out
    /\ ((2 <= length out)%nat -> ~ StronglySorted minutesLe out).
Proof.
  apply (extractPredictions_unsorted_by_unparseable
           Date_parse_utc Samples.clock Cases.unparseableBetween Samples.page
           (Samples.visitWith (JString "garbage") (JString "")) (JString "garbage")).
  - right. left.
  - reflexivity.
  - reflexivity.
Defined.

(** Arrivals 7 and 2 minutes away with a visit between them whose timestamp
    is not a date: none of the three lacks a timestamp, all three come out,
    and 7 stays before 2. *)
Example extractPredictions_seven_NaN_two :
  map Client.minutes
    (match fst (Client.extractPredictions Date_parse_utc Samples.clock
                  Cases.unparseableBetween Samples.page) with
     | Normal out => out
     | Throw _ => []
     end)
  = [Num 7; NaN; Num 2].
Proof. vm_compute. reflexivity. Qed.

(** The scenario of the specification: arrivals 2 and 7 minutes away and a
    visit without an arrival time give the two predictions, nearest first. *)
Example extractPredictions_two_and_seven :
  fst (Client.extractPredictions Date_parse_utc Samples.clock Samples.threeVisits Samples.page)
  = Normal [ {| Client.minutes := Num 2;
                Client.destination := JString "Metro Embarcadero Station";
                Client.atStop := true |};
             {| Client.minutes := Num 7;
                Client.destination := JString "Metro Embarcadero Station";
                Client.atStop := false |} ].
Proof. vm_compute. reflexivity. Qed.

(** [extractPredictions] never throws, and a feed in which no visit carries a
    timestamp gives no prediction. *)
Lemma extractPredictions_returns
    (Date_parse : string -> JsNum) (clock : nat -> Z) (stopData : JsValue) (p : Client.Page) :
  exists out p', Client.extractPredictions Date_parse clock stopData p = (Normal out, p').
Proof.
  destruct (extractPredictions_collected Date_parse clock stopData p) as [p' Hrun].
  eauto.
Qed.

Lemma extractPredictions_no_timestamps
    (Date_parse : string -> JsNum) (clock : nat -> Z) (stopData : JsValue) (p : Client.Page) :
  Forall (fun visit => expectedArrival visit = None) (rawVisits stopData) ->
  exists p', Client.extractPredictions Date_parse clock stopData p = (Normal [], p').
Proof.
  intros Hnone.
  destruct (extractPredictions_collected Date_parse clock stopData p) as [p' Hrun].
  rewrite collected_none in Hrun by exact Hnone. eauto.
Qed.

(** On every feed, whatever its timestamps: no prediction that comes out has
    minutes below zero. *)
Lemma collected_not_negative
    (Date_parse : string -> JsNum) (clock : nat -> Z) (n : nat) (visits : list JsValue) :
  Forall (fun prediction => ltZero (Client.minutes prediction) = false)
         (collected Date_parse clock n visits).
Proof.
  revert n. induction visits as [|visit rest IH]; intros n; simpl; [constructor|].
  destruct (expectedArrival visit) as [t|]; [|apply IH].
  destruct (predictionAt Date_parse clock n visit t) as [prediction|] eqn:Hat; [|apply IH].
  constructor; [|apply IH].
  unfold predictionAt in Hat.
  destruct (ltZero _) eqn:Hneg in Hat; [discriminate|].
  injection Hat as <-. exact Hneg.
Qed.

Lemma extractPredictions_never_negative
    (Date_parse : string -> JsNum) (clock : nat -> Z) (stopData : JsValue)
    (p p' : Client.Page) (out : list Client.Prediction) :
  Client.extractPredictions Date_parse clock stopData p = (Normal out, p') ->
  Forall (fun prediction => ltZero (Client.minutes prediction) = false) out.
Proof.
  destruct (extractPredictions_collected Date_parse clock stopData p) as [p1 Hrun].
  rewrite Hrun. intros [= <- _].
  rewrite Array_sort_Permutation. apply collected_not_negative.
Qed.

(** C8.  A visit whose expected-arrival string is not a date is not dropped:
    [new Date] does not throw on it, its [minutesAway] is [NaN], and [NaN < 0]
    is false, so the visit comes out as a prediction with [NaN] minutes. *)
Theorem extractPredictions_keeps_unparseable
    (Date_parse : string -> JsNum) (clock : nat -> Z) (s : string) (p : Client.Page) :
  s <> "" -> Date_parse s = NaN ->
  exists p',
    Client.extractPredictions Date_parse clock
      (Samples.stopDataOf [Samples.visitWith (JString s) (JString "")]) p
    = (Normal [ {| Client.minutes := NaN;
                   Client.destination := JString "Metro Embarcadero Station";
                   Client.atStop := false |} ], p').
Proof.
  intros Hs Hparse.
  destruct (extractPredictions_collected Date_parse clock
              (Samples.stopDataOf [Samples.visitWith (JString s) (JString "")]) p)
    as [p' Hrun].
  exists p'. rewrite Hrun. do 2 f_equal.
  assert (Htruthy : truthy (JString s) = true).
  { simpl. destruct (String.eqb_spec s ""); [contradiction|reflexivity]. }
  change (rawVisits _) with [Samples.visitWith (JString s) (JString "")].
  cbn [collected].
  assert (Harr : expectedArrival (Samples.visitWith (JString s) (JString "")) = Some (JString s)).
  { unfold expectedArrival, monitoredCall. cbn. cbn in Htruthy. rewrite Htruthy. reflexivity. }
  rewrite Harr. unfold predictionAt. cbn [Date_new]. rewrite Hparse. reflexivity.
Qed.

Lemma extractPredictions_keeps_unparseable_witness :
  exists p',
    Client.extractPredictions Date_parse_utc Samples.clock
      (Samples.stopDataOf [Samples.visitWith (JString "garbage") (JString "")]) Samples.page
    = (Normal [ {| Client.minutes := NaN;
                   Client.destination := JString "Metro Embarcadero Station";
                   Client.atStop := false |} ], p').
Proof.
  apply (extractPredictions_keeps_unparseable Date_parse_utc Samples.clock "garbage" Samples.page).
  - discriminate.
  - vm_compute. reflexivity.
Defined.

(** C9.  The [atStop] flag of a prediction is [true] exactly when the
    [VehicleAtStop] property of the visit's monitored call is the string
    ["true"]. *)
Theorem atStop_iff_string_true
    (Date_parse : string -> JsNum) (clock : nat -> Z)
    (visit : JsValue) (p p' : Client.Page) (prediction : Client.Prediction) :
  Client.visitCallback Date_parse clock visit p = (Normal (Some prediction), p') ->
  (Client.atStop prediction = true <-> vehicleAtStop visit = JString "true").
Proof.
  intros Hrun.
  destruct (expectedArrival visit) as [t|] eqn:Harr.
  - rewrite (visitCallback_kept _ _ _ _ _ Harr) in Hrun.
    injection Hrun as Hprediction _. unfold predictionAt in Hprediction.
    destruct (ltZero _); [discriminate|]. injection Hprediction as <-. simpl.
    unfold atStopFlag. destruct (vehicleAtStop visit); try (split; discriminate).
    rewrite bool_decide_eq_true. split; [intros ->; reflexivity|intros [= ->]; reflexivity].
  - destruct (visitCallback_dropped Date_parse clock visit p Harr) as (p1 & Hrun1 & _).
    fold (Client.visitCallback Date_parse clock) in Hrun1.
    rewrite Hrun1 in Hrun. discriminate.
Qed.

Lemma atStop_iff_string_true_witness :
  Client.atStop {| Client.minutes := Num 2;
                   Client.destination := JString "Metro Embarcadero Station";
                   Client.atStop := true |} = true
  <-> vehicleAtStop (Samples.visitWith (JString "2024-01-15T18:25:45Z") (JString "true"))
      = JString "true".
Proof.
  apply (atStop_iff_string_true Date_parse_utc Samples.clock
           (Samples.visitWith (JString "2024-01-15T18:25:45Z") (JString "true"))
           Samples.page
           (snd (Client.newDate Samples.clock Samples.page))).
  vm_compute. reflexivity.
Defined.

(** Other spellings of the flag (the boolean [true], ["1"], no flag at all)
    give [atStop = false]. *)
Example atStop_other_spellings :
  map (fun flag =>
         fst (Client.visitCallback Date_parse_utc Samples.clock
                (Samples.visitWith (JString "2024-01-15T18:25:45Z") flag) Samples.page))
      [JBool true; JString "1"; JUndefined; JString "True"]
  = repeat (Normal (Some {| Client.minutes := Num 2;
                            Client.destination := JString "Metro Embarcadero Station";
                            Client.atStop := false |})) 4.
Proof. vm_compute. reflexivity. Qed.

(** ** The gateway *)

Lemma statusText_label (code : Z) : Server.statusText code = statusLabel code.
Proof.
  unfold Server.statusText, statusLabel.
  destruct code as [|q|q]; try reflexivity.
  destruct q as [q|q|]; try reflexivity.
  destruct q; reflexivity.
Qed.

Lemma isSfMtaTrain_onFixedLine (e : Server.Gtfs.FeedEntity) :
  Is_true (Server.isSfMtaTrain e) <-> onFixedLine e.
Proof.
  unfold Server.isSfMtaTrain, onFixedLine, routeOf, Server.lineSet.
  destruct (Server.Gtfs.entityVehicle e) as [vp|]; simpl; [|tauto].
  destruct (Server.Gtfs.trip vp) as [trip|]; simpl; [|tauto].
  rewrite bool_decide_spec. tauto.
Qed.

Lemma prettify_normalizes (e : Server.Gtfs.FeedEntity) :
  onFixedLine e ->
  exists v, Server.prettify e = Normal v /\ normalizes e (Server.addReadableStatus v).
Proof.
  unfold onFixedLine, normalizes, routeOf, vehicleIdOf, Server.prettify.
  destruct (Server.Gtfs.entityVehicle e) as [vp|]; simpl; [|tauto].
  destruct (Server.Gtfs.trip vp) as [trip|]; simpl; [|tauto].
  intros _. eexists. split; [reflexivity|].
  exists vp, (Server.Gtfs.routeId trip). simpl.
  rewrite statusText_label. repeat split; reflexivity.
Qed.

Lemma mapC_prettify (entities : list Server.Gtfs.FeedEntity) :
  exists vs,
    Server.mapC Server.prettify
      (filter (fun e => Is_true (Server.isSfMtaTrain e)) entities) = Normal vs
    /\ Forall2 normalizes (filter onFixedLine entities) (map Server.addReadableStatus vs).
Proof.
  induction entities as [|e rest (vs & Hrun & Hall)]; simpl.
  - exists []. split; [reflexivity|constructor].
  - rewrite !filter_cons.
    destruct (decide (onFixedLine e)) as [Hline|Hline].
    + rewrite decide_True by (apply isSfMtaTrain_onFixedLine; exact Hline).
      destruct (prettify_normalizes e Hline) as (v & Hv & Hnorm).
      simpl. rewrite Hv, Hrun. exists (v :: vs). split; [reflexivity|].
      simpl. constructor; assumption.
    + rewrite decide_False by (rewrite isSfMtaTrain_onFixedLine; exact Hline).
      exists vs. split; assumption.
Qed.

(** When the feed decodes, the answer is the list of the records made of
    the entities on the fixed lines. *)
Lemma api_vehicles_decoded
    (decode : Server.Schema) (buffer : list Byte.byte) (feed : Server.Gtfs.FeedMessage) :
  decode buffer = Normal feed ->
  exists vehicles,
    Server.api_vehicles (Some decode) (Normal buffer) = Server.Json vehicles
    /\ Forall2 normalizes (filter onFixedLine (Server.Gtfs.entity feed)) vehicles.
Proof.
  intros Hdecode. unfold Server.api_vehicles. rewrite Hdecode.
  destruct (mapC_prettify (Server.Gtfs.entity feed)) as (vs & Hrun & Hall).
  rewrite Hrun. eexists. split; [reflexivity|exact Hall].
Qed.

(** C3.  When the feed decodes, the gateway answers with one record per
    entity whose trip's route id is one of J, K, L, M, N, T, in feed order
    and with no other record; the id of a record is the route id followed by
    the vehicle id, and its readable status starts with the label of the
    status code: 0 Incoming, 1 Stopped, 2 In Transit, anything else Unknown. *)
Theorem api_vehicles_line_filter
    (decode : Server.Schema) (buffer : list Byte.byte) (feed : Server.Gtfs.FeedMessage) :
  decode buffer = Normal feed ->
  exists vehicles,
    Server.api_vehicles (Some decode) (Normal buffer) = Server.Json vehicles
    /\ Forall2 normalizes (filter onFixedLine (Server.Gtfs.entity feed)) vehicles
    /\ statusLabel 0 = "Incoming" /\ statusLabel 1 = "Stopped"
    /\ statusLabel 2 = "In Transit"
    /\ (forall code, code <> 0 -> code <> 1 -> code <> 2 -> statusLabel code = "Unknown").
Proof.
  intros Hdecode.
  destruct (api_vehicles_decoded decode buffer feed Hdecode) as (vehicles & Hrun & Hall).
  exists vehicles. split; [exact Hrun|]. split; [exact Hall|].
  repeat split; try reflexivity.
  intros code H0 H1 H2. unfold statusLabel.
  destruct (Z.eqb_spec code 0); [contradiction|].
  destruct (Z.eqb_spec code 1); [contradiction|].
  destruct (Z.eqb_spec code 2); [contradiction|reflexivity].
Qed.

Lemma api_vehicles_line_filter_witness :
  exists vehicles,
    Server.api_vehicles (Some Samples.decodeTwo) (Normal []) = Server.Json vehicles
    /\ Forall2 normalizes (filter onFixedLine (Server.Gtfs.entity Samples.twoEntities)) vehicles
    /\ statusLabel 0 = "Incoming" /\ statusLabel 1 = "Stopped"
    /\ statusLabel 2 = "In Transit"
    /\ (forall code, code <> 0 -> code <> 1 -> code <> 2 -> statusLabel code = "Unknown").
Proof.
  apply (api_vehicles_line_filter Samples.decodeTwo [] Samples.twoEntities).
  reflexivity.
Defined.

(** The scenario of the specification: of the entities on routes K and X
    only the one on K is in the answer. *)
Example api_vehicles_K_and_X :
  match Server.api_vehicles (Some Samples.decodeTwo) (Normal []) with
  | Server.Json vehicles =>
      map (fun v => (trainId v, readableStatus v)) vehicles
      = [("K2041", Some "Stopped at Outbound to Ocean Beach")]
  | Server.Status500 _ => False
  end.
Proof. vm_compute. reflexivity. Qed.

(** C7.  While the schema is not loaded, a vehicles request is answered with
    status 500 and the error text "Protobuf schema not loaded", whatever
    511.org would have answered: the handler neither throws nor sends a
    vehicle list. *)
Theorem api_vehicles_schema_not_loaded (upstream : Completion (list Byte.byte)) :
  Server.api_vehicles None upstream
  = Server.Status500 "Failed to fetch vehicle positions: Protobuf schema not loaded"
  /\ Server.status (Server.api_vehicles None upstream) = 500
  /\ (forall vehicles, Server.api_vehicles None upstream <> Server.Json vehicles).
Proof. repeat split. intros vehicles. discriminate. Qed.

(** A vehicle list is only ever sent by a handler whose schema is loaded. *)
Lemma api_vehicles_json_schema
    (FeedMessage : option Server.Schema) (upstream : Completion (list Byte.byte))
    (vehicles : list Vehicle) :
  Server.api_vehicles FeedMessage upstream = Server.Json vehicles ->
  exists decode buffer feed,
    FeedMessage = Some decode /\ upstream = Normal buffer /\ decode buffer = Normal feed.
Proof.
  unfold Server.api_vehicles.
  destruct FeedMessage as [decode|]; [|discriminate].
  destruct upstream as [buffer|]; [|discriminate].
  destruct (decode buffer) as [feed|] eqn:Hdecode; [|discriminate].
  eauto 10.
Qed.



(** The scenario of the specification: the request for the inbound stop
    fails, the one for the outbound stop is answered, and the answer is the
    error, not an outbound-only result. *)
Example api_predictions_inbound_fails :
  Server.api_predictions (Some "key") Samples.inboundFails Samples.inboundFails
    (Some "15779") (Some "15780")
  = Server.Status500 "Failed to fetch predictions".
Proof. vm_compute. reflexivity. Qed.

(** Both requests answered: the entry of a stop of [STOPS] carries its name,
    the entry of any other stop its number. *)
Example api_predictions_both_answered :
  Server.api_predictions (Some "key") Cases.answers Cases.answers (Some "17109") (Some "15780")
  = Server.Json
      (JObject [("inbound", JObject [("stopName", JString "Inbound to Downtown");
                                     ("ServiceDelivery", JObject [])]);
                ("outbound", JObject [("stopName", JString "Stop #15780");
                                      ("ServiceDelivery", JObject [])])]).
Proof. vm_compute. reflexivity. Qed.

(** ** Vehicle timestamps *)

Lemma binary64_small (x : Z) : Z.abs x < 2 ^ 53 -> binary64 x = x.
Proof.
  intros Hx. unfold binary64.
  destruct (Z.ltb_spec (Z.abs x) (2 ^ 53)); [reflexivity|lia].
Qed.

(** [binary64] computes what the doubles of the machine compute, on the
    operand pairs [(low, high)] listed. *)
Example binary64_agrees_with_doubles :
  forallb (fun '(lo, hi) =>
             bool_decide
               (ofFloat (PrimFloat.add (PrimFloat.mul (toFloat lo) 1000)
                                       (PrimFloat.mul (toFloat hi) 4294967296000))
                = Some (Client.milliseconds (mkLong lo hi true))))
          [(1705343025, 0); (1, 1048576); (3, 2097152); (1, 2097143); (5, 4194305);
           (-5, 4194305); (123456789, 2147483647); (-123456789, -2147483647);
           (2147483647, 4194305); (-2147483648, 0); (0, 0)]
  = true.
Proof. vm_compute. reflexivity. Qed.

(** C5, as the code has it.  The gateway hands the decoded Long on unchanged,
    as [timestamp] and as [rawTimestamp].  The page rebuilds the milliseconds
    from the two words in double arithmetic; for words that are not negative
    and a result below [2^53] that is the exact value, shown as a time when it
    is within the range of dates. *)
Theorem timestamp_passthrough_and_reconstruction
    (decode : Server.Schema) (buffer : list Byte.byte) (feed : Server.Gtfs.FeedMessage)
    (l : Long) :
  decode buffer = Normal feed ->
  0 <= low l < 2 ^ 31 -> 0 <= high l < 2 ^ 31 -> wideValue l * 1000 < 2 ^ 53 ->
  (exists vehicles,
     Server.api_vehicles (Some decode) (Normal buffer) = Server.Json vehicles
     /\ Forall2 (fun e v =>
                   exists vp, Server.Gtfs.entityVehicle e = Some vp
                              /\ timestamp v = Server.Gtfs.timestamp vp
                              /\ rawTimestamp v = Server.Gtfs.timestamp vp)
                (filter onFixedLine (Server.Gtfs.entity feed)) vehicles)
  /\ Client.milliseconds l = wideValue l * 1000
  /\ Client.formatTimestamp (Client.TsLong l)
     = if wideValue l * 1000 <=? 8640000000000000
       then Client.LocaleString (wideValue l * 1000)
       else Client.Text "Invalid Date".
Proof.
  intros Hdecode Hlow Hhigh Hbound. split.
  - destruct (api_vehicles_decoded decode buffer feed Hdecode) as (vehicles & Hrun & Hall).
    exists vehicles. split; [exact Hrun|].
    eapply Forall2_impl; [exact Hall|].
    intros e v (vp & r & Hvp & _ & _ & _ & _ & Ht & Hraw). eauto.
  - assert (Hwide : wideValue l = high l * 2 ^ 32 + low l).
    { unfold wideValue. destruct (unsigned l); rewrite ?Z.mod_small by lia; reflexivity. }
    assert (Hms : Client.milliseconds l = wideValue l * 1000).
    { unfold Client.milliseconds, Js.add, Js.mul.
      rewrite (binary64_small (low l * 1000)) by lia.
      rewrite (binary64_small (high l * 4294967296000)) by lia.
      rewrite binary64_small by lia. lia. }
    split; [exact Hms|].
    unfold Client.formatTimestamp, TimeClip. rewrite Hms.
    rewrite Z.abs_eq by lia. destruct (_ <=? _); reflexivity.
Qed.

Lemma timestamp_passthrough_and_reconstruction_witness :
  (exists vehicles,
     Server.api_vehicles (Some Samples.decodeTwo) (Normal []) = Server.Json vehicles
     /\ Forall2 (fun e v =>
                   exists vp, Server.Gtfs.entityVehicle e = Some vp
                              /\ timestamp v = Server.Gtfs.timestamp vp
                              /\ rawTimestamp v = Server.Gtfs.timestamp vp)
                (filter onFixedLine (Server.Gtfs.entity Samples.twoEntities)) vehicles)
  /\ Client.milliseconds Samples.presentTimestamp = wideValue Samples.presentTimestamp * 1000
  /\ Client.formatTimestamp (Client.TsLong Samples.presentTimestamp)
     = if wideValue Samples.presentTimestamp * 1000 <=? 8640000000000000
       then Client.LocaleString (wideValue Samples.presentTimestamp * 1000)
       else Client.Text "Invalid Date".
Proof.
  apply (timestamp_passthrough_and_reconstruction
           Samples.decodeTwo [] Samples.twoEntities Samples.presentTimestamp).
  - reflexivity.
  - simpl; lia.
  - simpl; lia.
  - vm_compute. reflexivity.
Defined.

(** The rebuilding is not exact integer arithmetic: for the Long of
    [2^52 + 1] seconds the double sum is 24 ms off the exact value, in the
    model and on the doubles of the machine alike. *)
Lemma milliseconds_not_exact :
  Client.milliseconds Samples.largeTimestamp = 4503599627370497024
  /\ ofFloat (PrimFloat.add (PrimFloat.mul 1 1000) (PrimFloat.mul 1048576 4294967296000))
     = Some 4503599627370497024
  /\ wideValue Samples.largeTimestamp * 1000 = 4503599627370497000
  /\ Client.milliseconds Samples.largeTimestamp <> wideValue Samples.largeTimestamp * 1000.
Proof. vm_compute. repeat split. discriminate. Qed.

(** The words of a Long are signed.  From 2^31 seconds on (January 2038)
    the low word of a timestamp is negative, and the rebuilt time falls
    before 1970. *)
Example formatTimestamp_negative_low_word :
  wideValue (mkLong (-2147483648) 0 true) = 2147483648
  /\ Client.formatTimestamp (Client.TsLong (mkLong (-2147483648) 0 true))
     = Client.LocaleString (-2147483648000).
Proof. vm_compute. split; reflexivity. Qed.

(** ** The page *)

(** C10.  A vehicles response that parses, with an empty vehicle list or
    while the map has not loaded, leaves the page as it was: the markers of
    the previous poll stay.  [updateMapMarkers] is not called: called on the
    empty list it would have removed every marker. *)
Theorem fetchVehiclePositions_empty_keeps_markers
    (status : Z) (vehicles : list Vehicle) (p : Client.Page) :
  vehicles = [] \/ Client.mapLoaded p = false ->
  Client.fetchVehiclePositions (Client.FetchResponse true status (Normal (Some vehicles))) p
  = (Normal tt, p)
  /\ Client.markers (snd (Client.updateMapMarkers [] p)) = [].
Proof.
  intros Hskip. split; [|reflexivity].
  unfold Client.fetchVehiclePositions, tryCatch, bind, gets.
  destruct Hskip as [->|Hmap].
  - reflexivity.
  - rewrite Hmap, andb_false_r. reflexivity.
Qed.

Lemma fetchVehiclePositions_empty_keeps_markers_witness :
  Client.fetchVehiclePositions (Client.FetchResponse true 200 (Normal (Some []))) Samples.page
  = (Normal tt, Samples.page)
  /\ Client.markers (snd (Client.updateMapMarkers [] Samples.page)) = [].
Proof.
  apply (fetchVehiclePositions_empty_keeps_markers 200 [] Samples.page).
  left. reflexivity.
Defined.

(** C4, as the code has it.  A predictions fetch that fails puts the error
    placeholder into both prediction containers, whatever they showed.  A
    vehicles fetch that fails (or answers without a vehicle list) writes to
    the console and changes nothing else: the markers stay. *)
Theorem failed_fetch_regions
    (Date_parse : string -> JsNum) (clock : nat -> Z)
    (predictions : Client.FetchResult JsValue)
    (vehicles : Client.FetchResult (option (list Vehicle))) (p : Client.Page) :
  fetchFails predictions ->
  fetchFails vehicles \/ (exists status, vehicles = Client.FetchResponse true status (Normal None)) ->
  (let p' := snd (Client.fetchPredictions Date_parse clock predictions p) in
   Client.region_inbound p' = [Client.LoadingDiv "Error loading predictions"]
   /\ Client.region_outbound p' = [Client.LoadingDiv "Error loading predictions"])
  /\ (let p' := snd (Client.fetchVehiclePositions vehicles p) in
      Client.markers p' = Client.markers p
      /\ Client.region_inbound p' = Client.region_inbound p
      /\ Client.region_outbound p' = Client.region_outbound p
      /\ Client.console p' = Client.console p ++ ["Error fetching vehicle positions:"]).
Proof.
  intros Hpredictions Hvehicles. split.
  - unfold Client.fetchPredictions, tryCatch.
    destruct predictions as [e|ok status json]; simpl in Hpredictions.
    + split; reflexivity.
    + destruct ok; [|split; reflexivity].
      destruct Hpredictions as [Hok|[e ->]]; [discriminate|]. split; reflexivity.
  - unfold Client.fetchVehiclePositions, tryCatch.
    destruct Hvehicles as [Hfail|[status ->]]; [|repeat split; reflexivity].
    destruct vehicles as [e|ok status json]; simpl in Hfail.
    + repeat split; reflexivity.
    + destruct ok; [|repeat split; reflexivity].
      destruct Hfail as [Hok|[e ->]]; [discriminate|]. repeat split; reflexivity.
Qed.

Lemma failed_fetch_regions_witness :
  (let p' := snd (Client.fetchPredictions Date_parse_utc Samples.clock
                    (Client.FetchResponse false 500 (Normal JNull)) Samples.page) in
   Client.region_inbound p' = [Client.LoadingDiv "Error loading predictions"]
   /\ Client.region_outbound p' = [Client.LoadingDiv "Error loading predictions"])
  /\ (let p' := snd (Client.fetchVehiclePositions
                       (Client.FetchRejected (TypeError "Failed to fetch")) Samples.page) in
      Client.markers p' = Client.markers Samples.page
      /\ Client.region_inbound p' = Client.region_inbound Samples.page
      /\ Client.region_outbound p' = Client.region_outbound Samples.page
      /\ Client.console p'
         = Client.console Samples.page ++ ["Error fetching vehicle positions:"]).
Proof.
  apply (failed_fetch_regions Date_parse_utc Samples.clock
           (Client.FetchResponse false 500 (Normal JNull))
           (Client.FetchRejected (TypeError "Failed to fetch")) Samples.page).
  - left. reflexivity.
  - left. exact I.
Defined.

(** After a vehicles fetch that failed, the page shows the marker of the
    earlier poll and no placeholder: nothing of the document has changed. *)
Lemma failed_vehicles_fetch_keeps_stale_marker :
  let p' := snd (Client.fetchVehiclePositions
                   (Client.FetchResponse false 500 (Normal None)) Samples.page) in
  Client.markers p' = [Samples.staleMarker]
  /\ Client.markers p' <> []
  /\ Client.region_inbound p' = Client.region_inbound Samples.page
  /\ Client.region_outbound p' = Client.region_outbound Samples.page
  /\ Client.update_time p' = Client.update_time Samples.page.
Proof. cbv zeta. repeat split; try reflexivity. discriminate. Qed.

(** ** The stop cache *)

Lemma loadAllStops_loadListed (ok : bool) (status : Z) (data : Client.Dataset) (p : Client.Page) :
  Client.allStops (snd (Client.loadAllStops (Client.FetchResponse ok status (Normal data)) p))
  = loadListed (datasetStops data) (Client.allStops p).
Proof.
  unfold Client.loadAllStops, tryCatch, modify, datasetStops, loadListed. simpl.
  generalize (Client.allStops p) as m.
  induction (Client.routes data) as [|route rest IH]; intros m; simpl; [reflexivity|].
  rewrite foldl_app, IH. f_equal.
  unfold Client.addRoute. generalize m as m'.
  induction (Client.stops route) as [|stop stops IHs]; intros m'; simpl; [reflexivity|].
  apply IHs.
Qed.

Lemma nonEmpty_true (s : string) : Client.nonEmpty s = true <-> s <> "".
Proof.
  unfold Client.nonEmpty. destruct (String.eqb_spec s ""); simpl; split; congruence.
Qed.

Lemma addStop_named (route : Client.Route) (stop : Client.Stop)
    (m : gmap string Client.StopDetails) :
  named stop ->
  Client.addStop route stop m = <[Client.id stop := entryOf (route, stop)]> m.
Proof.
  intros [Hid Hname]. unfold Client.addStop.
  rewrite (proj2 (nonEmpty_true _) Hid), (proj2 (nonEmpty_true _) Hname). reflexivity.
Qed.

Lemma addStop_other (route : Client.Route) (stop : Client.Stop)
    (m : gmap string Client.StopDetails) (k : string) :
  ~ (named stop /\ Client.id stop = k) ->
  Client.addStop route stop m !! k = m !! k.
Proof.
  intros Hother. unfold Client.addStop.
  destruct (Client.nonEmpty (Client.id stop)) eqn:Hid; simpl; [|reflexivity].
  destruct (Client.nonEmpty (Client.name stop)) eqn:Hname; simpl; [|reflexivity].
  apply lookup_insert_ne. intros Heq. apply Hother.
  split; [split; apply nonEmpty_true; assumption|exact Heq].
Qed.

(** The last named stop listed under an id is the one the cache holds. *)
Lemma loadListed_lookup (listed : list (Client.Route * Client.Stop))
    (m : gmap string Client.StopDetails) (k : string) :
  (exists entry, entry ∈ listed /\ named entry.2 /\ Client.id entry.2 = k) ->
  exists entry, entry ∈ listed /\ named entry.2 /\ Client.id entry.2 = k
                /\ loadListed listed m !! k = Some (entryOf entry).
Proof.
  induction listed as [|[route stop] listed IH] using rev_ind.
  - intros (entry & Hin & _). inversion Hin.
  - intros (entry & Hin & Hnamed & Hid).
    unfold loadListed. rewrite foldl_app. simpl. fold (loadListed listed m).
    destruct (decide (named stop /\ Client.id stop = k)) as [[Hstop Hk]|Hother].
    + exists (route, stop).
      split; [apply elem_of_app; right; left|]. split; [exact Hstop|]. split; [exact Hk|].
      rewrite addStop_named by exact Hstop. rewrite Hk. apply lookup_insert_eq.
    + rewrite addStop_other by exact Hother.
      destruct IH as (entry' & Hin' & Hnamed' & Hid' & Hlookup).
      { exists entry. split; [|tauto].
        apply elem_of_app in Hin as [Hin|Hin]; [exact Hin|].
        apply list_elem_of_singleton in Hin. subst entry. tauto. }
      exists entry'. split; [apply elem_of_app; left; exact Hin'|]. tauto.
Qed.

(** After a dataset is loaded, looking up the id of any of its stops that
    has an id and a name succeeds, and the details returned are those of a
    stop listed under that id. *)
Theorem loadAllStops_lookup_named
    (ok : bool) (status : Z) (data : Client.Dataset) (p : Client.Page)
    (route : Client.Route) (stop : Client.Stop) :
  route ∈ Client.routes data -> stop ∈ Client.stops route -> named stop ->
  let p' := snd (Client.loadAllStops (Client.FetchResponse ok status (Normal data)) p) in
  Client.isValid (Client.validateStop p' (Client.id stop)) = true
  /\ exists entry,
       entry ∈ datasetStops data /\ Client.id entry.2 = Client.id stop
       /\ Client.details (Client.validateStop p' (Client.id stop)) = Some (entryOf entry).
Proof.
  intros Hroute Hstop Hnamed. cbv zeta.
  unfold Client.validateStop. cbn [Client.isValid Client.details].
  rewrite loadAllStops_loadListed.
  destruct (loadListed_lookup (datasetStops data) (Client.allStops p) (Client.id stop))
    as (entry & Hin & _ & Hid & Hlookup).
  { exists (route, stop). split; [|split; [exact Hnamed|reflexivity]].
    unfold datasetStops. apply list_elem_of_bind. exists route. split; [|exact Hroute].
    apply list_elem_of_fmap. exists stop. split; [reflexivity|exact Hstop]. }
  rewrite Hlookup. split; [reflexivity|]. exists entry. auto.
Qed.

Lemma loadAllStops_lookup_named_witness :
  let p' := snd (Client.loadAllStops
                   (Client.FetchResponse true 200 (Normal Samples.westPortal)) Samples.page) in
  Client.isValid (Client.validateStop p' "15779") = true
  /\ exists entry,
       entry ∈ datasetStops Samples.westPortal /\ Client.id entry.2 = "15779"
       /\ Client.details (Client.validateStop p' "15779") = Some (entryOf entry).
Proof.
  apply (loadAllStops_lookup_named true 200 Samples.westPortal Samples.page
           {| Client.line := "K";
              Client.stops := [ {| Client.id := "15779"; Client.name := "West Portal Station";
                                   Client.lat := Some "37.741";
                                   Client.long := Some "-122.465" |} ] |}
           {| Client.id := "15779"; Client.name := "West Portal Station";
              Client.lat := Some "37.741"; Client.long := Some "-122.465" |}).
  - left.
  - left.
  - split; discriminate.
Defined.

(** *** The dataset that the generator writes *)

Lemma Set_add_named (stop : Client.Stop) (stops : list Client.Stop) :
  named stop -> Forall named stops -> Forall named (Generator.Set_add stop stops).
Proof.
  intros Hstop Hstops. unfold Generator.Set_add.
  destruct (decide (stop ∈ stops)); [exact Hstops|].
  apply Forall_app. split; [exact Hstops|]. constructor; [exact Hstop|constructor].
Qed.

Lemma addPoint_named (stops : list Client.Stop) (point : Generator.Point) :
  Forall named stops -> Forall named (Generator.addPoint stops point).
Proof.
  intros Hstops. unfold Generator.addPoint.
  destruct (Client.nonEmpty (Generator.ScheduledStopPointRef point)) eqn:Hid;
    [|exact Hstops].
  destruct (Client.nonEmpty (Generator.point_Name point)) eqn:Hname; [|exact Hstops].
  cbn [andb]. apply Set_add_named; [|exact Hstops].
  apply nonEmpty_true in Hid, Hname. unfold Generator.stopInfo.
  destruct (match Generator.Location point with Some _ => _ | None => _ end) as [lat long].
  split; assumption.
Qed.

Lemma foldl_addPoint_named (points : list Generator.Point) (stops : list Client.Stop) :
  Forall named stops -> Forall named (foldl Generator.addPoint stops points).
Proof.
  revert stops. induction points as [|point points IH]; intros stops Hstops; [exact Hstops|].
  cbn [foldl]. apply IH, addPoint_named, Hstops.
Qed.

(** Every stop that the generator writes has an id and a name. *)
Lemma runTest_named
    (gtfs : Completion (list Generator.Csv.Row)) (lines : Completion (list Generator.Line))
    (patterns : nat -> string -> Completion (list Generator.JourneyPattern))
    (data : Client.Dataset) (route : Client.Route) (stop : Client.Stop) :
  Generator.runTest gtfs lines patterns = Some data ->
  route ∈ Client.routes data -> stop ∈ Client.stops route -> named stop.
Proof.
  unfold Generator.runTest. intros Hrun Hroute Hstop.
  destruct gtfs as [gtfsStops|]; [|discriminate].
  destruct (Generator.fetchRoutes lines) as [routes|]; [|discriminate].
  injection Hrun as <-. cbn [Client.routes] in Hroute.
  apply list_elem_of_omap in Hroute as (entry & Hentry & ->).
  apply elem_of_lookup_imap_1 in Hentry as (k & found & Hfetched & _).
  unfold Generator.fetchPatterns in Hfetched.
  destruct (patterns k (Generator.Id found)) as [journeyPatterns|]; [|discriminate].
  injection Hfetched as ->.
  cbn [Generator.summaryEntry Client.stops snd] in Hstop.
  apply list_elem_of_fmap in Hstop as (written & -> & Hwritten).
  pose proof (foldl_addPoint_named (journeyPatterns ≫= Generator.pointsOf) [] (Forall_nil_2 _))
    as Hall.
  rewrite Forall_forall in Hall. exact (Hall written Hwritten).
Qed.

(** C6.  Round trip over the dataset of the repository: when the page has
    loaded a dataset that the generator wrote, looking up the id of every
    stop of the dataset succeeds, and the details returned are those of a
    stop that the dataset lists under that id. *)
Theorem generated_dataset_round_trip
    (gtfs : Completion (list Generator.Csv.Row)) (lines : Completion (list Generator.Line))
    (patterns : nat -> string -> Completion (list Generator.JourneyPattern))
    (data : Client.Dataset) (ok : bool) (status : Z) (p : Client.Page)
    (route : Client.Route) (stop : Client.Stop) :
  Generator.runTest gtfs lines patterns = Some data ->
  route ∈ Client.routes data -> stop ∈ Client.stops route ->
  let p' := snd (Client.loadAllStops (Client.FetchResponse ok status (Normal data)) p) in
  Client.isValid (Client.validateStop p' (Client.id stop)) = true
  /\ exists entry,
       entry ∈ datasetStops data /\ Client.id entry.2 = Client.id stop
       /\ Client.details (Client.validateStop p' (Client.id stop)) = Some (entryOf entry).
Proof.
  intros Hrun Hroute Hstop.
  apply (loadAllStops_lookup_named ok status data p route stop Hroute Hstop).
  exact (runTest_named gtfs lines patterns data route stop Hrun Hroute Hstop).
Qed.

Lemma generated_dataset_round_trip_witness :
  let p' := snd (Client.loadAllStops
                   (Client.FetchResponse true 200 (Normal Cases.generated)) Samples.page) in
  Client.isValid (Client.validateStop p' "15779") = true
  /\ exists entry,
       entry ∈ datasetStops Cases.generated /\ Client.id entry.2 = "15779"
       /\ Client.details (Client.validateStop p' "15779") = Some (entryOf entry).
Proof.
  apply (generated_dataset_round_trip
           (Normal Cases.gtfsRows) (Normal Cases.sixLines) Cases.patternsOf
           Cases.generated true 200 Samples.page
           {| Client.line := "K";
              Client.stops := [ {| Client.id := "15779"; Client.name := "West Portal Station";
                                   Client.lat := Some "37.741";
                                   Client.long := Some "-122.465" |} ] |}
           {| Client.id := "15779"; Client.name := "West Portal Station";
              Client.lat := Some "37.741"; Client.long := Some "-122.465" |}).
  - vm_compute. reflexivity.
  - right. left.
  - left.
Defined.

(** The scenario of the specification: stop 15779 is found with its name and
    line, stop 99999 is not found. *)
Example validateStop_west_portal :
  let p' := snd (Client.loadAllStops
                   (Client.FetchResponse true 200 (Normal Samples.westPortal)) Samples.page) in
  Client.validateStop p' "15779"
  = {| Client.isValid := true;
       Client.details := Some (Client.mkStopDetails "West Portal Station" "K"
                                 (Some "37.741") (Some "-122.465")) |}
  /\ Client.validateStop p' "99999" = {| Client.isValid := false; Client.details := None |}.
Proof. vm_compute. split; reflexivity. Qed.

(** The guard of [loadAllStops]: were a stop listed with an id and without a
    name, it would not be stored, and looking its id up would fail. *)
Lemma loadAllStops_skips_nameless :
  let p' := snd (Client.loadAllStops
                   (Client.FetchResponse true 200 (Normal Samples.nameless)) Samples.page) in
  (exists route stop, route ∈ Client.routes Samples.nameless
                      /\ stop ∈ Client.stops route /\ Client.id stop = "15779")
  /\ Client.validateStop p' "15779" = {| Client.isValid := false; Client.details := None |}.
Proof.
  cbv zeta. split.
  - eexists _, _. split; [left|]. split; [left|reflexivity].
  - vm_compute. reflexivity.
Qed.

(** * Further properties of the code *)

Import Display.

(** ** Running effects *)

Lemma bind_Normal {S A B : Type} (m : Eff S A) (k : A -> Eff S B) (s s' : S) (a : A) :
  m s = (Normal a, s') -> bind m k s = k a s'.
Proof. unfold bind. intros ->. reflexivity. Qed.

Lemma bind_Throw {S A B : Type} (m : Eff S A) (k : A -> Eff S B) (s s' : S) (e : JsError) :
  m s = (Throw e, s') -> bind m k s = (Throw e, s').
Proof. unfold bind. intros ->. reflexivity. Qed.

Lemma sameDocument_refl (p : Client.Page) : sameDocument p p.
Proof. repeat split. Qed.

Lemma sameDocument_trans (p q r : Client.Page) :
  sameDocument p q -> sameDocument q r -> sameDocument p r.
Proof.
  unfold sameDocument. intros (?&?&?&?&?&?&?&?) (?&?&?&?&?&?&?&?).
  repeat split; congruence.
Qed.

(** ** Extraction leaves the document alone *)

Section FrameProofs.
Variable Date_parse : string -> JsNum.
Variable clock : nat -> Z.

Lemma visitCallback_frame (visit : JsValue) (p : Client.Page) :
  sameDocument p (snd (Client.visitCallback Date_parse clock visit p)).
Proof.
  destruct (expectedArrival visit) as [t|] eqn:Harr.
  - rewrite (visitCallback_kept _ _ _ _ _ Harr). repeat split.
  - rewrite expectedArrival_guard in Harr. simpl in Harr.
    destruct (truthy _) eqn:Hguard in Harr; [discriminate|]. clear Harr.
    unfold Client.visitCallback, tryCatch, bind, lift, ret.
    destruct visit; simpl; try solve [repeat split].
    rewrite !getOpt_member.
    change (default JUndefined (assoc "MonitoredVehicleJourney" props))
      with (member "MonitoredVehicleJourney" (JObject props)).
    rewrite Hguard. repeat split.
Qed.

Lemma mapM_visitCallback_frame (visits : list JsValue) (p : Client.Page) :
  sameDocument p (snd (mapM (Client.visitCallback Date_parse clock) visits p)).
Proof.
  revert p. induction visits as [|visit rest IH]; intros p; simpl.
  - apply sameDocument_refl.
  - pose proof (visitCallback_frame visit p) as Hfirst.
    unfold bind at 1.
    destruct (Client.visitCallback Date_parse clock visit p) as [[r|e] p1]; simpl in *;
      [|exact Hfirst].
    pose proof (IH p1) as Hrest. unfold bind at 1.
    destruct (mapM _ rest p1) as [[rs|e] p2]; simpl in *;
      eapply sameDocument_trans; eassumption.
Qed.

Lemma extractPredictions_frame (stopData : JsValue) (p : Client.Page) :
  sameDocument p (snd (Client.extractPredictions Date_parse clock stopData p)).
Proof.
  unfold Client.extractPredictions, tryCatch.
  destruct (truthy _); simpl; [|apply sameDocument_refl].
  unfold bind at 1, lift at 1.
  destruct (get stopData "ServiceDelivery") as [delivery|e]; [|repeat split].
  unfold bind at 1, lift at 1.
  destruct (get delivery "StopMonitoringDelivery") as [monitoring|e]; [|repeat split].
  unfold bind at 1, lift at 1.
  destruct (get monitoring "MonitoredStopVisit") as [visits|e]; [|repeat split].
  destruct visits as [ | | | | |elems| ]; try solve [repeat split].
  pose proof (mapM_visitCallback_frame elems p) as Hmap.
  unfold bind.
  destruct (mapM _ elems p) as [[mapped|e] p1]; simpl in *; [exact Hmap|].
  eapply sameDocument_trans; [exact Hmap|]. repeat split.
Qed.
End FrameProofs.

(** X1.  [extractPredictions] returns normally on every JSON value, and it
    changes nothing of the page but the console and the count of clock
    readings: stops, selection, markers, both containers and the update time
    stay as they were. *)
Theorem extractPredictions_total_and_frame
    (Date_parse : string -> JsNum) (clock : nat -> Z) (stopData : JsValue) (p : Client.Page) :
  exists out p',
    Client.extractPredictions Date_parse clock stopData p = (Normal out, p')
    /\ sameDocument p p'.
Proof.
  destruct (extractPredictions_collected Date_parse clock stopData p) as [p' Hrun].
  eexists _, p'. split; [exact Hrun|].
  pose proof (extractPredictions_frame Date_parse clock stopData p) as Hframe.
  rewrite Hrun in Hframe. exact Hframe.
Qed.

(** X2.  On every feed, also one with timestamps that are not dates, no
    prediction that [extractPredictions] returns has minutes below zero. *)
Theorem extractPredictions_minutes_not_below_zero
    (Date_parse : string -> JsNum) (clock : nat -> Z) (stopData : JsValue) (p : Client.Page) :
  exists out p',
    Client.extractPredictions Date_parse clock stopData p = (Normal out, p')
    /\ Forall (fun prediction => ltZero (Client.minutes prediction) = false) out.
Proof.
  destruct (extractPredictions_collected Date_parse clock stopData p) as [p' Hrun].
  eexists _, p'. split; [exact Hrun|].
  rewrite Array_sort_Permutation. apply collected_not_negative.
Qed.

(** ** Rendering a container *)

Lemma region_set_region (r : Client.RegionId) (f : list Client.Node -> list Client.Node)
    (p : Client.Page) :
  Client.region r (Client.set_region r f p) = f (Client.region r p).
Proof. destruct r; reflexivity. Qed.

Lemma set_region_elsewhere (r : Client.RegionId) (f : list Client.Node -> list Client.Node)
    (p : Client.Page) :
  sameElsewhere r p (Client.set_region r f p)
  /\ Client.ticks (Client.set_region r f p) = Client.ticks p
  /\ Client.console (Client.set_region r f p) = Client.console p.
Proof. destruct r; repeat split. Qed.

Lemma sameElsewhere_trans (r : Client.RegionId) (p q q' : Client.Page) :
  sameElsewhere r p q -> sameElsewhere r q q' -> sameElsewhere r p q'.
Proof.
  unfold sameElsewhere. intros (?&?&?&?&?&?&?) (?&?&?&?&?&?&?).
  repeat split; congruence.
Qed.

Lemma sameDocument_elsewhere (r : Client.RegionId) (p q : Client.Page) :
  sameDocument p q -> sameElsewhere r p q /\ Client.region r q = Client.region r p.
Proof.
  unfold sameDocument, sameElsewhere. intros (?&?&?&?&?&?&?&?).
  destruct r; simpl; repeat split; assumption.
Qed.

Lemma createPredictionElement_string (prediction : Client.Prediction) :
  isString (Client.destination prediction) ->
  Client.createPredictionElement prediction = Normal (itemOf prediction).
Proof.
  intros [s Hs]. unfold Client.createPredictionElement, itemOf. rewrite Hs. reflexivity.
Qed.

Lemma createPredictionElement_not_string (prediction : Client.Prediction) :
  ~ isString (Client.destination prediction) ->
  exists e, Client.createPredictionElement prediction = Throw e.
Proof.
  intros Hnot. unfold Client.createPredictionElement.
  destruct (Client.destination prediction); eauto.
  exfalso. apply Hnot. eexists. reflexivity.
Qed.

Lemma forEach_items (r : Client.RegionId) (out : list Client.Prediction) (q : Client.Page) :
  Forall (fun prediction => isString (Client.destination prediction)) out ->
  exists q', forEach (appendItem r) out q = (Normal tt, q')
             /\ Client.region r q' = Client.region r q ++ map itemOf out
             /\ sameElsewhere r q q'.
Proof.
  intros Hall. revert q. induction Hall as [|prediction rest Hhead _ IH]; intros q; simpl.
  - exists q. rewrite app_nil_r. repeat split.
  - unfold bind at 1, appendItem at 1, bind at 1, lift.
    rewrite (createPredictionElement_string _ Hhead).
    unfold Client.appendChild, modify. simpl.
    destruct (IH (Client.set_region r (fun children => children ++ [itemOf prediction]) q))
      as (q' & Hrun & Hregion & Helse).
    exists q'. split; [exact Hrun|]. split.
    + rewrite Hregion, region_set_region, <- app_assoc. reflexivity.
    + eapply sameElsewhere_trans; [|exact Helse]. apply set_region_elsewhere.
Qed.

Lemma forEach_items_throws (r : Client.RegionId) (out : list Client.Prediction)
    (q : Client.Page) :
  Exists (fun prediction => ~ isString (Client.destination prediction)) out ->
  exists e q', forEach (appendItem r) out q = (Throw e, q').
Proof.
  intros Hex. revert q. induction out as [|prediction rest IH]; intros q.
  - inversion Hex.
  - simpl. unfold bind at 1, appendItem at 1, bind at 1, lift.
    destruct (Client.createPredictionElement prediction) as [item|e] eqn:Hitem; [|eauto].
    unfold Client.appendChild, modify. simpl. apply IH.
    apply Exists_cons in Hex as [Hhead|Hrest]; [|exact Hrest].
    destruct (createPredictionElement_not_string _ Hhead) as [e He]. congruence.
Qed.

Section RenderProofs.
Variable Date_parse : string -> JsNum.
Variable clock : nat -> Z.

(** The page when [updatePredictionsDisplay] has emptied the container, put
    the header in and extracted the predictions. *)
Lemma updatePredictionsDisplay_prefix (data : JsValue) (r : Client.RegionId) (p : Client.Page) :
  truthy data = true ->
  exists q,
    Client.updatePredictionsDisplay Date_parse clock data r p
    = match extracted Date_parse clock (Client.ticks p) data with
      | [] => Client.appendChild r (Client.LoadingDiv "No predictions available") q
      | out => forEach (appendItem r) out q
      end
    /\ Client.region r q = [Client.StopNameHeader (member "stopName" data)]
    /\ sameElsewhere r p q.
Proof.
  intros Hdata.
  assert (Hobj : data <> JUndefined /\ data <> JNull).
  { split; intros ->; discriminate Hdata. }
  unfold Client.updatePredictionsDisplay.
  unfold bind at 1, modify at 1. unfold bind at 1, lift at 1.
  rewrite get_member by tauto.
  unfold bind at 1, Client.appendChild at 1, modify at 1.
  set (p1 := Client.set_region r (fun children => children ++ [_])
               (Client.set_region r (fun _ => []) p)).
  assert (Hticks : Client.ticks p1 = Client.ticks p).
  { unfold p1. destruct r; reflexivity. }
  assert (Hregion1 : Client.region r p1 = [Client.StopNameHeader (member "stopName" data)]).
  { unfold p1. rewrite !region_set_region. reflexivity. }
  assert (Helse1 : sameElsewhere r p p1).
  { unfold p1. eapply sameElsewhere_trans; apply set_region_elsewhere. }
  destruct (extractPredictions_collected Date_parse clock data p1) as [q Hrun].
  pose proof (extractPredictions_frame Date_parse clock data p1) as Hframe.
  rewrite Hrun in Hframe. simpl in Hframe.
  destruct (sameDocument_elsewhere r _ _ Hframe) as [Helse2 Hregion2].
  rewrite Hticks in Hrun. fold (extracted Date_parse clock (Client.ticks p) data) in Hrun.
  exists q. split; [|split].
  - unfold bind at 1. rewrite Hrun.
    destruct (extracted Date_parse clock (Client.ticks p) data); reflexivity.
  - rewrite Hregion2. exact Hregion1.
  - eapply sameElsewhere_trans; eassumption.
Qed.
End RenderProofs.

Lemma forEach_items_elsewhere (r : Client.RegionId) (out : list Client.Prediction)
    (q : Client.Page) :
  sameElsewhere r q (snd (forEach (appendItem r) out q)).
Proof.
  revert q. induction out as [|prediction rest IH]; intros q; simpl.
  - repeat split.
  - unfold bind at 1, appendItem at 1, bind at 1, lift.
    destruct (Client.createPredictionElement prediction) as [item|e]; [|repeat split].
    unfold Client.appendChild, modify. simpl.
    eapply sameElsewhere_trans; [|apply IH]. apply set_region_elsewhere.
Qed.

(** X3.  A container is rebuilt from the feed alone: for a feed whose
    timestamps denote dates, so that the sort compares numbers, and in which
    every extracted prediction has a string for its destination, the
    container ends up with the stop name followed by one item per
    prediction, in the order of extraction (ascending minutes), or by the
    notice "No predictions available" when there is none; the other
    container, the markers and the rest of the document are not touched. *)
Theorem updatePredictionsDisplay_shows
    (Date_parse : string -> JsNum) (clock : nat -> Z)
    (data : JsValue) (r : Client.RegionId) (p : Client.Page) :
  truthy data = true ->
  Forall (timestampIsDate Date_parse) (rawVisits data) ->
  Forall (fun prediction => isString (Client.destination prediction))
         (extracted Date_parse clock (Client.ticks p) data) ->
  exists p',
    Client.updatePredictionsDisplay Date_parse clock data r p = (Normal tt, p')
    /\ Client.region r p'
       = shown (member "stopName" data) (extracted Date_parse clock (Client.ticks p) data)
    /\ sameElsewhere r p p'.
Proof.
  intros Hdata _ Hstrings.
  destruct (updatePredictionsDisplay_prefix Date_parse clock data r p Hdata)
    as (q & Hrun & Hregion & Helse).
  rewrite Hrun. unfold shown.
  destruct (extracted Date_parse clock (Client.ticks p) data) as [|first rest] eqn:Hout.
  - eexists. split; [reflexivity|]. split.
    + rewrite region_set_region, Hregion. reflexivity.
    + eapply sameElsewhere_trans; [exact Helse|]. apply set_region_elsewhere.
  - destruct (forEach_items r (first :: rest) q Hstrings) as (q' & Hitems & Hregion' & Helse').
    exists q'. split; [exact Hitems|]. split.
    + rewrite Hregion', Hregion. reflexivity.
    + eapply sameElsewhere_trans; eassumption.
Qed.

Lemma updatePredictionsDisplay_shows_witness :
  exists p',
    Client.updatePredictionsDisplay Date_parse_utc Samples.clock Samples.threeVisits
      Client.inbound_predictions Samples.page = (Normal tt, p')
    /\ Client.region Client.inbound_predictions p'
       = shown (member "stopName" Samples.threeVisits)
               (extracted Date_parse_utc Samples.clock (Client.ticks Samples.page)
                  Samples.threeVisits)
    /\ sameElsewhere Client.inbound_predictions Samples.page p'.
Proof.
  apply (updatePredictionsDisplay_shows Date_parse_utc Samples.clock Samples.threeVisits
           Client.inbound_predictions Samples.page).
  - reflexivity.
  - repeat constructor; intros t Ht; vm_compute in Ht;
      try discriminate; injection Ht as <-; vm_compute; discriminate.
  - vm_compute. repeat constructor; eexists; reflexivity.
Defined.

(** X4.  A response that arrives and parses can still end as an error: when
    one extracted prediction of the inbound feed has no string for its
    destination, building its item throws, and [fetchPredictions] ends
    normally with the error placeholder in both containers; the update time
    and the markers stay as they were. *)
Theorem fetchPredictions_destination_missing
    (Date_parse : string -> JsNum) (clock : nat -> Z)
    (status : Z) (data : JsValue) (p : Client.Page) :
  truthy (member "inbound" data) = true ->
  Exists (fun prediction => ~ isString (Client.destination prediction))
         (extracted Date_parse clock (Client.ticks p) (member "inbound" data)) ->
  exists p',
    Client.fetchPredictions Date_parse clock
      (Client.FetchResponse true status (Normal data)) p = (Normal tt, p')
    /\ Client.region_inbound p' = [Client.LoadingDiv "Error loading predictions"]
    /\ Client.region_outbound p' = [Client.LoadingDiv "Error loading predictions"]
    /\ Client.update_time p' = Client.update_time p
    /\ Client.markers p' = Client.markers p.
Proof.
  intros Hinbound Hmissing.
  assert (Hobj : data <> JUndefined /\ data <> JNull).
  { split; intros ->; discriminate Hinbound. }
  destruct (updatePredictionsDisplay_prefix Date_parse clock (member "inbound" data)
              Client.inbound_predictions p Hinbound) as (q & Hrun & _ & Helse).
  pose proof (forEach_items_elsewhere Client.inbound_predictions
                (extracted Date_parse clock (Client.ticks p) (member "inbound" data)) q)
    as Helse'.
  destruct (forEach_items_throws Client.inbound_predictions _ q Hmissing) as (e & q' & Hthrow).
  rewrite Hthrow in Helse'. simpl in Helse'.
  assert (Hdisplay :
            Client.updatePredictionsDisplay Date_parse clock (member "inbound" data)
              Client.inbound_predictions p = (Throw e, q')).
  { rewrite Hrun.
    destruct (extracted Date_parse clock (Client.ticks p) (member "inbound" data));
      [inversion Hmissing|exact Hthrow]. }
  unfold Client.fetchPredictions, tryCatch, Client.processApiResponse.
  unfold bind at 1, lift at 1. rewrite get_member by tauto.
  unfold bind at 1. rewrite Hinbound, Hdisplay.
  eexists. split; [reflexivity|].
  destruct (sameElsewhere_trans _ _ _ _ Helse Helse') as (_&_&_&_&Hmarkers&_&Htime).
  repeat split; assumption.
Qed.

Lemma fetchPredictions_destination_missing_witness :
  exists p',
    Client.fetchPredictions Date_parse_utc Samples.clock
      (Client.FetchResponse true 200 (Normal Cases.answerWithoutDestination)) Samples.page
    = (Normal tt, p')
    /\ Client.region_inbound p' = [Client.LoadingDiv "Error loading predictions"]
    /\ Client.region_outbound p' = [Client.LoadingDiv "Error loading predictions"]
    /\ Client.update_time p' = Client.update_time Samples.page
    /\ Client.markers p' = Client.markers Samples.page.
Proof.
  apply (fetchPredictions_destination_missing Date_parse_utc Samples.clock 200
           Cases.answerWithoutDestination Samples.page).
  - reflexivity.
  - vm_compute. apply Exists_cons_hd. intros [s Hs]. discriminate Hs.
Defined.

(** ** Markers *)

Lemma set_markers_set_markers (f g : list Client.Marker -> list Client.Marker)
    (q : Client.Page) :
  Client.set_markers g (Client.set_markers f q) = Client.set_markers (fun ms => g (f ms)) q.
Proof. reflexivity. Qed.

Lemma placed_all (vehicles : list Vehicle) :
  Forall (fun vehicle => hasPosition vehicle = true) vehicles -> placed vehicles = vehicles.
Proof.
  induction 1 as [|vehicle rest Hhead _ IH]; [reflexivity|].
  cbn [placed]. rewrite Hhead, IH. reflexivity.
Qed.

Lemma placed_elem_of (vehicle : Vehicle) (vehicles : list Vehicle) :
  vehicle ∈ placed vehicles -> vehicle ∈ vehicles.
Proof.
  induction vehicles as [|first rest IH]; [intros Hin; exact Hin|].
  cbn [placed]. destruct (hasPosition first); [|intros Hin; inversion Hin].
  intros Hin. apply elem_of_cons in Hin as [->|Hin]; [left|right; exact (IH Hin)].
Qed.

(** The loop over the selected vehicles stops at the first one that
    [setLngLat] refuses; the markers made before it stay. *)
Lemma forEach_newMarker (vehicles : list Vehicle) (q : Client.Page) :
  exists c,
    forEach (fun vehicle =>
               run lift (Client.LngLat_convert (longitude vehicle) (latitude vehicle));
               modify (Client.set_markers (fun ms => ms ++ [Client.newMarker vehicle])))
            vehicles q
    = (c, Client.set_markers (fun ms => ms ++ map Client.newMarker (placed vehicles)) q)
    /\ (c = Normal tt <-> Forall (fun vehicle => hasPosition vehicle = true) vehicles).
Proof.
  revert q. induction vehicles as [|vehicle rest IH]; intros q.
  - exists (Normal tt). split; [|split; [constructor|reflexivity]].
    cbn [forEach placed map]. unfold ret, Client.set_markers. rewrite app_nil_r.
    destruct q; reflexivity.
  - cbn [forEach placed]. unfold bind at 1, bind at 1, lift at 1, hasPosition.
    destruct (Client.LngLat_convert (longitude vehicle) (latitude vehicle)) as [lngLat|e]
      eqn:Hconvert.
    + unfold modify at 1.
      destruct (IH (Client.set_markers (fun ms => ms ++ [Client.newMarker vehicle]) q))
        as (c & Hrun & Hall).
      exists c. rewrite Hrun, set_markers_set_markers. split.
      * f_equal. unfold Client.set_markers. cbn [map]. f_equal.
        rewrite <- app_assoc. reflexivity.
      * rewrite Hall. split.
        -- intros Hrest. constructor; [|exact Hrest]. unfold hasPosition.
           rewrite Hconvert. reflexivity.
        -- intros Hboth. apply Forall_cons in Hboth as [_ Hrest]. exact Hrest.
    + exists (Throw e). split.
      * cbn [map]. unfold Client.set_markers. rewrite app_nil_r. destruct q; reflexivity.
      * split; [discriminate|]. intros Hboth. apply Forall_cons in Hboth as [Hhead _].
        unfold hasPosition in Hhead. rewrite Hconvert in Hhead. discriminate.
Qed.

Lemma updateMapMarkers_run (vehicles : list Vehicle) (p : Client.Page) :
  exists c,
    Client.updateMapMarkers vehicles p
    = (c,
       Client.set_markers
         (fun _ => map Client.newMarker
                     (placed (filter (fun vehicle => Is_true (Client.isSelected p vehicle))
                                     vehicles)))
         p)
    /\ (c = Normal tt
        <-> Forall (fun vehicle => hasPosition vehicle = true)
                   (filter (fun vehicle => Is_true (Client.isSelected p vehicle)) vehicles)).
Proof.
  unfold Client.updateMapMarkers. unfold bind at 1, modify at 1. unfold bind at 1, gets at 1.
  change (Client.selectedTrainLines (Client.set_markers (fun _ => []) p))
    with (Client.selectedTrainLines p).
  change (filter (fun vehicle => Is_true (Client.isSelected (Client.set_markers _ p) vehicle))
                 vehicles)
    with (filter (fun vehicle => Is_true (Client.isSelected p vehicle)) vehicles).
  destruct (forEach_newMarker
              (filter (fun vehicle => Is_true (Client.isSelected p vehicle)) vehicles)
              (Client.set_markers (fun _ => []) p)) as (c & Hrun & Hall).
  exists c. rewrite Hrun. split; [reflexivity|exact Hall].
Qed.

Lemma prefix_single (a c : ascii) (rest : string) :
  String.prefix (String a EmptyString) (String c rest) = true -> a = c.
Proof.
  simpl. destruct (ascii_dec a c) as [Heq|Hne]; [intros _; exact Heq|discriminate].
Qed.

(** A single-letter line that a train id starts with is its first character. *)
Lemma isSelected_letter (p : Client.Page) (vehicle : Vehicle) :
  Client.isSelected p vehicle = true ->
  exists trainLine,
    trainLine ∈ Client.trainLines /\ lineSelected p trainLine = true
    /\ Client.firstChar (trainId vehicle) = trainLine.
Proof.
  unfold Client.isSelected, lineSelected.
  destruct (find _ Client.trainLines) as [trainLine|] eqn:Hfind; [|discriminate].
  intros Hselected. exists trainLine.
  apply find_some in Hfind as [Hin Hprefix].
  split; [apply list_elem_of_In; exact Hin|]. split; [exact Hselected|].
  destruct (trainId vehicle) as [|c rest].
  - simpl in Hin. repeat (destruct Hin as [<-|Hin]; [discriminate Hprefix|]). contradiction.
  - simpl in Hin.
    repeat (destruct Hin as [<-|Hin];
            [apply prefix_single in Hprefix as <-; reflexivity|]).
    contradiction.
Qed.


(** The scenario of the specification: with only line K toggled on, of the
    vehicles on K and L only the one on K gets a marker, and the marker of
    the earlier poll is gone. *)
Example updateMapMarkers_only_K :
  Client.markers
    (snd (Client.updateMapMarkers [Cases.vehicleOn "K" "2041"; Cases.vehicleOn "L" "2077"]
            Cases.pageOnlyK))
  = [Client.newMarker (Cases.vehicleOn "K" "2041")].
Proof. vm_compute. reflexivity. Qed.

(** ** From the feed to the map *)

Lemma prefix_empty (s : string) : String.prefix "" s = true.
Proof. destruct s; reflexivity. Qed.

Lemma find_trainLine (r vehicleId : string) :
  r ∈ Client.trainLines ->
  find (fun line => String.prefix line (r +:+ vehicleId)) Client.trainLines = Some r.
Proof.
  unfold Client.trainLines. intros Hin.
  repeat (apply elem_of_cons in Hin as [->|Hin];
          [simpl; rewrite ?prefix_empty; reflexivity|]).
  inversion Hin.
Qed.

(** For a record that the gateway made, the line found in the train id is
    the route id. *)
Lemma isSelected_normalizes (p : Client.Page) (e : Server.Gtfs.FeedEntity) (v : Vehicle) :
  onFixedLine e -> normalizes e v ->
  Client.isSelected p v = lineSelected p (routeId v).
Proof.
  unfold onFixedLine. intros Hline (vp & r & _ & Hroute & Htrain & Hid & _).
  rewrite Hroute in Hline. unfold Client.isSelected.
  rewrite Htrain, Hid, (find_trainLine _ _ Hline). reflexivity.
Qed.

Lemma filter_selected_normalizes (p : Client.Page)
    (entities : list Server.Gtfs.FeedEntity) (vehicles : list Vehicle) :
  Forall onFixedLine entities -> Forall2 normalizes entities vehicles ->
  filter (fun vehicle => Is_true (Client.isSelected p vehicle)) vehicles
  = filter (fun vehicle => Is_true (lineSelected p (routeId vehicle))) vehicles.
Proof.
  intros Hlines Hall. induction Hall as [|e v entities vehicles Hnorm _ IH]; [reflexivity|].
  inversion Hlines as [|? ? Hline Hrest]; subst.
  rewrite !filter_cons, (isSelected_normalizes p e v Hline Hnorm), (IH Hrest).
  reflexivity.
Qed.

Lemma Forall_filter_self {A : Type} (P : A -> Prop) `{forall x, Decision (P x)} (l : list A) :
  Forall P (filter P l).
Proof.
  apply Forall_forall. intros x Hx. apply list_elem_of_filter in Hx. tauto.
Qed.

(** X6.  From the decoded feed to the map: when the feed has an entity on one
    of the six lines and the map has loaded, a poll answered by the gateway
    returns normally and leaves one marker per record whose route id is
    toggled on, in feed order, up to the first such record whose coordinates
    [setLngLat] refuses (an entity without a position has none).  When none
    is refused these are the markers of all the selected records and nothing
    is logged; otherwise the error is logged and the later records get no
    marker. *)
Theorem gateway_poll_markers
    (decode : Server.Schema) (buffer : list Byte.byte) (feed : Server.Gtfs.FeedMessage)
    (status : Z) (p : Client.Page) :
  decode buffer = Normal feed ->
  Exists onFixedLine (Server.Gtfs.entity feed) ->
  Client.mapLoaded p = true ->
  exists vehicles p',
    Server.api_vehicles (Some decode) (Normal buffer) = Server.Json vehicles
    /\ Client.fetchVehiclePositions
         (Client.FetchResponse true status (Normal (Some vehicles))) p = (Normal tt, p')
    /\ let selected :=
         filter (fun vehicle => Is_true (lineSelected p (routeId vehicle))) vehicles in
       Client.markers p' = map Client.newMarker (placed selected)
       /\ (Forall (fun vehicle => hasPosition vehicle = true) selected ->
           Client.markers p' = map Client.newMarker selected
           /\ Client.console p' = Client.console p)
       /\ (~ Forall (fun vehicle => hasPosition vehicle = true) selected ->
           Client.console p' = Client.console p ++ ["Error fetching vehicle positions:"]).
Proof.
  intros Hdecode Hsome Hloaded.
  destruct (api_vehicles_decoded decode buffer feed Hdecode) as (vehicles & Hrun & Hall).
  exists vehicles.
  assert (Hnonempty : (0 <? Z.of_nat (length vehicles)) = true).
  { apply Exists_exists in Hsome as (e & Hin & Hline).
    assert (Hfiltered : e ∈ filter onFixedLine (Server.Gtfs.entity feed))
      by (apply list_elem_of_filter; split; [exact Hline|exact Hin]).
    apply Forall2_length in Hall.
    destruct (filter onFixedLine (Server.Gtfs.entity feed)); [inversion Hfiltered|].
    destruct vehicles; [discriminate Hall|]. reflexivity. }
  destruct (updateMapMarkers_run vehicles p) as (c & Hmarkers & Hc).
  rewrite (filter_selected_normalizes p _ vehicles (Forall_filter_self _ _) Hall)
    in Hmarkers, Hc.
  unfold Client.fetchVehiclePositions, tryCatch, bind at 1, gets at 1.
  rewrite Hnonempty, Hloaded. cbn [andb]. rewrite Hmarkers. cbv zeta.
  destruct c as [[]|e].
  - eexists. split; [exact Hrun|]. split; [reflexivity|].
    cbn [Client.markers Client.set_markers Client.console]. split; [reflexivity|]. split.
    + intros Hplaced. rewrite (placed_all _ Hplaced). split; reflexivity.
    + intros Hrefused. exfalso. apply Hrefused, Hc. reflexivity.
  - eexists. split; [exact Hrun|]. split; [reflexivity|].
    cbn [Client.markers Client.set_markers Client.console]. split; [reflexivity|]. split.
    + intros Hplaced. apply Hc in Hplaced. discriminate Hplaced.
    + intros _. reflexivity.
Qed.

Lemma gateway_poll_markers_witness :
  exists vehicles p',
    Server.api_vehicles (Some Samples.decodeTwo) (Normal []) = Server.Json vehicles
    /\ Client.fetchVehiclePositions
         (Client.FetchResponse true 200 (Normal (Some vehicles))) Cases.pageOnlyK
       = (Normal tt, p')
    /\ let selected :=
         filter (fun vehicle => Is_true (lineSelected Cases.pageOnlyK (routeId vehicle)))
                vehicles in
       Client.markers p' = map Client.newMarker (placed selected)
       /\ (Forall (fun vehicle => hasPosition vehicle = true) selected ->
           Client.markers p' = map Client.newMarker selected
           /\ Client.console p' = Client.console Cases.pageOnlyK)
       /\ (~ Forall (fun vehicle => hasPosition vehicle = true) selected ->
           Client.console p'
           = Client.console Cases.pageOnlyK ++ ["Error fetching vehicle positions:"]).
Proof.
  apply (gateway_poll_markers Samples.decodeTwo [] Samples.twoEntities 200 Cases.pageOnlyK).
  - reflexivity.
  - apply Exists_cons_hd. vm_compute. repeat constructor.
  - reflexivity.
Defined.

(** An entity on line J without a position comes first: the gateway sends
    its record without coordinates, [setLngLat] refuses it, the poll logs the
    error, and the train on K behind it gets no marker. *)
Example gateway_poll_without_position :
  let page := snd (Client.fetchVehiclePositions
                     (Client.FetchResponse true 200
                        (Normal (Some [Cases.withoutPosition (Cases.vehicleOn "J" "2007");
                                       Cases.vehicleOn "K" "2041"])))
                     Samples.page) in
  Client.markers page = []
  /\ Client.console page = ["Error fetching vehicle positions:"].
Proof. vm_compute. split; reflexivity. Qed.

(** X7.  When no entity of the decoded feed is on one of the six lines, the
    gateway answers with an empty list (status 200), and the page that polls
    it is left exactly as it was: the markers of the earlier poll stay on the
    map. *)
Theorem gateway_poll_no_trains
    (decode : Server.Schema) (buffer : list Byte.byte) (feed : Server.Gtfs.FeedMessage)
    (status : Z) (p : Client.Page) :
  decode buffer = Normal feed ->
  Forall (fun e => ~ onFixedLine e) (Server.Gtfs.entity feed) ->
  Server.api_vehicles (Some decode) (Normal buffer) = Server.Json []
  /\ Client.fetchVehiclePositions (Client.FetchResponse true status (Normal (Some []))) p
     = (Normal tt, p).
Proof.
  intros Hdecode Hnone. split; [|reflexivity].
  destruct (api_vehicles_decoded decode buffer feed Hdecode) as (vehicles & Hrun & Hall).
  rewrite Hrun. f_equal.
  assert (Hempty : filter onFixedLine (Server.Gtfs.entity feed) = []).
  { clear Hall. induction Hnone as [|e rest Hhead _ IH]; [reflexivity|].
    rewrite filter_cons, decide_False by exact Hhead. exact IH. }
  rewrite Hempty in Hall. inversion Hall. reflexivity.
Qed.

Lemma gateway_poll_no_trains_witness :
  Server.api_vehicles (Some (fun _ => Normal Cases.busesOnly)) (Normal []) = Server.Json []
  /\ Client.fetchVehiclePositions (Client.FetchResponse true 200 (Normal (Some [])))
       Samples.page
     = (Normal tt, Samples.page).
Proof.
  apply (gateway_poll_no_trains (fun _ => Normal Cases.busesOnly) [] Cases.busesOnly 200
           Samples.page).
  - reflexivity.
  - repeat constructor; vm_compute; intros Hin;
      repeat (apply elem_of_cons in Hin as [Heq|Hin]; [discriminate Heq|]);
      inversion Hin.
Defined.

(** ** More on the stop cache *)

Lemma addStop_keeps (route : Client.Route) (stop : Client.Stop)
    (m : gmap string Client.StopDetails) (k : string) :
  is_Some (m !! k) -> is_Some (Client.addStop route stop m !! k).
Proof.
  intros Hk. unfold Client.addStop. destruct (_ && _); [|exact Hk].
  apply lookup_insert_is_Some. destruct (decide (Client.id stop = k)); auto.
Qed.

Lemma loadListed_keeps (listed : list (Client.Route * Client.Stop))
    (m : gmap string Client.StopDetails) (k : string) :
  is_Some (m !! k) -> is_Some (loadListed listed m !! k).
Proof.
  revert m. induction listed as [|[route stop] listed IH]; intros m Hk; [exact Hk|].
  simpl. apply IH, addStop_keeps, Hk.
Qed.

Lemma loadListed_origin (listed : list (Client.Route * Client.Stop))
    (m : gmap string Client.StopDetails) (k : string) :
  is_Some (loadListed listed m !! k) ->
  is_Some (m !! k)
  \/ exists entry, entry ∈ listed /\ named entry.2 /\ Client.id entry.2 = k.
Proof.
  revert m. induction listed as [|[route stop] listed IH]; intros m Hk; [left; exact Hk|].
  simpl in Hk. destruct (IH _ Hk) as [Hbefore|(entry & Hin & Hnamed & Hid)].
  - destruct (decide (named stop /\ Client.id stop = k)) as [[Hstop Heq]|Hother].
    + right. exists (route, stop). split; [left|]. auto.
    + left. rewrite addStop_other in Hbefore by exact Hother. exact Hbefore.
  - right. exists entry. split; [right; exact Hin|]. auto.
Qed.

(** X8.  Loading never takes a stop away: whatever the outcome of the fetch,
    an id that [validateStop] accepted before [loadAllStops] is accepted
    after it; and [loadAllStops] itself never throws. *)
Theorem loadAllStops_keeps_valid
    (fetched : Client.FetchResult Client.Dataset) (p : Client.Page) (stopId : string) :
  fst (Client.loadAllStops fetched p) = Normal tt
  /\ (Client.isValid (Client.validateStop p stopId) = true ->
      Client.isValid
        (Client.validateStop (snd (Client.loadAllStops fetched p)) stopId) = true).
Proof.
  split.
  - destruct fetched as [e|ok status [data|e]]; reflexivity.
  - unfold Client.validateStop. cbn [Client.isValid].
    rewrite !bool_decide_eq_true. intros Hbefore.
    destruct fetched as [e|ok status [data|e]]; try exact Hbefore.
    rewrite loadAllStops_loadListed. apply loadListed_keeps, Hbefore.
Qed.

Lemma loadAllStops_keeps_valid_witness :
  fst (Client.loadAllStops (Client.FetchRejected (TypeError "Failed to fetch"))
         (snd (Client.loadAllStops
                 (Client.FetchResponse true 200 (Normal Samples.westPortal)) Samples.page)))
  = Normal tt
  /\ Client.isValid
       (Client.validateStop
          (snd (Client.loadAllStops (Client.FetchRejected (TypeError "Failed to fetch"))
                  (snd (Client.loadAllStops
                          (Client.FetchResponse true 200 (Normal Samples.westPortal))
                          Samples.page))))
          "15779") = true.
Proof.
  pose proof (loadAllStops_keeps_valid
                (Client.FetchRejected (TypeError "Failed to fetch"))
                (snd (Client.loadAllStops
                        (Client.FetchResponse true 200 (Normal Samples.westPortal))
                        Samples.page))
                "15779") as [Hreturns Hkeeps].
  split; [exact Hreturns|]. apply Hkeeps. vm_compute. reflexivity.
Defined.

(** X9.  No stop out of nowhere: an id that [validateStop] accepts after the
    dataset is loaded was accepted before, or is the id of a stop of the
    dataset that has an id and a name. *)
Theorem loadAllStops_valid_origin
    (ok : bool) (status : Z) (data : Client.Dataset) (p : Client.Page) (stopId : string) :
  Client.isValid
    (Client.validateStop
       (snd (Client.loadAllStops (Client.FetchResponse ok status (Normal data)) p))
       stopId) = true ->
  Client.isValid (Client.validateStop p stopId) = true
  \/ exists entry, entry ∈ datasetStops data /\ named entry.2 /\ Client.id entry.2 = stopId.
Proof.
  unfold Client.validateStop. cbn [Client.isValid].
  rewrite !bool_decide_eq_true, loadAllStops_loadListed. apply loadListed_origin.
Qed.

Lemma loadAllStops_valid_origin_witness :
  Client.isValid (Client.validateStop Samples.page "15779") = true
  \/ exists entry, entry ∈ datasetStops Samples.westPortal
                    /\ named entry.2 /\ Client.id entry.2 = "15779".
Proof.
  apply (loadAllStops_valid_origin true 200 Samples.westPortal Samples.page "15779").
  vm_compute. reflexivity.
Defined.

Lemma NoDup_fmap_eq {A B : Type} (f : A -> B) (l : list A) (x y : A) :
  NoDup (map f l) -> x ∈ l -> y ∈ l -> f x = f y -> x = y.
Proof.
  induction l as [|a l IH]; intros Hnodup Hx Hy Heq; [inversion Hx|].
  simpl in Hnodup. apply NoDup_cons in Hnodup as [Hfresh Hnodup].
  apply elem_of_cons in Hx as [->|Hx]; apply elem_of_cons in Hy as [->|Hy].
  - reflexivity.
  - exfalso. apply Hfresh. rewrite Heq. apply list_elem_of_fmap. eauto.
  - exfalso. apply Hfresh. rewrite <- Heq. apply list_elem_of_fmap. eauto.
  - auto.
Qed.

(** X10.  When no stop id is listed twice in the dataset, looking up the id
    of a stop that has an id and a name returns that very stop: its name, the
    line it is listed under and its coordinates.  (When an id is listed
    twice, the later listing replaces the earlier one.) *)
Theorem loadAllStops_lookup_exact
    (ok : bool) (status : Z) (data : Client.Dataset) (p : Client.Page)
    (entry : Client.Route * Client.Stop) :
  NoDup (map (fun listed => Client.id listed.2) (datasetStops data)) ->
  entry ∈ datasetStops data -> named entry.2 ->
  Client.validateStop
    (snd (Client.loadAllStops (Client.FetchResponse ok status (Normal data)) p))
    (Client.id entry.2)
  = {| Client.isValid := true; Client.details := Some (entryOf entry) |}.
Proof.
  intros Hnodup Hin Hnamed.
  unfold Client.validateStop. rewrite loadAllStops_loadListed.
  destruct (loadListed_lookup (datasetStops data) (Client.allStops p) (Client.id entry.2))
    as (entry' & Hin' & _ & Hid & Hlookup); [eauto|].
  assert (entry' = entry) as ->
    by (eapply (NoDup_fmap_eq (fun listed => Client.id listed.2)); eassumption).
  rewrite Hlookup. reflexivity.
Qed.

Lemma loadAllStops_lookup_exact_witness :
  Client.validateStop
    (snd (Client.loadAllStops
            (Client.FetchResponse true 200 (Normal Samples.westPortal)) Samples.page))
    "15779"
  = {| Client.isValid := true;
       Client.details := Some (Client.mkStopDetails "West Portal Station" "K"
                                 (Some "37.741") (Some "-122.465")) |}.
Proof.
  apply (loadAllStops_lookup_exact true 200 Samples.westPortal Samples.page
           ({| Client.line := "K";
               Client.stops := [ {| Client.id := "15779"; Client.name := "West Portal Station";
                                    Client.lat := Some "37.741";
                                    Client.long := Some "-122.465" |} ] |},
            {| Client.id := "15779"; Client.name := "West Portal Station";
               Client.lat := Some "37.741"; Client.long := Some "-122.465" |})).
  - repeat constructor. intros Hin. inversion Hin.
  - left.
  - split; discriminate.
Defined.

(** An id listed under two lines: the cache holds the later listing. *)
Example loadAllStops_listed_twice :
  Client.details
    (Client.validateStop
       (snd (Client.loadAllStops
               (Client.FetchResponse true 200 (Normal Cases.listedTwice)) Samples.page))
       "15779")
  = Some (Client.mkStopDetails "West Portal" "M" (Some "37.741") (Some "-122.465")).
Proof. vm_compute. reflexivity. Qed.

(** ** More on vehicle timestamps *)

(** X11.  The low word of a Long is signed, and [formatTimestamp] adds it as
    it is.  For an unsigned Long whose low word is negative (its value has
    bit 31 set, as every timestamp from 2^31 seconds on until 2^32) the
    milliseconds it builds are those of the value less 2^32 seconds, and that
    is the time it shows. *)
Theorem formatTimestamp_negative_low (l : Long) :
  unsigned l = true -> - 2 ^ 31 <= low l < 0 -> 0 <= high l <= 2000 ->
  Client.milliseconds l = (wideValue l - 2 ^ 32) * 1000
  /\ Client.formatTimestamp (Client.TsLong l)
     = Client.LocaleString ((wideValue l - 2 ^ 32) * 1000).
Proof.
  intros Hunsigned Hlow Hhigh.
  assert (Hwide : wideValue l = high l * 2 ^ 32 + low l + 2 ^ 32).
  { unfold wideValue. rewrite Hunsigned.
    rewrite (Z.mod_small (high l)) by lia.
    replace (low l) with (low l + 2 ^ 32 + (-1) * 2 ^ 32) at 1 by lia.
    rewrite Z.mod_add by lia. rewrite Z.mod_small by lia. lia. }
  assert (Hms : Client.milliseconds l = (wideValue l - 2 ^ 32) * 1000).
  { unfold Client.milliseconds, Js.add, Js.mul.
    rewrite (binary64_small (low l * 1000)) by lia.
    rewrite (binary64_small (high l * 4294967296000)) by lia.
    rewrite binary64_small by lia. lia. }
  split; [exact Hms|].
  unfold Client.formatTimestamp, TimeClip. rewrite Hms.
  destruct (Z.leb_spec (Z.abs ((wideValue l - 2 ^ 32) * 1000)) 8640000000000000);
    [reflexivity|lia].
Qed.

Lemma formatTimestamp_negative_low_witness :
  Client.milliseconds Cases.timestamp2038 = (wideValue Cases.timestamp2038 - 2 ^ 32) * 1000
  /\ Client.formatTimestamp (Client.TsLong Cases.timestamp2038)
     = Client.LocaleString ((wideValue Cases.timestamp2038 - 2 ^ 32) * 1000).
Proof.
  apply (formatTimestamp_negative_low Cases.timestamp2038).
  - reflexivity.
  - simpl. lia.
  - simpl. lia.
Defined.

(** X12.  The two kinds of timestamp are not treated alike: the seconds of a
    Long are multiplied by 1000 before the date is made, a Number is taken as
    milliseconds as it is.  The same instant, [T] seconds, is shown as
    [T * 1000] ms when it comes as a Long and as [T] ms when it comes as a
    Number. *)
Theorem formatTimestamp_long_and_number (T : Z) (u : bool) :
  0 < T < 2 ^ 31 ->
  Client.formatTimestamp (Client.TsLong (mkLong T 0 u)) = Client.LocaleString (T * 1000)
  /\ Client.formatTimestamp (Client.TsNumber (Num T)) = Client.LocaleString T.
Proof.
  intros HT. split.
  - assert (Hms : Client.milliseconds (mkLong T 0 u) = T * 1000).
    { unfold Client.milliseconds, Js.add, Js.mul. cbn [low high].
      rewrite (binary64_small (T * 1000)) by lia.
      rewrite (binary64_small (0 * 4294967296000)) by lia.
      rewrite binary64_small by lia. lia. }
    unfold Client.formatTimestamp, TimeClip. rewrite Hms.
    destruct (Z.leb_spec (Z.abs (T * 1000)) 8640000000000000); [reflexivity|lia].
  - unfold Client.formatTimestamp, TimeClip. simpl.
    destruct (Z.eqb_spec T 0); [lia|]. simpl.
    destruct (Z.leb_spec (Z.abs T) 8640000000000000); [reflexivity|lia].
Qed.

Lemma formatTimestamp_long_and_number_witness :
  Client.formatTimestamp (Client.TsLong (mkLong 1705343025 0 true))
  = Client.LocaleString (1705343025 * 1000)
  /\ Client.formatTimestamp (Client.TsNumber (Num 1705343025))
     = Client.LocaleString 1705343025.
Proof.
  apply (formatTimestamp_long_and_number 1705343025 true). lia.
Defined.

(** ** More on the predictions handler *)

Lemma stopEntry_nullish (stopId : string) (data : JsValue) :
  (nullish data /\ exists e, Server.stopEntry stopId data = Throw e)
  \/ (~ nullish data /\ exists entry, Server.stopEntry stopId data = Normal entry).
Proof.
  unfold nullish, Server.stopEntry.
  destruct data; simpl; eauto;
    right; (split; [intros [H|H]; discriminate|eauto]).
Qed.

Lemma api_predictions_keyed
    (TRANSIT_API_KEY : option string)
    (upstream_inbound upstream_outbound : string -> Completion JsValue)
    (query_inbound query_outbound : option string) :
  Server.orElse TRANSIT_API_KEY "" <> "" ->
  let inboundStopId := Server.orElse query_inbound "17109" in
  let outboundStopId := Server.orElse query_outbound "16503" in
  let answer := Server.api_predictions TRANSIT_API_KEY upstream_inbound upstream_outbound
                  query_inbound query_outbound in
  (answer = Server.Status500 "Failed to fetch predictions"
   \/ exists inbound outbound,
        answer = Server.Json (JObject [("inbound", inbound); ("outbound", outbound)]))
  /\ (answer = Server.Status500 "Failed to fetch predictions"
      <-> ((exists e, upstream_inbound inboundStopId = Throw e)
           \/ (exists e, upstream_outbound outboundStopId = Throw e)
           \/ (exists data, upstream_inbound inboundStopId = Normal data /\ nullish data)
           \/ (exists data, upstream_outbound outboundStopId = Normal data /\ nullish data))).
Proof.
  intros Hkey. cbv zeta. unfold Server.api_predictions, Server.getStopPredictions.
  set (inboundStopId := Server.orElse query_inbound "17109").
  set (outboundStopId := Server.orElse query_outbound "16503").
  destruct (String.eqb_spec (Server.orElse TRANSIT_API_KEY "") "") as [Hempty|_];
    [contradiction|].
  destruct (upstream_inbound inboundStopId) as [din|ein] eqn:Hin.
  2:{ destruct (upstream_outbound outboundStopId); (split; [left; reflexivity|]);
        (split; [eauto 10|reflexivity]). }
  destruct (upstream_outbound outboundStopId) as [dout|eout] eqn:Hout.
  2:{ split; [left; reflexivity|]. split; [eauto 10|reflexivity]. }
  destruct (stopEntry_nullish inboundStopId din) as [[Hnull (e & ->)]|[Hdin (inbound & ->)]].
  { split; [left; reflexivity|]. split; [eauto 10|reflexivity]. }
  destruct (stopEntry_nullish outboundStopId dout) as [[Hnull (e & ->)]|[Hdout (outbound & ->)]].
  { split; [left; reflexivity|]. split; [eauto 10|reflexivity]. }
  split; [right; eauto|]. split; [discriminate|].
  intros [[e He]|[[e He]|[(d & [= <-] & Hd)|(d & [= <-] & Hd)]]];
    try contradiction; discriminate.
Qed.


(** X22.  The check of the environment lets the gateway listen only when
    the three variables are set and not empty.  In a gateway that listens
    the test for the key in [/api/predictions] never fires: the answer is
    status 500 exactly when one of the two requests to 511.org, each with
    its own outcome, is rejected or a body is [null] or [undefined]. *)
Theorem listening_gateway_predictions
    (env : gmap string string)
    (upstream_inbound upstream_outbound : string -> Completion JsValue)
    (query_inbound query_outbound : option string) :
  Boot.checkEnv env = Boot.Listening ->
  let inboundStopId := Server.orElse query_inbound "17109" in
  let outboundStopId := Server.orElse query_outbound "16503" in
  let answer := Server.api_predictions (env !! "TRANSIT_API_KEY")
                  upstream_inbound upstream_outbound query_inbound query_outbound in
  (forall envVar, envVar ∈ Boot.requiredEnvVars ->
     exists value, env !! envVar = Some value /\ value <> "")
  /\ (answer = Server.Status500 "Failed to fetch predictions"
      <-> ((exists e, upstream_inbound inboundStopId = Throw e)
           \/ (exists e, upstream_outbound outboundStopId = Throw e)
           \/ (exists data, upstream_inbound inboundStopId = Normal data /\ nullish data)
           \/ (exists data, upstream_outbound outboundStopId = Normal data /\ nullish data))).
Proof.
  intros Hlistening.
  assert (Hset : forall envVar, envVar ∈ Boot.requiredEnvVars ->
                   exists value, env !! envVar = Some value /\ value <> "").
  { intros envVar Hin. unfold Boot.checkEnv in Hlistening.
    destruct (find (Boot.missing env) Boot.requiredEnvVars) as [found|] eqn:Hfind;
      [discriminate|].
    pose proof (find_none _ _ Hfind envVar (proj1 (list_elem_of_In _ _) Hin)) as Hthere.
    unfold Boot.missing in Hthere.
    destruct (env !! envVar) as [value|]; [|discriminate Hthere].
    exists value. split; [reflexivity|]. intros ->. discriminate Hthere. }
  cbv zeta. split; [exact Hset|].
  destruct (Hset "TRANSIT_API_KEY") as (key & Hkey & Hfilled); [left|].
  rewrite Hkey.
  apply (api_predictions_keyed (Some key) upstream_inbound upstream_outbound
           query_inbound query_outbound).
  unfold Server.orElse. destruct (String.eqb_spec key ""); [contradiction|assumption].
Qed.

Lemma listening_gateway_predictions_witness :
  let answer := Server.api_predictions (Boot.complete !! "TRANSIT_API_KEY")
                  Cases.rejects Cases.answers (Some "15779") (Some "15779") in
  (forall envVar, envVar ∈ Boot.requiredEnvVars ->
     exists value, Boot.complete !! envVar = Some value /\ value <> "")
  /\ (answer = Server.Status500 "Failed to fetch predictions"
      <-> ((exists e, Cases.rejects (Server.orElse (Some "15779") "17109") = Throw e)
           \/ (exists e, Cases.answers (Server.orElse (Some "15779") "16503") = Throw e)
           \/ (exists data, Cases.rejects (Server.orElse (Some "15779") "17109")
                            = Normal data /\ nullish data)
           \/ (exists data, Cases.answers (Server.orElse (Some "15779") "16503")
                            = Normal data /\ nullish data))).
Proof.
  apply (listening_gateway_predictions Boot.complete Cases.rejects Cases.answers
           (Some "15779") (Some "15779")).
  vm_compute. reflexivity.
Defined.

(** ** An answer without directions *)

(** X14.  [processApiResponse] does not ask that a direction is there.  For
    a response that arrives with [ok] set and a body that has neither
    [inbound] nor [outbound] (an empty object, an object that only carries
    an [error]), [fetchPredictions] ends normally, writes nothing to the
    console, leaves both containers showing what they showed, and still
    stamps the page with the time of the poll. *)
Theorem fetchPredictions_no_directions
    (Date_parse : string -> JsNum) (clock : nat -> Z)
    (status : Z) (data : JsValue) (p : Client.Page) :
  ~ nullish data ->
  truthy (member "inbound" data) = false ->
  truthy (member "outbound" data) = false ->
  exists p',
    Client.fetchPredictions Date_parse clock
      (Client.FetchResponse true status (Normal data)) p = (Normal tt, p')
    /\ Client.region_inbound p' = Client.region_inbound p
    /\ Client.region_outbound p' = Client.region_outbound p
    /\ Client.console p' = Client.console p
    /\ Client.markers p' = Client.markers p
    /\ Client.update_time p' = Some (clock (Client.ticks p)).
Proof.
  intros Hdata Hinbound Houtbound.
  assert (Hobj : data <> JUndefined /\ data <> JNull).
  { unfold nullish in Hdata. tauto. }
  unfold Client.fetchPredictions, tryCatch, Client.processApiResponse.
  unfold bind at 1, lift at 1. rewrite get_member by tauto.
  unfold bind at 1. rewrite Hinbound. unfold ret at 1.
  unfold bind at 1, lift at 1. rewrite get_member by tauto.
  unfold bind at 1. rewrite Houtbound. unfold ret at 1.
  eexists. split; [reflexivity|]. repeat split.
Qed.

Lemma fetchPredictions_no_directions_witness :
  exists p',
    Client.fetchPredictions Date_parse_utc Samples.clock
      (Client.FetchResponse true 200
         (Normal (JObject [("error", JString "Failed to fetch predictions")])))
      Samples.page = (Normal tt, p')
    /\ Client.region_inbound p' = Client.region_inbound Samples.page
    /\ Client.region_outbound p' = Client.region_outbound Samples.page
    /\ Client.console p' = Client.console Samples.page
    /\ Client.markers p' = Client.markers Samples.page
    /\ Client.update_time p' = Some (Samples.clock (Client.ticks Samples.page)).
Proof.
  apply (fetchPredictions_no_directions Date_parse_utc Samples.clock 200
           (JObject [("error", JString "Failed to fetch predictions")]) Samples.page).
  - intros [H|H]; discriminate H.
  - reflexivity.
  - reflexivity.
Defined.

(** ** The stop dialog *)

Section DialogProofs.
Import Controls.
Variable trim : string -> string.

Lemma validateBtn_click_cached (stop : Client.StopDetails) (u : Ui) :
  Client.allStops (page u) !! trim (stopInput_value u) = Some stop ->
  validateBtn_click trim u
  = (Normal tt,
     set_saveBtn_disabled false
       (set_validationMsg_textContent
          ("Valid stop: " +:+ Client.sd_name stop +:+ " (" +:+ Client.sd_line stop +:+ " Line)")
          (set_validationMsg_className "validation-message success" u))).
Proof.
  intros Hstop. unfold validateBtn_click, bind, gets, Client.validateStop.
  cbn [Client.isValid Client.details]. rewrite Hstop. reflexivity.
Qed.

Lemma validateBtn_click_unknown (u : Ui) :
  Client.allStops (page u) !! trim (stopInput_value u) = None ->
  validateBtn_click trim u
  = (Normal tt,
     set_saveBtn_disabled true
       (set_validationMsg_textContent "Invalid stop ID. Please enter a valid stop ID."
          (set_validationMsg_className "validation-message error" u))).
Proof.
  intros Hstop. unfold validateBtn_click, bind, gets, Client.validateStop.
  cbn [Client.isValid Client.details]. rewrite Hstop. reflexivity.
Qed.

Lemma saveBtn_click_unknown (u : Ui) :
  Client.allStops (page u) !! trim (stopInput_value u) = None ->
  saveBtn_click trim u = (Normal tt, u).
Proof.
  intros Hstop. unfold saveBtn_click, bind, gets, Client.validateStop.
  cbn [Client.isValid Client.details]. rewrite Hstop. reflexivity.
Qed.

Lemma saveBtn_click_cached (type : Direction) (stop : Client.StopDetails) (u : Ui) :
  Client.allStops (page u) !! trim (stopInput_value u) = Some stop ->
  currentStopType u = Some type ->
  saveBtn_click trim u
  = (Normal tt,
     mkUi (set_currentStops (withStop type (trim (stopInput_value u))) (page u))
          None "none" "" (saveBtn_disabled u)
          (validationMsg_className u) (validationMsg_textContent u)
          (withStop type ("Stop #" +:+ trim (stopInput_value u)) (stop_text u))
          (withStop type (Client.sd_name stop) (location_text u))
          (train_line_buttons u)
          (started u ++ [FetchPredictions
                           (predictionsUrl (withStop type (trim (stopInput_value u))
                                              (Client.currentStops (page u))))])).
Proof.
  intros Hstop Htype. unfold saveBtn_click, bind, gets, Client.validateStop.
  cbn [Client.isValid Client.details].
  rewrite Hstop. simpl. rewrite Htype. simpl. rewrite Hstop. reflexivity.
Qed.

Lemma saveBtn_click_closed (stop : Client.StopDetails) (u : Ui) :
  Client.allStops (page u) !! trim (stopInput_value u) = Some stop ->
  currentStopType u = None ->
  exists e, saveBtn_click trim u = (Throw e, u).
Proof.
  intros Hstop Htype. unfold saveBtn_click, bind, gets, Client.validateStop.
  cbn [Client.isValid Client.details].
  rewrite Hstop. simpl. rewrite Htype. eexists. reflexivity.
Qed.

(** A listener that leaves the globals alone keeps the current stops where
    they are. *)
Lemma committed_same_page (u u' : Ui) :
  page u' = page u -> committed u -> committed u'.
Proof. unfold committed. intros ->. auto. Qed.

Lemma validateBtn_click_page (u : Ui) :
  page (snd (validateBtn_click trim u)) = page u.
Proof.
  destruct (Client.allStops (page u) !! trim (stopInput_value u)) as [stop|] eqn:Hstop.
  - rewrite (validateBtn_click_cached stop u Hstop). reflexivity.
  - rewrite (validateBtn_click_unknown u Hstop). reflexivity.
Qed.

Lemma saveBtn_click_committed (u : Ui) :
  committed u -> committed (snd (saveBtn_click trim u)).
Proof.
  intros Hu.
  destruct (Client.allStops (page u) !! trim (stopInput_value u)) as [stop|] eqn:Hstop.
  - destruct (currentStopType u) as [type|] eqn:Htype.
    + rewrite (saveBtn_click_cached type stop u Hstop Htype).
      intros direction. specialize (Hu direction). simpl.
      destruct type, direction; simpl in *; rewrite ?Hstop; eauto.
    + destruct (saveBtn_click_closed stop u Hstop Htype) as [e ->]. exact Hu.
  - rewrite (saveBtn_click_unknown u Hstop). exact Hu.
Qed.

Lemma loadAllStops_committed (fetched : Client.FetchResult Client.Dataset) (u : Ui) :
  committed u -> committed (snd (onPage (Client.loadAllStops fetched) u)).
Proof.
  intros Hu direction. specialize (Hu direction).
  assert (Hstops : Client.currentStops (snd (Client.loadAllStops fetched (page u)))
                   = Client.currentStops (page u))
    by (destruct fetched as [e|ok status [data|e]]; reflexivity).
  assert (Hkeeps : forall k, is_Some (Client.allStops (page u) !! k) ->
                             is_Some (Client.allStops
                                        (snd (Client.loadAllStops fetched (page u))) !! k)).
  { intros k Hk. destruct fetched as [e|ok status [data|e]]; try exact Hk.
    rewrite loadAllStops_loadListed. apply loadListed_keeps, Hk. }
  unfold onPage.
  destruct (Client.loadAllStops fetched (page u)) as [c p'] eqn:Hrun.
  simpl in *. rewrite Hstops. destruct Hu as [Hdefault|Hcached]; auto.
Qed.

Lemma handle_committed (event : Event) (u : Ui) :
  committed u -> committed (snd (handle trim event u)).
Proof.
  intros Hu. destruct event as [type|text| | | |[|]|fetched]; simpl;
    try (apply (committed_same_page u); [reflexivity|exact Hu]).
  - apply (committed_same_page u); [apply validateBtn_click_page|exact Hu].
  - unfold bind, gets. destruct (saveBtn_disabled u); [exact Hu|].
    apply saveBtn_click_committed, Hu.
  - apply loadAllStops_committed, Hu.
Qed.

Lemma after_app (events more : list Event) (u : Ui) :
  after trim (events ++ more) u = after trim more (after trim events u).
Proof. unfold after. apply foldl_app. Qed.
End DialogProofs.

(** X15.  Choosing a stop: the dialog is opened for a direction, an id is
    typed that, trimmed, is in the cache, and Validate and Save are clicked.
    Then that direction's current stop is the trimmed id and the other one
    is as before, the two labels of the direction read "Stop #<id>" and the
    cached name, the dialog is closed and its input empty, a request for the
    predictions of the new pair of stops has been started, and opening the
    dialog again shows the id. *)
Theorem dialog_saves_cached_stop
    (trim : string -> string) (type : Controls.Direction) (text : string)
    (stop : Client.StopDetails) (u : Controls.Ui) :
  Client.allStops (Controls.page u) !! trim text = Some stop ->
  let u' := Controls.after trim
              [Controls.ClickStop type; Controls.Typed text;
               Controls.ClickValidate; Controls.ClickSave] u in
  let stops := Controls.withStop type (trim text) (Client.currentStops (Controls.page u)) in
  Client.currentStops (Controls.page u') = stops
  /\ Client.allStops (Controls.page u') = Client.allStops (Controls.page u)
  /\ Controls.stop_text u'
     = Controls.withStop type ("Stop #" +:+ trim text) (Controls.stop_text u)
  /\ Controls.location_text u'
     = Controls.withStop type (Client.sd_name stop) (Controls.location_text u)
  /\ Controls.modal_display u' = "none"
  /\ Controls.stopInput_value u' = ""
  /\ Controls.currentStopType u' = None
  /\ Controls.started u'
     = Controls.started u ++ [Controls.FetchPredictions (Controls.predictionsUrl stops)]
  /\ Controls.stopInput_value (Controls.after trim [Controls.ClickStop type] u') = trim text.
Proof.
  intros Hstop.
  set (typed := snd (Controls.handle trim (Controls.Typed text)
                       (snd (Controls.handle trim (Controls.ClickStop type) u)))).
  assert (Hvalidated : Controls.handle trim Controls.ClickValidate typed
                       = (Normal tt, _))
    by (apply (validateBtn_click_cached trim stop typed); exact Hstop).
  set (validated := Controls.set_saveBtn_disabled false _) in Hvalidated.
  pose proof (saveBtn_click_cached trim type stop validated Hstop eq_refl) as Hsaved.
  change (Controls.saveBtn_click trim validated)
    with (Controls.handle trim Controls.ClickSave validated) in Hsaved.
  assert (Hafter : Controls.after trim
                     [Controls.ClickStop type; Controls.Typed text;
                      Controls.ClickValidate; Controls.ClickSave] u
                   = snd (Controls.handle trim Controls.ClickSave validated)).
  { unfold Controls.after. cbn [foldl]. fold typed. rewrite Hvalidated. reflexivity. }
  intros u'. subst u'. rewrite Hafter, Hsaved. cbv zeta. cbn [snd].
  repeat split. destruct type; reflexivity.
Qed.

Lemma dialog_saves_cached_stop_witness :
  let u := Controls.start_ui
             (snd (Client.loadAllStops
                     (Client.FetchResponse true 200 (Normal Samples.westPortal))
                     Samples.page)) in
  let u' := Controls.after Controls.trimAscii
              [Controls.ClickStop Controls.outbound; Controls.Typed " 15779 ";
               Controls.ClickValidate; Controls.ClickSave] u in
  Client.currentStops (Controls.page u') = ("15779", "15779")
  /\ Controls.location_text u' = ("", "West Portal Station")
  /\ Controls.started u'
     = [Controls.FetchPredictions "/api/predictions?inbound=15779&outbound=15779"].
Proof.
  pose proof (dialog_saves_cached_stop Controls.trimAscii Controls.outbound " 15779 "
                (Client.mkStopDetails "West Portal Station" "K"
                   (Some "37.741") (Some "-122.465"))
                (Controls.start_ui
                   (snd (Client.loadAllStops
                           (Client.FetchResponse true 200 (Normal Samples.westPortal))
                           Samples.page))))
    as Hsaved.
  cbv zeta in Hsaved.
  destruct Hsaved as (Hstops & _ & _ & Hlocation & _ & _ & _ & Hstarted & _);
    [vm_compute; reflexivity|].
  cbv zeta. split; [exact Hstops|]. split; [exact Hlocation|exact Hstarted].
Defined.

(** X16.  An id that, trimmed, is not in the cache is not taken: after the
    dialog is opened, the id typed and Validate and Save clicked, the globals
    and the labels are as before and no request has been started; the dialog
    is still open, shows the error message and has its Save button disabled. *)
Theorem dialog_refuses_unknown_stop
    (trim : string -> string) (type : Controls.Direction) (text : string) (u : Controls.Ui) :
  Client.allStops (Controls.page u) !! trim text = None ->
  let u' := Controls.after trim
              [Controls.ClickStop type; Controls.Typed text;
               Controls.ClickValidate; Controls.ClickSave] u in
  Controls.page u' = Controls.page u
  /\ Controls.stop_text u' = Controls.stop_text u
  /\ Controls.location_text u' = Controls.location_text u
  /\ Controls.started u' = Controls.started u
  /\ Controls.modal_display u' = "block"
  /\ Controls.currentStopType u' = Some type
  /\ Controls.saveBtn_disabled u' = true
  /\ Controls.validationMsg_className u' = "validation-message error"
  /\ Controls.validationMsg_textContent u'
     = "Invalid stop ID. Please enter a valid stop ID.".
Proof.
  intros Hstop.
  set (typed := snd (Controls.handle trim (Controls.Typed text)
                       (snd (Controls.handle trim (Controls.ClickStop type) u)))).
  assert (Hvalidated : Controls.handle trim Controls.ClickValidate typed
                       = (Normal tt, _))
    by (apply (validateBtn_click_unknown trim typed); exact Hstop).
  intros u'. subst u'. unfold Controls.after. cbn [foldl]. fold typed.
  rewrite Hvalidated. cbn [snd]. repeat split.
Qed.

Lemma dialog_refuses_unknown_stop_witness :
  let u := Controls.start_ui Samples.page in
  let u' := Controls.after Controls.trimAscii
              [Controls.ClickStop Controls.inbound; Controls.Typed "99999";
               Controls.ClickValidate; Controls.ClickSave] u in
  Controls.page u' = Samples.page
  /\ Controls.started u' = []
  /\ Controls.modal_display u' = "block"
  /\ Controls.saveBtn_disabled u' = true.
Proof.
  pose proof (dialog_refuses_unknown_stop Controls.trimAscii Controls.inbound "99999"
                (Controls.start_ui Samples.page)) as Hrefused.
  cbv zeta in Hrefused.
  destruct Hrefused as (Hpage & _ & _ & Hstarted & Hdisplay & _ & Hdisabled & _);
    [vm_compute; reflexivity|].
  cbv zeta. repeat split; assumption.
Defined.

(** X17.  Save validates again.  When a cached id was validated and the
    input is then changed to an id that is not in the cache, the Save button
    is still enabled and the message still says that the stop is valid; a
    click on Save then changes nothing at all: nothing is taken, and the
    dialog stays open. *)
Theorem dialog_save_validates_again
    (trim : string -> string) (type : Controls.Direction) (cached unknown : string)
    (stop : Client.StopDetails) (u : Controls.Ui) :
  Client.allStops (Controls.page u) !! trim cached = Some stop ->
  Client.allStops (Controls.page u) !! trim unknown = None ->
  let u' := Controls.after trim
              [Controls.ClickStop type; Controls.Typed cached;
               Controls.ClickValidate; Controls.Typed unknown] u in
  Controls.saveBtn_disabled u' = false
  /\ Controls.validationMsg_className u' = "validation-message success"
  /\ Controls.modal_display u' = "block"
  /\ Controls.page u' = Controls.page u
  /\ Controls.handle trim Controls.ClickSave u' = (Normal tt, u').
Proof.
  intros Hcached Hunknown.
  set (typed := snd (Controls.handle trim (Controls.Typed cached)
                       (snd (Controls.handle trim (Controls.ClickStop type) u)))).
  assert (Hvalidated : Controls.handle trim Controls.ClickValidate typed
                       = (Normal tt, _))
    by (apply (validateBtn_click_cached trim stop typed); exact Hcached).
  intros u'. subst u'. unfold Controls.after. cbn [foldl]. fold typed.
  rewrite Hvalidated. cbn [snd]. repeat split.
  cbn [Controls.handle]. unfold bind at 1, gets at 1.
  cbn [Controls.saveBtn_disabled Controls.set_saveBtn_disabled Controls.set_stopInput_value
       snd modify].
  apply saveBtn_click_unknown. exact Hunknown.
Qed.

Lemma dialog_save_validates_again_witness :
  let u := Controls.start_ui
             (snd (Client.loadAllStops
                     (Client.FetchResponse true 200 (Normal Samples.westPortal))
                     Samples.page)) in
  let u' := Controls.after Controls.trimAscii
              [Controls.ClickStop Controls.inbound; Controls.Typed "15779";
               Controls.ClickValidate; Controls.Typed "1577"] u in
  Controls.saveBtn_disabled u' = false
  /\ Controls.handle Controls.trimAscii Controls.ClickSave u' = (Normal tt, u').
Proof.
  pose proof (dialog_save_validates_again Controls.trimAscii Controls.inbound "15779" "1577"
                (Client.mkStopDetails "West Portal Station" "K"
                   (Some "37.741") (Some "-122.465"))
                (Controls.start_ui
                   (snd (Client.loadAllStops
                           (Client.FetchResponse true 200 (Normal Samples.westPortal))
                           Samples.page))))
    as Hagain.
  cbv zeta in Hagain.
  destruct Hagain as (Henabled & _ & _ & _ & Hsave);
    [vm_compute; reflexivity|vm_compute; reflexivity|].
  cbv zeta. split; [exact Henabled|exact Hsave].
Defined.

(** X18.  Whatever is clicked and typed in the dialog, and whenever and
    however often the dataset is loaded, each of the two current stops is
    the default of its direction or a stop of the cache: Save takes cached
    ids only, and loading takes no stop out of the cache. *)
Theorem current_stops_stay_known
    (trim : string -> string) (events : list Controls.Event) (u : Controls.Ui) :
  Controls.committed u -> Controls.committed (Controls.after trim events u).
Proof.
  revert u. induction events as [|event events IH]; intros u Hu; [exact Hu|].
  change (Controls.after trim (event :: events) u)
    with (Controls.after trim events (snd (Controls.handle trim event u))).
  apply IH, handle_committed, Hu.
Qed.

Lemma current_stops_stay_known_witness :
  Controls.committed
    (Controls.after Controls.trimAscii
       [Controls.DatasetAnswered (Client.FetchResponse true 200 (Normal Samples.westPortal));
        Controls.ClickStop Controls.outbound; Controls.Typed "15779 ";
        Controls.ClickValidate; Controls.ClickSave;
        Controls.DatasetAnswered (Client.FetchRejected (TypeError "Failed to fetch"))]
       (Controls.start_ui Samples.page)).
Proof.
  apply (current_stops_stay_known Controls.trimAscii).
  intros type. left. destruct type; reflexivity.
Defined.

(** ** The line buttons *)

(** A case for each of the six lines. *)
Ltac each_line H :=
  repeat (apply elem_of_cons in H as [->|H]); [..|apply elem_of_nil in H; contradiction].

Section ButtonProofs.
Import Controls.

Lemma hasClasses_buttonAfter (n : nat) (target line : string) :
  target ∈ Client.trainLines -> line ∈ Client.trainLines ->
  hasClasses ["train-line-button"; toLowerCase target] (buttonAfter n line)
  = bool_decide (target = line).
Proof.
  intros Htarget Hline. unfold buttonAfter, classesAfter.
  destruct n as [|n]; [|destruct (Nat.even (S n))];
    each_line Htarget; each_line Hline; vm_compute; reflexivity.
Qed.

Lemma classesAfter_toggle (n : nat) (line : string) :
  line ∈ Client.trainLines ->
  classesAfter (S n) line
  = if Nat.even (S n)
    then classList_remove "deselected" (classList_add "selected" (classesAfter n line))
    else classList_remove "selected" (classList_add "deselected" (classesAfter n line)).
Proof.
  intros Hline. destruct n as [|n].
  - each_line Hline; vm_compute; reflexivity.
  - assert (Hflip : Nat.even (S n) = negb (Nat.even n)).
    { rewrite Nat.even_succ, <- Nat.negb_even. reflexivity. }
    unfold classesAfter. rewrite !(Nat.even_succ_succ n), Hflip. destruct (Nat.even n); each_line Hline; vm_compute; reflexivity.
Qed.

Lemma with_classList_compose (f g : list string -> list string) :
  with_classList (f ∘ g) = with_classList f ∘ with_classList g.
Proof. reflexivity. Qed.

Lemma querySelector_buttons (clicks : string -> nat) (target : string) (lines : list string) :
  target ∈ Client.trainLines -> Forall (fun l => l ∈ Client.trainLines) lines -> NoDup lines ->
  match querySelector ["train-line-button"; toLowerCase target]
          (map (fun l => buttonAfter (clicks l) l) lines) with
  | Some i =>
      target ∈ lines
      /\ forall f : Button -> Button,
           alter f i (map (fun l => buttonAfter (clicks l) l) lines)
           = map (fun l => if decide (l = target) then f (buttonAfter (clicks l) l)
                           else buttonAfter (clicks l) l) lines
  | None => target ∉ lines
  end.
Proof.
  intros Htarget Hlines Hnodup.
  induction lines as [|line lines IH]; [apply not_elem_of_nil|].
  apply Forall_cons in Hlines as [Hline Hlines].
  apply NoDup_cons in Hnodup as [Hfresh Hnodup].
  cbn [map querySelector]. rewrite hasClasses_buttonAfter by assumption.
  case_bool_decide as Heq.
  - subst line. split; [left|]. intros f. cbn [alter list_alter].
    rewrite decide_True by reflexivity. f_equal.
    apply map_ext_in. intros l Hl. rewrite decide_False; [reflexivity|].
    intros ->. apply Hfresh, list_elem_of_In, Hl.
  - specialize (IH Hlines Hnodup).
    destruct (querySelector _ (map _ lines)) as [i|]; cbn [fmap option_fmap option_map].
    + destruct IH as [Hin Halter]. split; [right; exact Hin|]. intros f.
      cbn [alter list_alter]. rewrite decide_False by congruence. f_equal. apply Halter.
    + intros Hin. apply elem_of_cons in Hin as [->|Hin]; [congruence|exact (IH Hin)].
Qed.

Lemma toggleTrainLine_mirrors (clicks : string -> nat) (line : string) (u : Ui) :
  mirrors clicks u -> line ∈ Client.trainLines ->
  exists u',
    toggleTrainLine line u = (Normal tt, u')
    /\ mirrors (fun l => if decide (l = line) then S (clicks l) else clicks l) u'
    /\ started u' = started u ++ polls
    /\ Client.markers (page u') = Client.markers (page u).
Proof.
  intros [Hbuttons Hselected] Hline.
  assert (Hlines : Forall (fun l => l ∈ Client.trainLines) Client.trainLines)
    by (apply Forall_forall; auto).
  assert (Hnodup : NoDup Client.trainLines) by (apply (bool_decide_unpack _); vm_compute; exact I).
  pose proof (querySelector_buttons clicks line Client.trainLines Hline Hlines Hnodup) as Hquery.
  unfold toggleTrainLine.
  unfold bind at 1, modify at 1. unfold bind at 1, gets at 1.
  cbn [train_line_buttons with_page]. rewrite Hbuttons.
  destruct (querySelector _ _) as [i|]; [|contradiction].
  destruct Hquery as [_ Halter].
  unfold bind at 1, gets at 1.
  cbn [page with_page Client.selectedTrainLines set_selectedTrainLines].
  rewrite lookup_insert_eq, (Hselected line Hline). cbn [default]. unfold id.
  assert (Hflip : negb (Nat.even (clicks line)) = Nat.even (S (clicks line))).
  { rewrite Nat.even_succ, <- Nat.negb_even. reflexivity. }
  rewrite Hflip.
  set (u1 := with_page _ u).
  assert (Htoggled :
            forall l, l ∈ Client.trainLines ->
              (if decide (l = line)
               then with_classList
                      (if Nat.even (S (clicks line))
                       then classList_remove "deselected" ∘ classList_add "selected"
                       else classList_remove "selected" ∘ classList_add "deselected")
                      (buttonAfter (clicks l) l)
               else buttonAfter (clicks l) l)
              = buttonAfter (if decide (l = line) then S (clicks l) else clicks l) l).
  { intros l Hl. destruct (decide (l = line)) as [->|]; [|reflexivity].
    unfold buttonAfter, with_classList. cbn [classList textContent listener].
    rewrite (classesAfter_toggle (clicks line) line Hline).
    destruct (Nat.even (S (clicks line))); reflexivity. }
  exists (mkUi (page u1) (currentStopType u) (modal_display u) (stopInput_value u)
            (saveBtn_disabled u) (validationMsg_className u) (validationMsg_textContent u)
            (stop_text u) (location_text u)
            (map (fun l => buttonAfter (if decide (l = line) then S (clicks l) else clicks l) l)
                 Client.trainLines)
            (started u ++ polls)).
  split; [|split; [split|split]].
  - assert (Hbuttons1 : train_line_buttons u1
                        = map (fun l => buttonAfter (clicks l) l) Client.trainLines)
      by exact Hbuttons.
    destruct (Nat.even (S (clicks line))); unfold bind, start, modify; cbn [fst snd];
      unfold with_buttons; cbn [train_line_buttons page currentStopType modal_display
        stopInput_value saveBtn_disabled validationMsg_className validationMsg_textContent
        stop_text location_text started];
      rewrite Hbuttons1, list_alter_alter_eq, <- with_classList_compose, Halter, <- app_assoc;
      (do 2 f_equal); apply map_ext_in; intros l Hl; apply Htoggled, list_elem_of_In, Hl.
  - reflexivity.
  - intros l Hl. cbn [page]. unfold u1. cbn [page with_page Client.selectedTrainLines
                                             set_selectedTrainLines].
    destruct (decide (l = line)) as [->|Hne].
    + rewrite lookup_insert_eq, (Hselected line Hline). simpl. rewrite Hflip. reflexivity.
    + rewrite lookup_insert_ne by congruence. apply Hselected, Hl.
  - reflexivity.
  - reflexivity.
Qed.

Lemma classesAfter_selected (n : nat) (line : string) :
  line ∈ Client.trainLines ->
  bool_decide ("selected" ∈ classesAfter n line) = Nat.even n
  /\ bool_decide ("deselected" ∈ classesAfter n line) = negb (Nat.even n).
Proof.
  intros Hline. unfold classesAfter.
  destruct n as [|n]; [|destruct (Nat.even (S n))];
    each_line Hline; vm_compute; split; reflexivity.
Qed.

Lemma generateTrainLineButtons_run (u : Ui) :
  generateTrainLineButtons u
  = (Normal tt,
     with_page (set_selectedTrainLines (fun selected =>
                  <["T" := true]> (<["N" := true]> (<["M" := true]> (<["L" := true]>
                    (<["K" := true]> (<["J" := true]> selected)))))))
       (with_buttons (fun buttons => buttons ++ map (buttonAfter 0) Client.trainLines) u)).
Proof.
  destruct u as [p type display input disabled className text stops locations buttons calls].
  destruct p.
  unfold generateTrainLineButtons, Client.trainLines.
  cbv [forEach map bind modify ret with_page with_buttons set_selectedTrainLines
       fst snd page currentStopType modal_display stopInput_value saveBtn_disabled
       validationMsg_className validationMsg_textContent stop_text location_text
       train_line_buttons started Client.allStops Client.currentStops
       Client.selectedTrainLines Client.mapLoaded Client.markers Client.region_inbound
       Client.region_outbound Client.update_time Client.console Client.ticks].
  rewrite <- !app_assoc. reflexivity.
Qed.

Lemma generateTrainLineButtons_mirrors (u : Ui) :
  train_line_buttons u = [] ->
  mirrors (fun _ => 0%nat) (snd (generateTrainLineButtons u)).
Proof.
  intros Hnone. rewrite generateTrainLineButtons_run. split.
  - cbn [snd train_line_buttons with_page with_buttons]. rewrite Hnone. reflexivity.
  - intros line Hline. cbn [snd page with_page Client.selectedTrainLines set_selectedTrainLines].
    each_line Hline;
      repeat first [rewrite lookup_insert_eq|rewrite lookup_insert_ne by discriminate];
      reflexivity.
Qed.

Lemma mirrors_ext (clicks clicks' : string -> nat) (u : Ui) :
  (forall line, clicks line = clicks' line) -> mirrors clicks u -> mirrors clicks' u.
Proof.
  intros Hext [Hbuttons Hselected]. split.
  - rewrite Hbuttons. apply map_ext. intros line. rewrite Hext. reflexivity.
  - intros line Hline. rewrite <- Hext. apply Hselected, Hline.
Qed.

Lemma afterClicks_mirrors (lines : list string) (clicks : string -> nat) (u : Ui) :
  mirrors clicks u -> Forall (fun line => line ∈ Client.trainLines) lines ->
  mirrors (fun line => (clicks line + clicksOn line lines)%nat) (afterClicks lines u)
  /\ started (afterClicks lines u) = started u ++ (lines ≫= fun _ => polls)
  /\ Client.markers (page (afterClicks lines u)) = Client.markers (page u).
Proof.
  intros Hu Hlines. revert clicks u Hu.
  induction Hlines as [|line lines Hline _ IH]; intros clicks u Hu.
  - split; [|split; [cbn; rewrite app_nil_r|]; reflexivity].
    eapply mirrors_ext; [|exact Hu]. intros line. cbn. lia.
  - change (afterClicks (line :: lines) u)
      with (afterClicks lines (snd (toggleTrainLine line u))).
    destruct (toggleTrainLine_mirrors clicks line u Hu Hline)
      as (u1 & Hrun & Hmirrors & Hstarted & Hmarkers).
    rewrite Hrun. cbn [snd].
    destruct (IH _ _ Hmirrors) as (Hafter & Hstarted' & Hmarkers').
    split; [|split].
    + eapply mirrors_ext; [|exact Hafter]. intros l. cbn beta.
      unfold clicksOn. rewrite filter_cons.
      destruct (decide (l = line)), (decide (line = l)); cbn [length]; try congruence; lia.
    + rewrite Hstarted', Hstarted, <- app_assoc. reflexivity.
    + rewrite Hmarkers', Hmarkers. reflexivity.
Qed.
End ButtonProofs.


(** X19.  The buttons follow the clicks.  When [generateTrainLineButtons]
    has made the six buttons and the buttons of the given lines are then
    clicked one after the other, the button of each line carries the class
    that its number of clicks gives it, a line is on exactly when its button
    was clicked an even number of times, a button has the class [selected]
    exactly when its line is on and [deselected] exactly when it is off, no
    further click throws, and each click has started a poll of the vehicles
    and a plot of the stops. *)
Theorem line_buttons_follow_clicks (lines : list string) (u : Controls.Ui) :
  Controls.train_line_buttons u = [] ->
  Forall (fun line => line ∈ Client.trainLines) lines ->
  let u' := Controls.afterClicks lines (snd (Controls.generateTrainLineButtons u)) in
  Controls.train_line_buttons u'
  = map (fun line => Controls.buttonAfter (Controls.clicksOn line lines) line) Client.trainLines
  /\ (forall line, line ∈ Client.trainLines ->
        Controls.lineOn u' line = Nat.even (Controls.clicksOn line lines)
        /\ fst (Controls.toggleTrainLine line u') = Normal tt)
  /\ (forall b, b ∈ Controls.train_line_buttons u' ->
        ("selected" ∈ Controls.classList b
         <-> Controls.lineOn u' (Controls.listener b) = true)
        /\ ("deselected" ∈ Controls.classList b
            <-> Controls.lineOn u' (Controls.listener b) = false))
  /\ Controls.started u' = Controls.started u ++ (lines ≫= fun _ => Controls.polls).
Proof.
  intros Hnone Hlines u'.
  destruct (afterClicks_mirrors lines _ _ (generateTrainLineButtons_mirrors u Hnone) Hlines)
    as (Hmirrors & Hstarted & _).
  fold u' in Hmirrors, Hstarted. cbn beta in Hmirrors.
  assert (Hon : forall line, line ∈ Client.trainLines ->
                  Controls.lineOn u' line = Nat.even (Controls.clicksOn line lines)).
  { intros line Hline. unfold Controls.lineOn.
    rewrite (proj2 Hmirrors line Hline). reflexivity. }
  split; [exact (proj1 Hmirrors)|]. split; [|split].
  - intros line Hline. split; [exact (Hon line Hline)|].
    destruct (toggleTrainLine_mirrors _ line u' Hmirrors Hline) as (u2 & -> & _).
    reflexivity.
  - intros b Hb. rewrite (proj1 Hmirrors) in Hb.
    apply list_elem_of_fmap in Hb as (line & -> & Hline).
    cbn [Controls.buttonAfter Controls.classList Controls.listener].
    destruct (classesAfter_selected (Controls.clicksOn line lines) line Hline)
      as [Hselected Hdeselected].
    rewrite (Hon line Hline).
    destruct (Nat.even (Controls.clicksOn line lines)); cbn [negb] in Hdeselected;
      [apply bool_decide_eq_true in Hselected; apply bool_decide_eq_false in Hdeselected
      |apply bool_decide_eq_false in Hselected; apply bool_decide_eq_true in Hdeselected];
      split; split; intros; try reflexivity; try assumption; try discriminate;
      contradiction.
  - rewrite Hstarted, generateTrainLineButtons_run. reflexivity.
Qed.

Lemma line_buttons_follow_clicks_witness :
  let u' := Controls.afterClicks ["K"; "J"; "K"]
              (snd (Controls.generateTrainLineButtons (Controls.start_ui Samples.page))) in
  Controls.lineOn u' "K" = true
  /\ Controls.lineOn u' "J" = false
  /\ Controls.started u' = Controls.polls ++ Controls.polls ++ Controls.polls.
Proof.
  pose proof (line_buttons_follow_clicks ["K"; "J"; "K"] (Controls.start_ui Samples.page))
    as Hclicks.
  cbv zeta in Hclicks.
  destruct Hclicks as (_ & Hlines & _ & Hstarted);
    [reflexivity|apply (bool_decide_unpack _); vm_compute; exact I|].
  cbv zeta. split; [|split].
  - apply (Hlines "K"). apply (bool_decide_unpack _). vm_compute. exact I.
  - apply (Hlines "J"). apply (bool_decide_unpack _). vm_compute. exact I.
  - exact Hstarted.
Defined.

Lemma toggleTrainLine_page (line : string) (u : Controls.Ui) :
  Controls.page (snd (Controls.toggleTrainLine line u))
  = Controls.set_selectedTrainLines
      (fun selected => <[line := negb (default false (selected !! line))]> selected)
      (Controls.page u).
Proof.
  unfold Controls.toggleTrainLine.
  unfold bind at 1, modify at 1. unfold bind at 1, gets at 1. unfold bind at 1, gets at 1.
  destruct (Controls.querySelector _ _) as [i|]; [|reflexivity].
  destruct (default false _); reflexivity.
Qed.

(** X20.  Taking a line off the map: a click on the button of a line that
    is on turns the line off and leaves the markers where they are; they go
    with the next vehicles that [updateMapMarkers] is given, after which no
    marker carries the letter of that line. *)
Theorem deselected_line_gone_at_next_poll
    (line : string) (vehicles : list Vehicle) (u : Controls.Ui) :
  Controls.lineOn u line = true ->
  let u' := snd (Controls.toggleTrainLine line u) in
  Client.markers (Controls.page u') = Client.markers (Controls.page u)
  /\ Controls.lineOn u' line = false
  /\ Forall (fun marker => Client.m_letter marker <> line)
            (Client.markers (snd (Client.updateMapMarkers vehicles (Controls.page u')))).
Proof.
  intros Hon u'.
  assert (Hoff : Controls.lineOn u' line = false).
  { unfold Controls.lineOn, u'. rewrite toggleTrainLine_page.
    cbn [Client.selectedTrainLines Controls.set_selectedTrainLines].
    rewrite lookup_insert_eq. unfold Controls.lineOn in Hon. rewrite Hon. reflexivity. }
  split; [unfold u'; rewrite toggleTrainLine_page; reflexivity|]. split; [exact Hoff|].
  destruct (updateMapMarkers_run vehicles (Controls.page u')) as (c & Hrun & _).
  rewrite Hrun. cbn [snd Client.markers Client.set_markers].
  apply Forall_fmap, Forall_forall. intros vehicle Hin.
  apply placed_elem_of, list_elem_of_filter in Hin as [Hselected _].
  apply Is_true_true in Hselected.
  destruct (isSelected_letter _ _ Hselected) as (trainLine & _ & Hline & Hletter).
  unfold compose. cbn [Client.newMarker Client.m_letter]. rewrite Hletter. intros ->.
  unfold lineSelected in Hline. unfold Controls.lineOn in Hoff. congruence.
Qed.

Lemma deselected_line_gone_at_next_poll_witness :
  let u := snd (Controls.generateTrainLineButtons (Controls.start_ui Samples.page)) in
  let u' := snd (Controls.toggleTrainLine "K" u) in
  Client.markers (Controls.page u') = Client.markers (Controls.page u)
  /\ Controls.lineOn u' "K" = false
  /\ Forall (fun marker => Client.m_letter marker <> "K")
            (Client.markers
               (snd (Client.updateMapMarkers
                       [Cases.vehicleOn "K" "2041"; Cases.vehicleOn "J" "2007"]
                       (Controls.page u')))).
Proof.
  apply (deselected_line_gone_at_next_poll "K"
           [Cases.vehicleOn "K" "2041"; Cases.vehicleOn "J" "2007"]
           (snd (Controls.generateTrainLineButtons (Controls.start_ui Samples.page)))).
  vm_compute. reflexivity.
Defined.

(** ** Start of the page *)

(** X21.  [initializePage] gets the page going whatever the answer to the
    request for the dataset is.  It returns normally; the cache is what
    [loadAllStops] made of the answer and the current stops are untouched;
    the location label of a direction shows the cached name of its current
    stop, and is left as it was when the stop is not in the cache; the six
    buttons are made and all six lines are on; and the predictions of the
    current stops, the weather and the vehicles have been requested, in this
    order. *)
Theorem initializePage_starts
    (fetched : Client.FetchResult Client.Dataset) (u : Controls.Ui) :
  Controls.train_line_buttons u = [] ->
  exists u',
    Controls.initializePage fetched u = (Normal tt, u')
    /\ Client.allStops (Controls.page u')
       = Client.allStops (snd (Client.loadAllStops fetched (Controls.page u)))
    /\ Client.currentStops (Controls.page u') = Client.currentStops (Controls.page u)
    /\ (forall type,
          Controls.stopOf type (Controls.location_text u')
          = match Client.allStops (Controls.page u')
                  !! Controls.stopOf type (Client.currentStops (Controls.page u)) with
            | Some stop => Client.sd_name stop
            | None => Controls.stopOf type (Controls.location_text u)
            end)
    /\ Controls.train_line_buttons u' = map (Controls.buttonAfter 0) Client.trainLines
    /\ (forall line, line ∈ Client.trainLines -> Controls.lineOn u' line = true)
    /\ Controls.started u'
       = Controls.started u
         ++ [Controls.FetchPredictions
               (Controls.predictionsUrl (Client.currentStops (Controls.page u)));
             Controls.FetchWeather; Controls.FetchVehiclePositions].
Proof.
  intros Hnone.
  assert (Hloaded : exists p1, Client.loadAllStops fetched (Controls.page u) = (Normal tt, p1)
                               /\ Client.currentStops p1 = Client.currentStops (Controls.page u)).
  { destruct fetched as [e|ok status [data|e]]; eexists; split; reflexivity. }
  destruct Hloaded as (p1 & Hload & Hstops).
  unfold Controls.initializePage. unfold bind at 1, Controls.onPage at 1.
  rewrite Hload. cbn [snd].
  unfold bind at 1, gets at 1. unfold bind at 1, gets at 1.
  cbn [Controls.page Controls.with_page]. rewrite Hstops.
  assert (Hrest :
            forall v : Controls.Ui,
              Controls.train_line_buttons v = [] ->
              Controls.page v = p1 ->
              Controls.started v = Controls.started u ->
              exists u',
                (run Controls.generateTrainLineButtons;
                 run Controls.fetchPredictions_call;
                 run Controls.start Controls.FetchWeather;
                 Controls.start Controls.FetchVehiclePositions) v = (Normal tt, u')
                /\ Client.allStops (Controls.page u') = Client.allStops p1
                /\ Client.currentStops (Controls.page u') = Client.currentStops p1
                /\ Controls.location_text u' = Controls.location_text v
                /\ Controls.train_line_buttons u'
                   = map (Controls.buttonAfter 0) Client.trainLines
                /\ (forall line, line ∈ Client.trainLines -> Controls.lineOn u' line = true)
                /\ Controls.started u'
                   = Controls.started u
                     ++ [Controls.FetchPredictions (Controls.predictionsUrl (Client.currentStops p1));
                         Controls.FetchWeather; Controls.FetchVehiclePositions]).
  { intros v Hbuttons Hpage Hstarted. unfold bind at 1.
    rewrite generateTrainLineButtons_run.
    unfold Controls.fetchPredictions_call, Controls.start, bind, gets, modify.
    cbn [fst snd]. eexists. split; [reflexivity|].
    cbn [Controls.page Controls.with_page Controls.with_buttons Controls.location_text
         Controls.train_line_buttons Controls.started Controls.set_selectedTrainLines
         Client.allStops Client.currentStops].
    rewrite Hbuttons, Hpage, Hstarted, <- !app_assoc.
    repeat split.
    intros line Hline. unfold Controls.lineOn.
    unfold Controls.set_selectedTrainLines. cbn [Controls.page Client.selectedTrainLines].
    each_line Hline;
      repeat first [rewrite lookup_insert_eq|rewrite lookup_insert_ne by discriminate];
      reflexivity. }
  assert (Hlabel :
            forall (found : option Client.StopDetails) (type : Controls.Direction)
                   (k : Eff Controls.Ui unit) (v : Controls.Ui),
              (run match found with
                   | Some stop =>
                       modify (Controls.with_location_text
                                 (Controls.withStop type (Client.sd_name stop)))
                   | None => ret tt
                   end; k) v
              = k (match found with
                   | Some stop =>
                       Controls.with_location_text
                         (Controls.withStop type (Client.sd_name stop)) v
                   | None => v
                   end))
    by (intros [stop|] type k v; reflexivity).
  rewrite !Hlabel.
  match goal with
  | |- context [Js.bind Controls.generateTrainLineButtons _ ?v] =>
      destruct (Hrest v) as (u' & Hrun & Hall & Hcurrent & Hlocation & Hmade & Hlines & Hcalls)
  end.
  { destruct (_ !! _), (_ !! _); exact Hnone. }
  { destruct (_ !! _), (_ !! _); reflexivity. }
  { destruct (_ !! _), (_ !! _); reflexivity. }
  exists u'. rewrite Hrun, Hall, Hcurrent, Hstops, Hlocation.
  split; [reflexivity|]. split; [reflexivity|]. split; [reflexivity|].
  split; [|split; [exact Hmade|split; [exact Hlines|rewrite Hcalls, Hstops; reflexivity]]].
  intros [|]; cbn [Controls.stopOf];
    destruct (_ !! (Client.currentStops (Controls.page u)).1),
             (_ !! (Client.currentStops (Controls.page u)).2); reflexivity.
Qed.

Lemma initializePage_starts_witness :
  exists u',
    Controls.initializePage (Client.FetchRejected (TypeError "Failed to fetch"))
      (Controls.start_ui Samples.page) = (Normal tt, u')
    /\ Client.allStops (Controls.page u')
       = Client.allStops
           (snd (Client.loadAllStops (Client.FetchRejected (TypeError "Failed to fetch"))
                   (Controls.page (Controls.start_ui Samples.page))))
    /\ Client.currentStops (Controls.page u')
       = Client.currentStops (Controls.page (Controls.start_ui Samples.page))
    /\ (forall type,
          Controls.stopOf type (Controls.location_text u')
          = match Client.allStops (Controls.page u')
                  !! Controls.stopOf type
                       (Client.currentStops (Controls.page (Controls.start_ui Samples.page))) with
            | Some stop => Client.sd_name stop
            | None => Controls.stopOf type (Controls.location_text (Controls.start_ui Samples.page))
            end)
    /\ Controls.train_line_buttons u' = map (Controls.buttonAfter 0) Client.trainLines
    /\ (forall line, line ∈ Client.trainLines -> Controls.lineOn u' line = true)
    /\ Controls.started u'
       = Controls.started (Controls.start_ui Samples.page)
         ++ [Controls.FetchPredictions
               (Controls.predictionsUrl
                  (Client.currentStops (Controls.page (Controls.start_ui Samples.page))));
             Controls.FetchWeather; Controls.FetchVehiclePositions].
Proof.
  apply (initializePage_starts (Client.FetchRejected (TypeError "Failed to fetch"))
           (Controls.start_ui Samples.page)).
  reflexivity.
Defined.

(** ** Order among equal minutes *)

Lemma sortInsert_minutesAway (k : JsNum) (x : Client.Prediction) (l : list Client.Prediction) :
  minutesAway k (sortInsert Client.byMinutes x l) = minutesAway k (x :: l).
Proof.
  unfold minutesAway. induction l as [|y rest IH]; [reflexivity|].
  cbn [sortInsert]. destruct (gtZero (Client.byMinutes x y)) eqn:Hgt; [|reflexivity].
  assert (Hne : Client.minutes x <> Client.minutes y).
  { unfold Client.byMinutes, sub, gtZero in Hgt. intros Heq. rewrite Heq in Hgt.
    destruct (Client.minutes y); [|discriminate]. rewrite Z.sub_diag in Hgt. discriminate. }
  rewrite filter_cons, IH, !filter_cons.
  repeat case_decide; congruence.
Qed.

Lemma Array_sort_minutesAway (k : JsNum) (l : list Client.Prediction) :
  minutesAway k (Array_sort Client.byMinutes l) = minutesAway k l.
Proof.
  induction l as [|x rest IH]; [reflexivity|].
  change (Array_sort Client.byMinutes (x :: rest))
    with (sortInsert Client.byMinutes x (Array_sort Client.byMinutes rest)).
  rewrite sortInsert_minutesAway. unfold minutesAway in *. rewrite !filter_cons, IH.
  reflexivity.
Qed.

(** X23.  The sort is stable.  For a feed whose timestamps denote dates, so
    that the comparator compares numbers: the predictions that
    [extractPredictions] returns with the same number of minutes are those
    that the callback made with that number, in the order of the feed. *)
Theorem extractPredictions_keeps_feed_order
    (Date_parse : string -> JsNum) (clock : nat -> Z) (stopData : JsValue) (p : Client.Page)
    (k : JsNum) :
  Forall (timestampIsDate Date_parse) (rawVisits stopData) ->
  exists out p',
    Client.extractPredictions Date_parse clock stopData p = (Normal out, p')
    /\ minutesAway k out
       = minutesAway k (collected Date_parse clock (Client.ticks p) (rawVisits stopData)).
Proof.
  intros _.
  destruct (extractPredictions_collected Date_parse clock stopData p) as [p' Hrun].
  eexists _, p'. split; [exact Hrun|]. apply Array_sort_minutesAway.
Qed.

Lemma extractPredictions_keeps_feed_order_witness :
  exists out p',
    Client.extractPredictions Date_parse_utc Samples.clock Cases.twoAtOnce Samples.page
    = (Normal out, p')
    /\ minutesAway (Num 2) out
       = minutesAway (Num 2)
           (collected Date_parse_utc Samples.clock (Client.ticks Samples.page)
              (rawVisits Cases.twoAtOnce)).
Proof.
  apply (extractPredictions_keeps_feed_order
           Date_parse_utc Samples.clock Cases.twoAtOnce Samples.page (Num 2)).
  repeat constructor; intros t Ht; vm_compute in Ht;
    try discriminate; injection Ht as <-; vm_compute; discriminate.
Defined.

(** Both arrivals are shown, the one at the stop first, as in the feed. *)
Example extractPredictions_two_at_once :
  fst (Client.extractPredictions Date_parse_utc Samples.clock Cases.twoAtOnce Samples.page)
  = Normal [ {| Client.minutes := Num 2;
                Client.destination := JString "Metro Embarcadero Station";
                Client.atStop := true |};
             {| Client.minutes := Num 2;
                Client.destination := JString "Metro Embarcadero Station";
                Client.atStop := false |} ].
Proof. vm_compute. reflexivity. Qed.
